(** * Creative-Platform: feature aggregation, validation and inference

    A shallow embedding of the feature pipeline of the repository:

    - [Server]: [computeMetrics] of [data_collector_2/server/server.js]
      together with the helpers [toMin], [roundMin] and [safeRatio] of
      [src/server.js], over the rows of the [raw_events] table;
    - [ML]: the class [DataProcessor] ([_validate_data], [_preprocess_data],
      [fit_transform], [transform]) and [predict_dataframe] of
      [predict_pipeline];
    - [Api] and [Extension]: the handler of [POST /events/batch] and the
      background script that sends the events.

    Numbers.  JavaScript and NumPy numbers are IEEE doubles.  They are
    modelled here by exact rationals, extended on the JavaScript side with
    the three special values a division can produce.  Rounding errors of
    the binary representation are therefore outside the model, the special
    values of a division by zero are inside it.  Where the code rounds a
    number that is a tie in exact arithmetic ([toMin], [toFixed]), the
    doubles of the code can fall on the other side of the tie. *)

From Stdlib Require Import String Ascii.
From Stdlib Require Import ZArith QArith Qround Qabs List Bool.
From Stdlib Require Import Lia Lqa Permutation Sorted.
Import ListNotations.

Local Open Scope string_scope.
Local Open Scope list_scope.
Local Open Scope Z_scope.

(** ** Rationals in lowest terms

    Every finite number is kept in lowest terms, so that two results are
    the same number exactly when they are equal terms. *)

Definition Qle_b (x y : Q) : bool := Qle_bool x y.
Definition Qlt_b (x y : Q) : bool := negb (Qle_bool y x).
Definition Qint (z : Z) : Q := inject_Z z.

Module Server.

(** ** JavaScript numbers *)

Inductive jsnum : Type :=
| Fin (q : Q)
| PosInf
| NegInf
| NaN.

Definition fin (q : Q) : jsnum := Fin (Qred q).
Definition of_int (z : Z) : jsnum := Fin (Qint z).

Definition is_NaN (x : jsnum) : bool :=
  match x with NaN => true | _ => false end.

Definition inf_of_sign (positive : bool) : jsnum :=
  if positive then PosInf else NegInf.

(** [x / y] of JavaScript: [0 / 0] is [NaN], any other finite number
    divided by zero is an infinity. *)
Definition js_div (x y : jsnum) : jsnum :=
  match x, y with
  | NaN, _ | _, NaN => NaN
  | Fin a, Fin b =>
      if Qeq_bool b 0 then
        (if Qeq_bool a 0 then NaN else inf_of_sign (Qle_b 0 a))
      else fin (a / b)
  | Fin _, _ => Fin 0
  | PosInf, Fin b => inf_of_sign (Qle_b 0 b)
  | NegInf, Fin b => inf_of_sign (negb (Qle_b 0 b))
  | _, _ => NaN
  end.

Definition js_mul (x y : jsnum) : jsnum :=
  match x, y with
  | NaN, _ | _, NaN => NaN
  | Fin a, Fin b => fin (a * b)
  | Fin a, PosInf | PosInf, Fin a =>
      if Qeq_bool a 0 then NaN else inf_of_sign (Qle_b 0 a)
  | Fin a, NegInf | NegInf, Fin a =>
      if Qeq_bool a 0 then NaN else inf_of_sign (negb (Qle_b 0 a))
  | PosInf, PosInf | NegInf, NegInf => PosInf
  | _, _ => NegInf
  end.

(** [Math.round]: the nearest integer, a tie going up.  The ties are those
    of exact arithmetic: 8700 ms are 14.5 hundredths of a minute here and
    make 0.15, where the doubles of the code hold 14.499999999999998 and
    make 0.14. *)
Definition round_half_up (q : Q) : Z := Qfloor (q + (1 # 2)).

Definition Math_round (x : jsnum) : jsnum :=
  match x with
  | Fin q => of_int (round_half_up q)
  | other => other
  end.

(** [Number(x.toFixed(2))]: two decimals, a tie of exact arithmetic going
    away from zero (the double nearest to 1.075 is below it, and the code
    makes 1.07 of it). *)
Definition toFixed2 (x : jsnum) : jsnum :=
  match x with
  | Fin q =>
      if Qlt_b q 0
      then fin (- (Qint (round_half_up (- q * 100)) / 100))
      else fin (Qint (round_half_up (q * 100)) / 100)
  | other => other
  end.

(** ** Helpers of [src/server.js] *)

Definition roundMin (ms : jsnum) : jsnum :=
  js_div (Math_round (js_mul (js_div ms (of_int 60000)) (of_int 100))) (of_int 100).

Definition toMin (ms : jsnum) : jsnum :=
  js_div (Math_round (js_mul (js_div ms (of_int 60000)) (of_int 100))) (of_int 100).

Definition safeRatio (num den : Z) : jsnum :=
  if 0 <? den then js_div (of_int num) (of_int den) else of_int 0.

(** ** The [raw_events] table *)

Record RawEvent : Type := mkEvent {
  ts : Z;
  type : string;
  url : option string;
  host : option string;
  category : option string;
  tabId : option Z;
  dwell_ms : option Z;
  speed_px_per_s : option Q;
  count : option Z
}.

(** ** The SQL fragments the queries use *)

(** [x BETWEEN a AND b]: both bounds belong to the range. *)
Definition between (a b x : Z) : bool := (a <=? x) && (x <=? b).

Definition non_null {A} (l : list (option A)) : list A :=
  flat_map (fun o => match o with Some x => [x] | None => [] end) l.

Definition Zsum (l : list Z) : Z := fold_left Z.add l 0.

(** [SUM(col)]: NULL when no row has a value. *)
Definition sql_sum (l : list (option Z)) : option Z :=
  match non_null l with
  | [] => None
  | vs => Some (Zsum vs)
  end.

(** [COALESCE(x, 0)]. *)
Definition coalesce0 (o : option Z) : Z :=
  match o with Some z => z | None => 0 end.

(** [AVG(col)]: a real number, NULL when no row has a value. *)
Definition sql_avg (l : list (option Z)) : option Q :=
  match non_null l with
  | [] => None
  | vs => Some (Qred (Qint (Zsum vs) / Qint (Z.of_nat (length vs))))
  end.

(** [x || 0] on the value of a nullable real column. *)
Definition or0 (o : option Q) : jsnum :=
  match o with
  | Some q => if Qeq_bool q 0 then of_int 0 else Fin q
  | None => of_int 0
  end.

Definition type_is (t : string) (e : RawEvent) : bool := String.eqb (type e) t.

Definition category_in (cs : list string) (e : RawEvent) : bool :=
  match category e with
  | Some c => existsb (String.eqb c) cs
  | None => false
  end.

(** [LIKE] compares ASCII letters without regard to case. *)
Definition ascii_lower (c : ascii) : ascii :=
  let n := nat_of_ascii c in
  if ((65 <=? n) && (n <=? 90))%nat then ascii_of_nat (n + 32) else c.

(** [like_prefix p s]: what is left of [s] once the literal pattern [p]
    has matched its beginning. *)
Fixpoint like_prefix (p s : string) : option string :=
  match p, s with
  | EmptyString, rest => Some rest
  | String a p', String b s' =>
      if Ascii.eqb (ascii_lower a) (ascii_lower b) then like_prefix p' s' else None
  | String _ _, EmptyString => None
  end.

(** [category = 'search' OR category LIKE 'search_%']. *)
Definition is_search_category (e : RawEvent) : bool :=
  match category e with
  | Some c =>
      String.eqb c "search"
      || match like_prefix "search" c with
         | Some (String _ _) => true
         | _ => false
         end
  | None => false
  end.

(** [GROUP BY host] with [SUM(dwell_ms)] for every group. *)
Definition host_eqb (h1 h2 : option string) : bool :=
  match h1, h2 with
  | Some a, Some b => String.eqb a b
  | None, None => true
  | _, _ => false
  end.

Fixpoint group_insert (h : option string) (d : option Z)
    (groups : list (option string * list (option Z)))
    : list (option string * list (option Z)) :=
  match groups with
  | [] => [(h, [d])]
  | (h', ds) :: rest =>
      if host_eqb h h' then (h', ds ++ [d]) :: rest
      else (h', ds) :: group_insert h d rest
  end.

Definition group_by_host (rows : list RawEvent)
    : list (option string * option Z) :=
  map (fun g => (fst g, sql_sum (snd g)))
      (fold_left (fun groups e => group_insert (host e) (dwell_ms e) groups) rows []).

(** [ORDER BY ms DESC]: NULL sorts below every number. *)
Definition ms_geb (x y : option Z) : bool :=
  match x, y with
  | _, None => true
  | None, Some _ => false
  | Some a, Some b => b <=? a
  end.

Fixpoint insert_desc (r : option string * option Z)
    (l : list (option string * option Z)) : list (option string * option Z) :=
  match l with
  | [] => [r]
  | r' :: rest =>
      if ms_geb (snd r) (snd r') then r :: l else r' :: insert_desc r rest
  end.

Definition order_by_ms_desc (l : list (option string * option Z))
    : list (option string * option Z) :=
  fold_right insert_desc [] l.

(** ** The feature row *)

Record FeatureRow : Type := mkRow {
  total_usage : jsnum;
  late_night_ratio : jsnum;
  sns_ent_ratio : jsnum;
  session_length_max : jsnum;
  session_length_mean : jsnum;
  bounce_ratio : jsnum;
  avg_tab_cnt : jsnum;
  search_freq : Z;
  repeat_site_ratio : jsnum
}.

(** [Math.max(...xs)] on a list that is not empty. *)
Definition Math_max (xs : list Z) : Z :=
  match xs with
  | [] => 0
  | x :: rest => fold_left Z.max rest x
  end.

(** ** What a call can throw *)

Inductive Thrown : Type :=
| SqliteError   (* integer overflow *)
| RangeError.   (* too many arguments in a call *)

Inductive Completion (A : Type) : Type :=
| Returns (a : A)
| Throws (e : Thrown).

Arguments Returns {A} a.
Arguments Throws {A} e.

(** The 64-bit integers of SQLite. *)
Definition in_int64 (z : Z) : bool := (- 2 ^ 63 <=? z) && (z <=? 2 ^ 63 - 1).

(** [SUM(col)] adds the integers of the rows one after the other, here in
    the order of the table, and fails with "integer overflow" as soon as a
    partial sum leaves the 64-bit integers. *)
Fixpoint overflows_from (acc : Z) (l : list Z) : bool :=
  match l with
  | [] => false
  | x :: rest => negb (in_int64 (acc + x)) || overflows_from (acc + x) rest
  end.

Definition sum_overflows (l : list (option Z)) : bool :=
  overflows_from 0 (non_null l).

(** The groups of [GROUP BY host], each with the values that are summed. *)
Definition host_groups (rows : list RawEvent) : list (option string * list (option Z)) :=
  fold_left (fun groups e => group_insert (host e) (dwell_ms e) groups) rows [].

(** [x || fallback] for the number [x] of a query parameter: [requested]
    is the whole number that [Number(...)] reads from the parameter, and
    nothing when it reads [NaN] (the parameter is absent or is no number);
    0 and [NaN] are falsy. *)
Definition or_else (requested : option Z) (fallback : Z) : Z :=
  match requested with
  | Some 0 => fallback
  | Some n => n
  | None => fallback
  end.

Section Aggregator.

(** The hour of the day, in the zone of the server, of a number of seconds
    since the epoch: [strftime('%H', datetime(s, 'unixepoch', 'localtime'))],
    NULL when the date is out of SQLite's range. *)
Variable local_hour : Z -> option Z.

Definition is_late_night (e : RawEvent) : bool :=
  match local_hour (Z.quot (ts e) 1000) with
  | Some h => (0 <=? h) && (h <=? 5)
  | None => false
  end.

(** The number of arguments that the engine accepts in one call: a call
    with more, as [Math.max(...sessions)] can be, throws [RangeError]. *)
Variable max_arguments : nat.

(** [startOfLocalDayMs] and [startOfLocalWeekMs], which read the zone of
    the server through [Date]. *)
Variable startOfLocalDayMs : Z -> Z.
Variable startOfLocalWeekMs : Z -> Z.

Section Window.

Variable raw_events : list RawEvent.
Variables aMs bMs : Z.

Definition in_window (e : RawEvent) : bool := between aMs bMs (ts e).

Definition dwell_rows : list RawEvent :=
  filter (fun e => type_is "dwell" e && in_window e) raw_events.

(** The sums below are the values of [SUM] when it does not overflow;
    [thrown] has the calls in which it does. *)
Definition dwellTotal : Z :=
  coalesce0 (sql_sum (map dwell_ms dwell_rows)).

Definition late : Z :=
  coalesce0 (sql_sum (map dwell_ms
    (filter (fun e => type_is "dwell" e && in_window e && is_late_night e) raw_events))).

Definition snsEnt : Z :=
  coalesce0 (sql_sum (map dwell_ms
    (filter (fun e => type_is "dwell" e && in_window e
                      && category_in ["sns"; "entertainment"] e) raw_events))).

Definition sessions : list Z :=
  non_null (map dwell_ms dwell_rows).

(** The value of [Math.max(...sessions)] when the engine accepts that many
    arguments; [thrown] has the calls in which it does not. *)
Definition sessionMax : Z :=
  if (length sessions =? 0)%nat then 0 else Math_max sessions.

Definition sessionMean : jsnum :=
  if (length sessions =? 0)%nat then of_int 0
  else js_div (of_int (Zsum sessions)) (of_int (Z.of_nat (length sessions))).

Definition shortCnt : nat :=
  length (filter (fun ms => ms <=? 10000) sessions).

Definition bounceRatio : jsnum :=
  if (length sessions =? 0)%nat then of_int 0
  else js_div (of_int (Z.of_nat shortCnt)) (of_int (Z.of_nat (length sessions))).

Definition avgTabCnt : jsnum :=
  or0 (sql_avg (map count
    (filter (fun e => type_is "tab_count" e && in_window e) raw_events))).

Definition searchFreq : Z :=
  Z.of_nat (length
    (filter (fun e => type_is "visit" e && in_window e && is_search_category e) raw_events)).

Definition topHosts : list (option string * option Z) :=
  firstn 5 (order_by_ms_desc (group_by_host dwell_rows)).

Definition topMs : Z :=
  fold_left (fun sum row => sum + coalesce0 (snd row)) topHosts 0.

Definition repeatSiteRatio : jsnum :=
  if 0 <? dwellTotal then js_div (of_int topMs) (of_int dwellTotal) else of_int 0.

(** The row that a call returns.  The sums and the maximum above are those
    of a call that returns; [thrown] says which calls do not. *)
Definition computeMetrics : FeatureRow :=
  {| total_usage := toMin (of_int dwellTotal);
     late_night_ratio := safeRatio late dwellTotal;
     sns_ent_ratio := safeRatio snsEnt dwellTotal;
     session_length_max := toMin (of_int sessionMax);
     session_length_mean := toMin sessionMean;
     bounce_ratio := bounceRatio;
     avg_tab_cnt := toFixed2 avgTabCnt;
     search_freq := searchFreq;
     repeat_site_ratio := repeatSiteRatio |}.

(** The exception that stops a call before it has built its row, if there
    is one, in the order in which the function runs its queries: one of the
    three sums overflows, [Math.max] gets more arguments than the engine
    accepts, or the sum of a host overflows. *)
Definition thrown : option Thrown :=
  if sum_overflows (map dwell_ms dwell_rows) then Some SqliteError
  else if sum_overflows (map dwell_ms
            (filter (fun e => type_is "dwell" e && in_window e && is_late_night e)
               raw_events))
  then Some SqliteError
  else if sum_overflows (map dwell_ms
            (filter (fun e => type_is "dwell" e && in_window e
                              && category_in ["sns"; "entertainment"] e) raw_events))
  then Some SqliteError
  else if negb (length sessions =? 0)%nat && (max_arguments <? length sessions)%nat
  then Some RangeError
  else if existsb (fun g => sum_overflows (snd g)) (host_groups dwell_rows)
  then Some SqliteError
  else None.

(** A call of [computeMetrics(aMs, bMs)]. *)
Definition computeMetrics_call : Completion FeatureRow :=
  match thrown with
  | Some e => Throws e
  | None => Returns computeMetrics
  end.

End Window.

(** The two handlers: [GET /metrics/daily] and [GET /metrics/weekly] call
    [computeMetrics] on the start of the day or of the week that the
    request names, or on the start of the current day or week when it
    names none or names 0, and on that start plus one day or seven.  [now]
    is what [Date.now()] reads; the row is the metrics of the answer. *)
Definition dayEnd (dayStart : Z) : Z := dayStart + 24 * 60 * 60 * 1000.

Definition metrics_daily (now : Z) (raw_events : list RawEvent) (requested : option Z)
    : Completion FeatureRow :=
  let dayStart := or_else requested (startOfLocalDayMs now) in
  computeMetrics_call raw_events dayStart (dayEnd dayStart).


End Aggregator.

(** The hour of the day when the server runs in UTC; [datetime] gives NULL
    outside the years it knows, which end with the year 9999. *)
Definition utc_hour (s : Z) : option Z :=
  if (-210866760000 <=? s) && (s <=? 253402300799)
  then Some ((s / 3600) mod 24)
  else None.

(** The start of the day and of the week, which begins on Monday, when the
    server runs in UTC: 1 January 1970 was a Thursday. *)
Definition utc_day_start (t : Z) : Z := t / 86400000 * 86400000.


(** An engine that accepts 65535 arguments in a call. *)
Definition small_engine : nat := 2 ^ 16 - 1.

Definition dwell_event (t : Z) (h c : string) (ms : Z) : RawEvent :=
  mkEvent t "dwell" None (Some h) (Some c) (Some 1) (Some ms) None None.

Definition scenarioA : list RawEvent :=
  [ dwell_event 1000 "a.example" "news" 5000;
    dwell_event 2000 "b.example" "sns" 15000;
    dwell_event 3000 "c.example" "other" 95000 ].

(** ** The metrics of a collection of events

    The metrics of section 4.1 of the specification, worded over a given
    collection of events with no reference to a window: this is what
    "aggregating exactly these events" means. *)

Section MetricsOfEvents.

Variable local_hour : Z -> option Z.
Variable events : list RawEvent.

Definition dwell_events : list RawEvent := filter (type_is "dwell") events.

Definition total_dwell_ms : Z := coalesce0 (sql_sum (map dwell_ms dwell_events)).

Definition durations : list Z := non_null (map dwell_ms dwell_events).

Definition ratio_of_total (part : Z) : jsnum :=
  if 0 <? total_dwell_ms then js_div (of_int part) (of_int total_dwell_ms) else of_int 0.

Definition top5_dwell_ms : Z :=
  fold_left (fun sum row => sum + coalesce0 (snd row))
            (firstn 5 (order_by_ms_desc (group_by_host dwell_events))) 0.

Definition metrics_of_events : FeatureRow :=
  {| total_usage := toMin (of_int total_dwell_ms);
     late_night_ratio :=
       ratio_of_total (coalesce0 (sql_sum (map dwell_ms
         (filter (is_late_night local_hour) dwell_events))));
     sns_ent_ratio :=
       ratio_of_total (coalesce0 (sql_sum (map dwell_ms
         (filter (category_in ["sns"; "entertainment"]) dwell_events))));
     session_length_max :=
       toMin (of_int (match durations with [] => 0 | _ => Math_max durations end));
     session_length_mean :=
       toMin (match durations with
              | [] => of_int 0
              | _ => js_div (of_int (Zsum durations))
                            (of_int (Z.of_nat (length durations)))
              end);
     bounce_ratio :=
       match durations with
       | [] => of_int 0
       | _ => js_div (of_int (Z.of_nat (length (filter (fun ms => ms <=? 10000) durations))))
                     (of_int (Z.of_nat (length durations)))
       end;
     avg_tab_cnt :=
       toFixed2 (or0 (sql_avg (map count (filter (type_is "tab_count") events))));
     search_freq :=
       Z.of_nat (length (filter (fun e => type_is "visit" e && is_search_category e) events));
     repeat_site_ratio := ratio_of_total top5_dwell_ms |}.

End MetricsOfEvents.

(** The window as the specification words it: [windowStart <= ts < windowEnd]. *)
Definition half_open (a b : Z) (e : RawEvent) : bool :=
  (a <=? ts e) && (ts e <? b).

Definition zero_row : FeatureRow :=
  {| total_usage := Fin 0; late_night_ratio := Fin 0; sns_ent_ratio := Fin 0;
     session_length_max := Fin 0; session_length_mean := Fin 0;
     bounce_ratio := Fin 0; avg_tab_cnt := Fin 0; search_freq := 0;
     repeat_site_ratio := Fin 0 |}.

(** One minute of dwell time recorded exactly at [t]. *)
Definition minute_at (t : Z) : RawEvent := dwell_event t "a.example" "news" 60000.



Definition two_days : list RawEvent :=
  [ minute_at 1000; minute_at 86399999; minute_at 86400001 ].

(** A day with dwell time at one and at eight in the morning. *)
Definition busy_day : list RawEvent :=
  [ dwell_event 3600000 "a.example" "sns" 40000;
    dwell_event 30000000 "b.example" "news" 60000;
    minute_at 90000000 ].

End Server.

(** * The preprocessing pipeline ([DataProcessor]) and inference *)

Module ML.

(** ** Tables *)

(** A cell of a table: a number, a text, a timestamp (nanoseconds since the
    epoch) or a missing value (NaN, NaT, None, <NA>). *)
Inductive value : Type :=
| VNum (q : Q)
| VStr (s : string)
| VTime (t : Z)
| VNull.

(** A [pandas.DataFrame], column by column: the row labels and, for every
    column in order, its name and its cells. *)
Record DataFrame : Type := mkFrame {
  index : list Z;
  columns : list (string * list value)
}.

(** [pd.DataFrame()] *)
Definition empty_frame : DataFrame := mkFrame [] [].

(** [len(df)] *)
Definition len (df : DataFrame) : nat := length (index df).

Definition column_names (df : DataFrame) : list string := map fst (columns df).

(** [c in df.columns] *)
Definition has_column (c : string) (df : DataFrame) : bool :=
  existsb (String.eqb c) (column_names df).

Fixpoint lookup (c : string) (cols : list (string * list value)) : option (list value) :=
  match cols with
  | [] => None
  | (c', cells) :: rest => if String.eqb c c' then Some cells else lookup c rest
  end.

(** [df[c]] *)
Definition get_column (c : string) (df : DataFrame) : list value :=
  match lookup c (columns df) with
  | Some cells => cells
  | None => []
  end.

Fixpoint assign (c : string) (cells : list value) (cols : list (string * list value))
    : list (string * list value) :=
  match cols with
  | [] => [(c, cells)]
  | (c', old) :: rest =>
      if String.eqb c c' then (c', cells) :: rest
      else (c', old) :: assign c cells rest
  end.

(** [df[c] = cells]: the column is replaced in place, or added last. *)
Definition set_column (c : string) (cells : list value) (df : DataFrame) : DataFrame :=
  mkFrame (index df) (assign c cells (columns df)).

(** [df[c] = f(df[c])] when the column is there. *)
Definition update_column (f : list value -> list value) (df : DataFrame) (c : string)
    : DataFrame :=
  if has_column c df then set_column c (f (get_column c df)) df else df.

(** [df.empty]: no row or no column. *)
Definition empty (df : DataFrame) : bool :=
  (len df =? 0)%nat || (length (columns df) =? 0)%nat.

Definition notna (v : value) : bool :=
  match v with VNull => false | _ => true end.

Definition isna (v : value) : bool := negb (notna v).

(** [x < y] between two cells of a numeric or a datetime column: false as
    soon as one of them is missing. *)
Definition value_ltb (x y : value) : bool :=
  match x, y with
  | VNum a, VNum b => Qlt_b a b
  | VTime a, VTime b => a <? b
  | _, _ => false
  end.

(** [(x.astype(float) % 1) != 0] *)
Definition has_fraction (v : value) : bool :=
  match v with
  | VNum q => negb (Qeq_bool (Qint (Qfloor q)) q)
  | _ => false
  end.

(** ** The schema of the class *)

Definition REQUIRED_COLUMNS : list string :=
  ["period_start"; "period_end"; "session_length_max"; "session_length_mean";
   "avg_tab_cnt"; "search_freq"; "ad_click_rate"].

Definition NUMERIC_COLUMNS : list string :=
  ["session_length_max"; "session_length_mean"; "avg_tab_cnt"; "search_freq"].

Definition RATIO_COLUMNS : list string := ["ad_click_rate"].

Definition INTEGER_COLUMNS : list string := ["avg_tab_cnt"; "search_freq"].

(** ** Statistics of a column *)

(** [col.dropna()] of a numeric column. *)
Definition numbers (cells : list value) : list Q :=
  flat_map (fun v => match v with VNum q => [q] | _ => [] end) cells.

Definition Qsum (xs : list Q) : Q := fold_left Qplus xs 0%Q.

Fixpoint insert_sorted (x : Q) (l : list Q) : list Q :=
  match l with
  | [] => [x]
  | y :: rest => if Qle_b x y then x :: l else y :: insert_sorted x rest
  end.

Definition sort_values (l : list Q) : list Q := fold_right insert_sorted [] l.

(** [col.median(skipna=True)]: missing when the column holds no number. *)
Definition median (cells : list value) : option Q :=
  let s := sort_values (numbers cells) in
  let n := length s in
  if (n =? 0)%nat then None
  else if Nat.even n
       then Some (Qred ((nth (n / 2 - 1) s 0 + nth (n / 2) s 0) / 2)%Q)
       else Some (Qred (nth (n / 2) s 0%Q)).

(** [col.quantile(p)] with linear interpolation, on the sorted numbers. *)
Definition quantile (s : list Q) (p : Q) : Q :=
  let last := Z.of_nat (length s - 1) in
  let pos := (Qint last * p)%Q in
  let lo := Qfloor pos in
  let hi := Z.min (lo + 1) last in
  let x_lo := nth (Z.to_nat lo) s 0%Q in
  let x_hi := nth (Z.to_nat hi) s 0%Q in
  Qred (x_lo + (pos - Qint lo) * (x_hi - x_lo))%Q.

(** [x.fillna(fill)]: nothing is filled when the fill value is missing. *)
Definition fillna (fill : option Q) (v : value) : value :=
  match v, fill with
  | VNull, Some m => VNum m
  | _, _ => v
  end.

(** [round()] of NumPy: the nearest integer, a tie going to the even one. *)
Definition round_half_even (q : Q) : Z :=
  let f := Qfloor q in
  let d := (q - Qint f)%Q in
  if Qlt_b d (1 # 2)%Q then f
  else if Qlt_b (1 # 2)%Q d then f + 1
  else if Z.even f then f else f + 1.

(** [x.round().astype("Int64")] *)
Definition to_Int64 (v : value) : value :=
  match v with
  | VNum q => VNum (Qint (round_half_even q))
  | other => other
  end.

(** [x.clip(lower=lo, upper=hi)] *)
Definition clip (lo hi : Q) (v : value) : value :=
  match v with
  | VNum q => if Qlt_b q lo then VNum lo else if Qlt_b hi q then VNum hi else VNum q
  | other => other
  end.

(** [col[mask] = x] *)
Definition loc_assign (mask : list bool) (x : value) (cells : list value) : list value :=
  map (fun mv : bool * value => if fst mv then x else snd mv) (combine mask cells).

Definition count_true (mask : list bool) : nat := length (filter (fun b => b) mask).

Definition mean_of (xs : list Q) : option Q :=
  match xs with
  | [] => None
  | _ => Some (Qred (Qsum xs / Qint (Z.of_nat (length xs)))%Q)
  end.

(** The variance of the numbers around [m], as [StandardScaler] takes it:
    divided by their count. *)
Definition variance_of (m : Q) (xs : list Q) : Q :=
  Qred (Qsum (map (fun x => (x - m) * (x - m))%Q xs) / Qint (Z.of_nat (length xs)))%Q.

(** [(x - mean) / scale], in exact arithmetic: the floating-point numbers
    of the code round every step. *)
Definition scale_cell (p : option Q * option Q) (v : value) : value :=
  match v, p with
  | VNum x, (Some m, Some sd) => VNum (Qred ((x - m) / sd)%Q)
  | _, _ => VNull
  end.

(** ** Library functions

    What the code takes from pandas and NumPy and what depends on their
    parsers or on irrational numbers: reading a number or a date from a
    text, the square root and the exponential. *)
Record Library : Type := mkLibrary {
  parse_number : string -> option Q;
  parse_datetime : string -> option Z;
  np_sqrt : Q -> Q;
  np_exp : Q -> Q
}.

(** ** Exceptions, the processor and its effects *)

Inductive DataProcessingMessage : Type :=
| MissingColumns (missing_cols : list string)
| ValidationFailed (problems : nat)
| NotFitted.

Inductive ValueErrorMessage : Type :=
| EmptyInput
| ValidationConfigRequired
| LengthMismatch
| NoSamples.

Inductive Exn : Type :=
| DataProcessingError (msg : DataProcessingMessage)
| ValueError (msg : ValueErrorMessage)
| FeatureValidationError
| NotFittedError
| TypeError.

Inductive failure_value : Type :=
| FCell (v : value)
| FDates (start finish : value)
| FNotAvailable.

Record FailureRow : Type := mkFailure {
  f_index : Z;
  f_column : string;
  f_reason : string;
  f_value : failure_value
}.

(** [self._report['validation']]: a dictionary, a key being absent until it
    is written. *)
Record ValidationInfo : Type := mkInfo {
  v_status : option string;
  v_problems : option nat;
  v_failure_rows : option nat;
  v_missing_columns : option (list string)
}.

Definition no_info : ValidationInfo := mkInfo None None None None.
Definition pass_info : ValidationInfo := mkInfo (Some "pass") (Some 0%nat) (Some 0%nat) None.

Inductive LogEntry : Type :=
| LogMedianFill (c : string) (na_count : nat) (med : option Q)
| LogRatioFill (c : string) (na_count : nat)
| LogCapped (c : string) (outlier_count : nat) (lower_bound upper_bound : Q)
| LogScaled (cols : list string).

Record Report : Type := mkReport {
  validation : ValidationInfo;
  preprocessing_log : list LogEntry
}.

(** A [StandardScaler]: for every scaled column its mean and its scale,
    nothing before it is fitted; a mean or a scale is missing when the
    column holds no number. *)
Record StandardScaler : Type := mkScaler {
  fitted : option (list (option Q * option Q))
}.

Record DataProcessor : Type := mkProcessor {
  df : DataFrame;
  _scaler : option StandardScaler;
  _report : Report
}.

(** [DataProcessor(df)] *)
Definition init (d : DataFrame) : DataProcessor :=
  mkProcessor d None (mkReport no_info []).

(** What a method can read and change: the processor itself, the file
    [validation_failures.csv] and the standard output. *)
Record World : Type := mkWorld {
  self : DataProcessor;
  validation_failures_csv : option (list FailureRow);
  stdout : list Exn
}.

Inductive Outcome (A : Type) : Type :=
| Return (a : A)
| Raise (e : Exn).

Arguments Return {A} a.
Arguments Raise {A} e.

Definition M (A : Type) : Type := World -> Outcome A * World.

Definition ret {A} (a : A) : M A := fun w => (Return a, w).

Definition bind {A B} (m : M A) (k : A -> M B) : M B :=
  fun w =>
    match m w with
    | (Return a, w') => k a w'
    | (Raise e, w') => (Raise e, w')
    end.

Definition raise {A} (e : Exn) : M A := fun w => (Raise e, w).

Definition get_self : M DataProcessor := fun w => (Return (self w), w).

Definition update_self (f : DataProcessor -> DataProcessor) : M unit :=
  fun w => (Return tt, mkWorld (f (self w)) (validation_failures_csv w) (stdout w)).

Definition to_csv (rows : list FailureRow) : M unit :=
  fun w => (Return tt, mkWorld (self w) (Some rows) (stdout w)).

Definition print (e : Exn) : M unit :=
  fun w => (Return tt, mkWorld (self w) (validation_failures_csv w) (stdout w ++ [e])).

(** [try: body except DataProcessingError as e: handler(e)] *)
Definition try_except {A} (body : M A) (handler : Exn -> M A) : M A :=
  fun w =>
    match body w with
    | (Raise (DataProcessingError msg), w') => handler (DataProcessingError msg) w'
    | other => other
    end.

Declare Scope monad_scope.
Delimit Scope monad_scope with monad.

Notation "x <- c1 ;; c2" := (bind c1 (fun x => c2))
  (at level 100, c1 at next level, right associativity) : monad_scope.
Notation "c1 ;;; c2" := (bind c1 (fun _ => c2))
  (at level 100, right associativity) : monad_scope.

Local Open Scope monad_scope.

(** A loop that carries the table from one iteration to the next. *)
Fixpoint for_each {A S} (xs : list A) (body : A -> S -> M S) (s : S) : M S :=
  match xs with
  | [] => ret s
  | x :: rest => s' <- body x s ;; for_each rest body s'
  end.

Definition set_validation (f : ValidationInfo -> ValidationInfo) : M unit :=
  update_self (fun p =>
    mkProcessor (df p) (_scaler p)
      (mkReport (f (validation (_report p))) (preprocessing_log (_report p)))).

Definition log (entry : LogEntry) : M unit :=
  update_self (fun p =>
    mkProcessor (df p) (_scaler p)
      (mkReport (validation (_report p)) (preprocessing_log (_report p) ++ [entry]))).

Definition set_scaler (sc : StandardScaler) : M unit :=
  update_self (fun p => mkProcessor (df p) (Some sc) (_report p)).

Section Processor.

Variable L : Library.

(** ** 1. Validation *)

(** [pd.to_numeric(x, errors="coerce")] *)
Definition to_numeric (v : value) : value :=
  match v with
  | VNum q => VNum q
  | VStr s => match parse_number L s with Some q => VNum q | None => VNull end
  | _ => VNull
  end.

(** [pd.to_datetime(x, errors="coerce")]: a number counts nanoseconds. *)
Definition to_datetime (v : value) : value :=
  match v with
  | VTime t => VTime t
  | VStr s => match parse_datetime L s with Some t => VTime t | None => VNull end
  | VNum q => VTime (Qfloor q)
  | VNull => VNull
  end.

Definition coerce (d : DataFrame) : DataFrame :=
  fold_left (update_column (map to_datetime))
    ["period_start"; "period_end"]
    (fold_left (update_column (map to_numeric)) (NUMERIC_COLUMNS ++ RATIO_COLUMNS) d).

(** The rows of [d[mask]], each with its label and the cells the check
    reads. *)
Definition rows1 (d : DataFrame) (c : string) : list (Z * value) :=
  combine (index d) (get_column c d).

Definition rows2 (d : DataFrame) (c1 c2 : string) : list (Z * (value * value)) :=
  combine (index d) (combine (get_column c1 d) (get_column c2 d)).

Definition end_before_start (r : Z * (value * value)) : bool :=
  let '(_, (s, e)) := r in notna s && notna e && value_ltb e s.

Definition ratio_out_of_bounds (r : Z * value) : bool :=
  let '(_, v) := r in
  notna v && (value_ltb v (VNum 0%Q) || value_ltb (VNum 1%Q) v).

Definition max_less_than_mean (r : Z * (value * value)) : bool :=
  let '(_, (mx, mn)) := r in notna mx && notna mn && value_ltb mx mn.

Definition non_integer_value (r : Z * value) : bool :=
  let '(_, v) := r in notna v && has_fraction v.

(** The two counters of [_validate_data]. *)
Definition Findings : Type := (nat * list FailureRow)%type.

Definition record {R} (bad : list R) (describe : R -> FailureRow) (acc : Findings)
    : Findings :=
  match bad with
  | [] => acc
  | _ => ((fst acc + length bad)%nat, snd acc ++ map describe bad)
  end.

(** 1-3 *)
Definition check_dates (d : DataFrame) (acc : Findings) : Findings :=
  if has_column "period_start" d && has_column "period_end" d then
    record (filter end_before_start (rows2 d "period_start" "period_end"))
      (fun r => mkFailure (fst r) "period_start/period_end" "end_before_start"
                  (FDates (fst (snd r)) (snd (snd r))))
      acc
  else acc.

(** 1-4 *)
Definition check_ratio (d : DataFrame) (acc : Findings) (c : string) : Findings :=
  if has_column c d then
    record (filter ratio_out_of_bounds (rows1 d c))
      (fun r => mkFailure (fst r) c "ratio_out_of_bounds" (FCell (snd r)))
      acc
  else acc.

(** 1-5 *)
Definition check_consistency (d : DataFrame) (acc : Findings) : Findings :=
  if has_column "session_length_max" d && has_column "session_length_mean" d then
    record (filter max_less_than_mean (rows2 d "session_length_max" "session_length_mean"))
      (fun r => mkFailure (fst r) "session_length_max/mean" "max_less_than_mean"
                  FNotAvailable)
      acc
  else acc.

(** 1-6 *)
Definition check_integer (d : DataFrame) (acc : Findings) (c : string) : Findings :=
  if has_column c d then
    record (filter non_integer_value (rows1 d c))
      (fun r => mkFailure (fst r) c "non_integer_value" (FCell (snd r)))
      acc
  else acc.

Definition findings (d : DataFrame) : Findings :=
  fold_left (check_integer d) INTEGER_COLUMNS
    (check_consistency d
      (fold_left (check_ratio d) RATIO_COLUMNS
        (check_dates d (0%nat, [])))).

Definition missing_columns (d : DataFrame) : list string :=
  filter (fun c => negb (has_column c d)) REQUIRED_COLUMNS.

Definition _validate_data (d : DataFrame) : M DataFrame :=
  match missing_columns d with
  | (_ :: _) as missing_cols =>
      set_validation (fun v =>
        mkInfo (v_status v) (v_problems v) (v_failure_rows v) (Some missing_cols)) ;;;
      raise (DataProcessingError (MissingColumns missing_cols))
  | [] =>
      let d' := coerce d in
      let '(problems, failure_rows) := findings d' in
      if (0 <? problems)%nat then
        to_csv failure_rows ;;;
        raise (DataProcessingError (ValidationFailed problems))
      else
        set_validation (fun _ => pass_info) ;;;
        ret d'
  end.

(** ** 2. Preprocessing *)

Definition is_integer_column (c : string) : bool :=
  existsb (String.eqb c) INTEGER_COLUMNS.

(** The cells of a column after step 2-1. *)
Definition fill_numeric (c : string) (cells : list value) : list value :=
  if is_integer_column c
  then map (fun v => to_Int64 (fillna (median cells) v)) cells
  else map (fillna (median cells)) cells.

Definition fill_ratio (cells : list value) : list value :=
  map (fun v => clip 0%Q 1%Q (fillna (Some 0%Q) v)) cells.

(** The table after step 2-1. *)
Definition imputed (d : DataFrame) : DataFrame :=
  fold_left (update_column fill_ratio) RATIO_COLUMNS
    (fold_left (fun d' c => update_column (fill_numeric c) d' c) NUMERIC_COLUMNS d).


(** An integer, or a missing value. *)
Definition is_int_value (v : value) : bool :=
  match v with
  | VNum q => negb (has_fraction (VNum q))
  | VNull => true
  | _ => false
  end.

(** A number or a missing value: what a coerced column holds. *)
Definition is_numeric_cell (v : value) : bool :=
  match v with
  | VNum _ | VNull => true
  | _ => false
  end.

(** 2-1, numeric columns *)
Definition impute_numeric (c : string) (d : DataFrame) : M DataFrame :=
  if has_column c d then
    let med := median (get_column c d) in
    let na_count := length (filter isna (get_column c d)) in
    let d' :=
      if is_integer_column c
      then set_column c (map (fun v => to_Int64 (fillna med v)) (get_column c d)) d
      else set_column c (map (fillna med) (get_column c d)) d in
    log (LogMedianFill c na_count med) ;;;
    ret d'
  else ret d.

(** 2-1, ratio columns *)
Definition impute_ratio (c : string) (d : DataFrame) : M DataFrame :=
  if has_column c d then
    let na_count := length (filter isna (get_column c d)) in
    let d' := set_column c (map (fun v => clip 0%Q 1%Q (fillna (Some 0%Q) v)) (get_column c d)) d in
    log (LogRatioFill c na_count) ;;;
    ret d'
  else ret d.

(** [d.loc[mask, c] = x].  The integer columns are of type [Int64] by
    now, and an array of that type checks the value before it looks at the
    mask: a number with a fraction is refused with [TypeError]. *)
Definition loc_set (c : string) (mask : list bool) (x : Q) (d : DataFrame) : M DataFrame :=
  if is_integer_column c && has_fraction (VNum x)
  then raise TypeError
  else ret (set_column c (loc_assign mask (VNum x) (get_column c d)) d).

(** 2-2 *)
Definition cap_outliers (c : string) (d : DataFrame) : M DataFrame :=
  if has_column c d then
    let col := numbers (get_column c d) in
    if (8 <=? length col)%nat then
      let s := sort_values col in
      let Q1 := quantile s (1 # 4) in
      let Q3 := quantile s (3 # 4) in
      let IQR := Qred (Q3 - Q1)%Q in
      if Qlt_b 0%Q IQR then
        let lower_bound := Qred (Q1 - (3 # 2) * IQR)%Q in
        let upper_bound := Qred (Q3 + (3 # 2) * IQR)%Q in
        let mask_lo := map (fun v => value_ltb v (VNum lower_bound)) (get_column c d) in
        let mask_hi := map (fun v => value_ltb (VNum upper_bound) v) (get_column c d) in
        let outlier_count := (count_true mask_lo + count_true mask_hi)%nat in
        if (0 <? outlier_count)%nat then
          d1 <- loc_set c mask_lo lower_bound d ;;
          d2 <- loc_set c mask_hi upper_bound d1 ;;
          log (LogCapped c outlier_count lower_bound upper_bound) ;;;
          ret d2
        else ret d
      else ret d
    else ret d
  else ret d.

Definition _preprocess_data (d : DataFrame) : M DataFrame :=
  d1 <- for_each NUMERIC_COLUMNS impute_numeric d ;;
  d2 <- for_each RATIO_COLUMNS impute_ratio d1 ;;
  for_each NUMERIC_COLUMNS cap_outliers d2.

(** ** 3. Scaling *)

(** Mean and scale of one column for [StandardScaler.fit]; a scale of zero
    is replaced by one. *)
Definition fit_column (cells : list value) : option Q * option Q :=
  let xs := numbers cells in
  match mean_of xs with
  | None => (None, None)
  | Some m =>
      let var := variance_of m xs in
      (Some m, Some (if Qeq_bool var 0%Q then 1%Q else np_sqrt L var))
  end.

(** [scaler.fit(d[cols])]: scikit-learn checks its input first and refuses
    a table without rows with [ValueError]. *)
Definition scaler_fit (d : DataFrame) (cols : list string) : M StandardScaler :=
  if (len d =? 0)%nat then raise (ValueError NoSamples)
  else ret (mkScaler (Some (map (fun c => fit_column (get_column c d)) cols))).

(** [d[cols] = scaler.transform(d[cols])] *)
Definition apply_scaler (params : list (option Q * option Q)) (d : DataFrame)
    (cols : list string) : DataFrame :=
  fold_left
    (fun d' (cp : string * (option Q * option Q)) =>
       set_column (fst cp) (map (scale_cell (snd cp)) (get_column (fst cp) d)) d')
    (combine cols params) d.

Definition scaler_transform (sc : StandardScaler) (d : DataFrame) (cols : list string)
    : M DataFrame :=
  match fitted sc with
  | None => raise NotFittedError
  | Some params =>
      if (len d =? 0)%nat then raise (ValueError NoSamples)
      else ret (apply_scaler params d cols)
  end.

Definition cols_to_scale (d : DataFrame) : list string :=
  filter (fun c => has_column c d) (NUMERIC_COLUMNS ++ RATIO_COLUMNS).

(** What [fit_transform] returns beside the table: the report, to which
    the success path adds the scaled columns and the scaler. *)
Record Meta : Type := mkMeta {
  m_report : Report;
  m_scaled_columns : option (list string);
  m_scaler : option StandardScaler
}.

Definition fit_transform : M (DataFrame * Meta) :=
  try_except
    (me <- get_self ;;
     df_validated <- _validate_data (df me) ;;
     df_processed <- _preprocess_data df_validated ;;
     let cols := cols_to_scale df_processed in
     scaler <- match cols with
               | [] => ret (mkScaler None)
               | _ => scaler_fit df_processed cols
               end ;;
     df_scaled <- match cols with
                  | [] => ret df_processed
                  | _ => scaler_transform scaler df_processed cols
                  end ;;
     set_scaler scaler ;;;
     log (LogScaled cols) ;;;
     me' <- get_self ;;
     ret (df_scaled, mkMeta (_report me') (Some cols) (Some scaler)))
    (fun e =>
     print e ;;;
     me <- get_self ;;
     ret (empty_frame, mkMeta (_report me) None None)).

(** The table that [fit_transform] returns for the cleaned table [d]. *)
Definition standardized (d : DataFrame) : DataFrame :=
  match cols_to_scale d with
  | [] => d
  | cols => apply_scaler (map (fun c => fit_column (get_column c d)) cols) d cols
  end.

(** The scaler that [fit_transform] fits on the cleaned table [d]. *)
Definition scaler_of (d : DataFrame) : StandardScaler :=
  match cols_to_scale d with
  | [] => mkScaler None
  | cols => mkScaler (Some (map (fun c => fit_column (get_column c d)) cols))
  end.

Definition transform (d : DataFrame) : M DataFrame :=
  me <- get_self ;;
  match _scaler me with
  | None => raise (DataProcessingError NotFitted)
  | Some scaler =>
      df_new_validated <- _validate_data d ;;
      df_new_processed <- _preprocess_data df_new_validated ;;
      match cols_to_scale df_new_processed with
      | [] => ret df_new_processed
      | cols => scaler_transform scaler df_new_processed cols
      end
  end.

End Processor.

(** ** Inference ([predict_pipeline]) *)

(** A trained classifier: [predict] is always there, [predict_proba] and
    [decision_function] when the estimator has them. *)
Record Classifier : Type := mkClassifier {
  predict_proba : option (DataFrame -> list (Q * Q));
  decision_function : option (DataFrame -> list Q);
  predict : DataFrame -> list Z
}.

(** The content of the artifacts directory: [model.pkl], [processor.pkl]
    and, when it is there, the threshold of [threshold.json]. *)
Record Artifacts : Type := mkArtifacts {
  model_pkl : Classifier;
  processor_pkl : DataProcessor;
  threshold_json : option Q
}.

Record ValidationConfig : Type := mkConfig {
  expected_columns : list string;
  ratio_columns : list string;
  float_columns : list string;
  int_columns : list string
}.

(** What [DataValidator(df, config).validate_features()] returns: the
    number of problems of its report, the validated table and whether the
    table passed. *)
Definition Validator : Type := DataFrame -> ValidationConfig -> nat * DataFrame * bool.

(** Modelled from the spec: [load_model_processor] of
    [src.machine_learning.artifacts], which is not among the sources; the
    artifacts are "a serialized classifier, a serialized FeaturePreprocessor
    state ... three retrievable named artifacts". *)
Definition load_model_processor (artifacts_dir : Artifacts) : Classifier * DataProcessor :=
  (model_pkl artifacts_dir, processor_pkl artifacts_dir).

(** Modelled from the spec: [load_threshold] of
    [src.machine_learning.artifacts], which is not among the sources;
    "decision threshold in [0,1], default 0.5 if absent". *)
Definition load_threshold (artifacts_dir : Artifacts) (default : Q) : Q :=
  match threshold_json artifacts_dir with
  | Some thr => thr
  | None => default
  end.

(** A method call on an object of its own: the effects on the object stay
    with it, those on the file and on the output are the caller's too. *)
Definition call_on {A} (obj : DataProcessor) (m : M A) : M A :=
  fun w =>
    let '(r, w') := m (mkWorld obj (validation_failures_csv w) (stdout w)) in
    (r, mkWorld (self w) (validation_failures_csv w') (stdout w')).

(** [out[c] = values]: as many values as the table has rows. *)
Definition add_column (c : string) (values : list Q) (d : DataFrame) : M DataFrame :=
  if (length values =? len d)%nat
  then ret (set_column c (map VNum values) d)
  else raise (ValueError LengthMismatch).

Section Predict.

Variable L : Library.

(** The class [DataValidator] of [feature_validation], which is not among
    the sources. *)
Variable DataValidator : Validator.

(** [1 / (1 + np.exp(-score))], in exact arithmetic: the floating-point
    numbers of the code round it, to 1 from a score of 37 on. *)
Definition sigmoid (score : Q) : Q := Qred (1 / (1 + np_exp L (- score)))%Q.

Definition risk_flag_of (thr proba : Q) : Q := if Qle_b thr proba then 1%Q else 0%Q.

(** Step 3: the probability of every row, from [predict_proba] when the
    model has it, else from [decision_function] through the sigmoid, else
    from the hard prediction. *)
Definition proba_of (model : Classifier) (X : DataFrame) : list Q :=
  match predict_proba model with
  | Some f => map snd (f X)
  | None =>
      match decision_function model with
      | Some g => map sigmoid (g X)
      | None => map Qint (predict model X)
      end
  end.

Definition predict_dataframe (input : option DataFrame) (artifacts_dir : Artifacts)
    (do_validate : bool) (validation_config : option ValidationConfig) : M DataFrame :=
  match input with
  | None => raise (ValueError EmptyInput)
  | Some d0 =>
      if empty d0 then raise (ValueError EmptyInput)
      else
        d <- (if do_validate then
                match validation_config with
                | None => raise (ValueError ValidationConfigRequired)
                | Some config =>
                    let '(problems, df_valid, passed) := DataValidator d0 config in
                    if negb passed || (0 <? problems)%nat
                    then raise FeatureValidationError
                    else ret df_valid
                end
              else ret d0) ;;
        let '(model, processor) := load_model_processor artifacts_dir in
        let thr := load_threshold artifacts_dir (1 # 2) in
        X <- call_on processor (transform L d) ;;
        let proba := proba_of model X in
        let flag := map (risk_flag_of thr) proba in
        out <- add_column "risk_proba" proba d ;;
        add_column "risk_flag" flag out
  end.

End Predict.

(** ** The content of the failure export *)

Definition date_failures (d : DataFrame) : list FailureRow :=
  map (fun r : Z * (value * value) =>
         mkFailure (fst r) "period_start/period_end" "end_before_start"
           (FDates (fst (snd r)) (snd (snd r))))
      (filter end_before_start (rows2 d "period_start" "period_end")).

Definition ratio_failures (d : DataFrame) (c : string) : list FailureRow :=
  map (fun r : Z * value => mkFailure (fst r) c "ratio_out_of_bounds" (FCell (snd r)))
      (filter ratio_out_of_bounds (rows1 d c)).

Definition consistency_failures (d : DataFrame) : list FailureRow :=
  map (fun r : Z * (value * value) =>
         mkFailure (fst r) "session_length_max/mean" "max_less_than_mean" FNotAvailable)
      (filter max_less_than_mean (rows2 d "session_length_max" "session_length_mean")).

Definition integer_failures (d : DataFrame) (c : string) : list FailureRow :=
  map (fun r : Z * value => mkFailure (fst r) c "non_integer_value" (FCell (snd r)))
      (filter non_integer_value (rows1 d c)).

(** The failures of the four checks, check after check. *)
Definition all_failures (d : DataFrame) : list FailureRow :=
  date_failures d ++ ratio_failures d "ad_click_rate" ++ consistency_failures d
  ++ integer_failures d "avg_tab_cnt" ++ integer_failures d "search_freq".

(** The world after the two outcomes of a validation that raises. *)
Definition note_missing (missing_cols : list string) (w : World) : World :=
  let me := self w in
  let v := validation (_report me) in
  mkWorld
    (mkProcessor (df me) (_scaler me)
       (mkReport (mkInfo (v_status v) (v_problems v) (v_failure_rows v) (Some missing_cols))
          (preprocessing_log (_report me))))
    (validation_failures_csv w) (stdout w).

Definition export (rows : list FailureRow) (w : World) : World :=
  mkWorld (self w) (Some rows) (stdout w).

Definition note_pass (w : World) : World :=
  let me := self w in
  mkWorld
    (mkProcessor (df me) (_scaler me) (mkReport pass_info (preprocessing_log (_report me))))
    (validation_failures_csv w) (stdout w).

(** A table has a problem when one of its rows fails one of the four
    checks. *)
Definition has_problem (d : DataFrame) : Prop :=
  (exists r, In r (rows2 d "period_start" "period_end") /\ end_before_start r = true) \/
  (exists r, In r (rows1 d "ad_click_rate") /\ ratio_out_of_bounds r = true) \/
  (exists r, In r (rows2 d "session_length_max" "session_length_mean")
             /\ max_less_than_mean r = true) \/
  (exists c r, In c INTEGER_COLUMNS /\ In r (rows1 d c) /\ non_integer_value r = true).

(** ** A library to run the pipeline with

    Texts are read as natural numbers written in decimal digits (a number,
    or a date counted from the epoch); the square root is truncated to 16
    decimals and the exponential to the first terms of its series. *)

Definition digit_of (c : ascii) : option Z :=
  let n := nat_of_ascii c in
  if ((48 <=? n) && (n <=? 57))%nat then Some (Z.of_nat (n - 48)) else None.

Fixpoint parse_digits (s : string) (acc : Z) : option Z :=
  match s with
  | EmptyString => Some acc
  | String c rest =>
      match digit_of c with
      | Some d => parse_digits rest (10 * acc + d)
      | None => None
      end
  end.

Definition parse_natural (s : string) : option Z :=
  match s with
  | EmptyString => None
  | _ => parse_digits s 0
  end.

Definition sqrt16 (q : Q) : Q :=
  Qred (Qmake (Z.sqrt (Qnum q * 10 ^ 32 / Zpos (Qden q))) (10 ^ 16)).

Definition exp_series (q : Q) : Q :=
  Qred (fold_right (fun k acc => 1 + q * acc / Qint (Z.of_nat k))%Q 1%Q (seq 1 12)).

Definition simple_library : Library :=
  mkLibrary (fun s => option_map Qint (parse_natural s)) parse_natural sqrt16 exp_series.

(** A table of the seven required columns with the rows numbered from 0. *)
Definition feature_table
    (period_start period_end session_length_max session_length_mean
     avg_tab_cnt search_freq ad_click_rate : list value) : DataFrame :=
  mkFrame (map Z.of_nat (seq 0 (length period_start)))
    [ ("period_start", period_start); ("period_end", period_end);
      ("session_length_max", session_length_max);
      ("session_length_mean", session_length_mean);
      ("avg_tab_cnt", avg_tab_cnt); ("search_freq", search_freq);
      ("ad_click_rate", ad_click_rate) ].

(** The world of a processor that was just built on a table. *)
Definition fresh (d : DataFrame) : World := mkWorld (init d) None [].

(** Two rows: the second ends before it starts, the first has a search
    count that is no integer. *)
Definition late_and_fractional : DataFrame :=
  feature_table [VTime 0; VTime 30] [VTime 5; VTime 20]
    [VNum 2; VNum 3] [VNum 1; VNum 3] [VNum 3; VNum 4] [VNum (7 # 2); VNum 1]
    [VNum (1 # 5); VNum (4 # 5)].

(** Scenario B: one row with [ad_click_rate = 1.5]. *)
Definition overrated : DataFrame :=
  feature_table [VTime 0] [VTime 5] [VNum 2] [VNum 1] [VNum 3] [VNum 7] [VNum (3 # 2)].

(** One row that lacks the column [ad_click_rate]. *)
Definition no_rate : DataFrame :=
  mkFrame [0]
    [ ("period_start", [VTime 0]); ("period_end", [VTime 5]);
      ("session_length_max", [VNum 2]); ("session_length_mean", [VStr "one"]);
      ("avg_tab_cnt", [VNum (1 # 2)]); ("search_freq", [VNum 7]) ].

(** One row whose session lengths and tab count are negative. *)
Definition negative_sessions : DataFrame :=
  feature_table [VTime 0] [VTime 5] [VNum (-1)] [VNum (-2)] [VNum (-3)] [VNum 7]
    [VNum (1 # 2)].

(** Five clean rows. *)
Definition five_rows : DataFrame :=
  feature_table
    [VTime 0; VTime 10; VTime 20; VTime 30; VTime 40]
    [VTime 5; VTime 15; VTime 25; VTime 35; VTime 45]
    [VNum 2; VNum 3; VNum 4; VNum 3; VNum 2]
    [VNum 1; VNum 2; VNum 2; VNum 1; VNum 2]
    [VNum 3; VNum 4; VNum 5; VNum 4; VNum 3]
    [VNum 0; VNum 0; VNum 0; VNum 0; VNum 5]
    [VNum (1 # 10); VNum (1 # 10); VNum (1 # 10); VNum (1 # 10); VNum (3 # 5)].

(** The world after a successful [fit_transform] on the five clean rows. *)
Definition fitted_world : World :=
  snd (fit_transform simple_library (fresh five_rows)).

(** The table that step 0 of [predict_dataframe] hands to the next steps:
    the input itself without validation, the table of the validator when
    validation is asked for and passes. *)
Inductive validation_gives (validator : Validator) (d0 : DataFrame)
    : bool -> option ValidationConfig -> DataFrame -> Prop :=
| NotValidated (config : option ValidationConfig) :
    validation_gives validator d0 false config d0
| Validated (config : ValidationConfig) (df_valid : DataFrame) :
    validator d0 config = (0%nat, df_valid, true) ->
    validation_gives validator d0 true (Some config) df_valid.

(** A classifier that gives every row the probability 3/4, artifacts that
    hold it with the processor fitted on the five clean rows and no
    threshold file, and a caller. *)
Definition constant_model : Classifier :=
  mkClassifier (Some (fun X => map (fun _ => (1 # 4, 3 # 4)%Q) (index X))) None
    (fun X => map (fun _ => 1) (index X)).

Definition sample_artifacts : Artifacts :=
  mkArtifacts constant_model (self fitted_world) None.

Definition accept_all : Validator := fun d _ => (0%nat, d, true).

Definition caller : World := fresh empty_frame.


(** Five rows with gaps: a missing session length, a missing search count
    and a missing rate. *)
Definition gappy_rows : DataFrame :=
  feature_table
    [VTime 0; VTime 10; VTime 20; VTime 30; VTime 40]
    [VTime 5; VTime 15; VTime 25; VTime 35; VTime 45]
    [VNum 2; VNull; VNum 4; VNum 3; VNum 2]
    [VNum 1; VNum 2; VNum 2; VNum 1; VNum 2]
    [VNum 3; VNum 4; VNum 5; VNum 4; VNum 3]
    [VNum 0; VNum 1; VStr "many"; VNum 0; VNum 5]
    [VNum (1 # 10); VNull; VNum (1 # 10); VNum (1 # 10); VNum (3 # 5)].


(** A processor with the scaler of [fitted_world] and nothing else of it. *)
Definition bare_fitted_world : World :=
  mkWorld (mkProcessor empty_frame (_scaler (self fitted_world)) (mkReport no_info []))
    None [].

(** A classifier that only predicts labels, here the label 1 for the rows
    with an even label and 0 for the others. *)
Definition label_model : Classifier :=
  mkClassifier None None (fun X => map (fun i => if Z.even i then 1 else 0) (index X)).

(** A validator that finds one problem in every table. *)
Definition reject_all : Validator := fun d _ => (1%nat, d, false).

Definition sample_config : ValidationConfig :=
  mkConfig REQUIRED_COLUMNS RATIO_COLUMNS
    ["session_length_max"; "session_length_mean"] INTEGER_COLUMNS.

End ML.

(** * Auxiliary notions for the properties of the aggregator *)

Module ServerAux.

Import Server.

(** A finite number between 0 and 1. *)
Definition in_unit (x : jsnum) : Prop :=
  exists q, x = Fin q /\ (0 <= q <= 1)%Q.

(** No recorded dwell time is negative. *)
Definition dwell_not_negative (evs : list RawEvent) : Prop :=
  forall e ms, In e evs -> dwell_ms e = Some ms -> 0 <= ms.

(** The events a query of [computeMetrics] can select: those of the window
    whose type is dwell, tab_count or visit. *)
Definition relevant (a b : Z) (e : RawEvent) : bool :=
  in_window a b e
  && (type_is "dwell" e || type_is "tab_count" e || type_is "visit" e).

(** The dwell time of a list of rows: the sum of the values that are there. *)
Definition dwell_sum (rows : list RawEvent) : Z :=
  Zsum (non_null (map dwell_ms rows)).



End ServerAux.

(** * Auxiliary notions for the properties of the processor *)

Module MLAux.

Import ML.

(** The first column named [c], rewritten by [g]: what [df[c] = g(df[c])]
    does to the list of columns. *)
Fixpoint update_first (c : string) (g : list value -> list value)
    (cols : list (string * list value)) : list (string * list value) :=
  match cols with
  | [] => []
  | (c', cells) :: rest =>
      if String.eqb c c' then (c', g cells) :: rest
      else (c', cells) :: update_first c g rest
  end.

Definition apply_all (us : list (string * (list value -> list value)))
    (cols : list (string * list value)) : list (string * list value) :=
  fold_left (fun cs u => update_first (fst u) (snd u) cs) us cols.

(** The column rewritings of step 1-2 and 1-3, in their order. *)
Definition coercions (L : Library) : list (string * (list value -> list value)) :=
  [ ("session_length_max", map (to_numeric L));
    ("session_length_mean", map (to_numeric L));
    ("avg_tab_cnt", map (to_numeric L));
    ("search_freq", map (to_numeric L));
    ("ad_click_rate", map (to_numeric L));
    ("period_start", map (to_datetime L));
    ("period_end", map (to_datetime L)) ].

(** A cell that holds a number. *)
Definition is_number (v : value) : Prop := exists q, v = VNum q.


(** A computation whose outcome does not depend on the world it runs in. *)
Definition Stateless {A} (m : M A) : Prop :=
  forall w w', fst (m w) = fst (m w').

End MLAux.

(** * The HTTP handlers of the server ([app.use], [POST /events/batch]) *)

Module Api.

Import Server.

Definition API_KEY : string := "PHQ9123".

(** An event of a request body: a JSON object whose fields are present or
    not; a field that is present has the type the extension gives it. *)
Record Event : Type := mkEv {
  ev_ts : option Z;
  ev_type : option string;
  ev_url : option string;
  ev_host : option string;
  ev_category : option string;
  ev_tabId : option Z;
  ev_dwell_ms : option Z;
  ev_speed_px_per_s : option Q;
  ev_count : option Z
}.

(** [x ?? d]. *)
Definition nullish {A} (x : option A) (d : A) : A :=
  match x with Some v => v | None => d end.

(** The row that [insert.run] stores for an event; [now] is what
    [Date.now()] reads when the row is built. *)
Definition row_of (now : Z) (e : Event) : RawEvent :=
  mkEvent (nullish (ev_ts e) now) (nullish (ev_type e) "unknown")
    (ev_url e) (ev_host e) (ev_category e) (ev_tabId e) (ev_dwell_ms e)
    (ev_speed_px_per_s e) (ev_count e).

(** The transaction: one row for each event, in order; [clock i] is the
    time at which the row of index [i] is built. *)
Fixpoint rows_of (clock : nat -> Z) (i : nat) (events : list Event) : list RawEvent :=
  match events with
  | [] => []
  | e :: rest => row_of (clock i) e :: rows_of clock (S i) rest
  end.

(** A [POST] request with a JSON body: the number of bytes of the body,
    the [x-api-key] header, and the [events] of the body when that is an
    array. *)
Record Request : Type := mkRequest {
  content_length : Z;
  x_api_key : option string;
  events : option (list Event)
}.

(** [express.json({ limit: "10mb" })] *)
Definition limit : Z := 10 * 1024 * 1024.

(** The middleware lets a request through when it is an [OPTIONS] request
    or carries the key. *)
Definition key_accepted (method : string) (key : option string) : bool :=
  String.eqb method "OPTIONS"
  || match key with
     | Some key => String.eqb key API_KEY
     | None => false
     end.

(** [POST /events/batch] behind the body parser and the middleware: the
    status of the answer and the table afterwards.  A body above the limit
    is answered 413 by the parser, before the key is looked at.  [db_fails]
    says that the database refuses the transaction: the handler catches
    the error and answers 500, and the transaction has stored nothing. *)
Definition post_events_batch (clock : nat -> Z) (db_fails : bool) (req : Request)
    (raw_events : list RawEvent) : Z * list RawEvent :=
  if limit <? content_length req then (413, raw_events)
  else if negb (key_accepted "POST" (x_api_key req)) then (401, raw_events)
  else
    match events req with
    | None => (400, raw_events)
    | Some [] => (400, raw_events)
    | Some evs =>
        if db_fails then (500, raw_events)
        else (201, raw_events ++ rows_of clock 0 evs)
    end.

(** [res.ok]. *)
Definition ok (status : Z) : bool := (200 <=? status) && (status <=? 299).

End Api.

(** * The background script of the extension *)

Module Extension.

Import Api.

Definition API_KEY : string := "PHQ9123".

(** ** Strings *)

(** What follows the prefix [p] in [s], when [s] starts with [p]. *)
Fixpoint strip_prefix (p s : string) : option string :=
  match p, s with
  | EmptyString, rest => Some rest
  | String a p', String b s' => if Ascii.eqb a b then strip_prefix p' s' else None
  | String _ _, EmptyString => None
  end.

Definition startsWith (p s : string) : bool :=
  match strip_prefix p s with Some _ => true | None => false end.

(** A regular expression without anchor is tried at every position. *)
Fixpoint search_from (m : string -> bool) (s : string) : bool :=
  m s || match s with
         | EmptyString => false
         | String _ s' => search_from m s'
         end.

(** [s.includes(needle)]. *)
Definition includes (needle s : string) : bool := search_from (startsWith needle) s.

(** [(a|b|...)] with literal alternatives. *)
Definition test_any (alternatives : list string) (s : string) : bool :=
  existsb (fun alt => includes alt s) alternatives.

(** [google\.[^/]+] at the beginning of [t]. *)
Definition google_domain (t : string) : bool :=
  match strip_prefix "google." t with
  | Some (String c _) => negb (Ascii.eqb c "/")
  | _ => false
  end.

(** [/^(https?:)?\/\//]. *)
Definition web_url (url : string) : bool :=
  startsWith "//" url || startsWith "http://" url || startsWith "https://" url.

(** ** State *)

Record TabInfo : Type := mkTab {
  tab_url : string;
  tab_host : string;
  tab_category : string;
  activeSince : option Z
}.

(** [tabActivity], [currentActiveTabId], the [eventQueue] of the local
    storage, and the number of readings of the clock so far. *)
Record State : Type := mkState {
  tabActivity : list (Z * TabInfo);
  currentActiveTabId : option Z;
  eventQueue : list Event;
  ticks : nat
}.

Fixpoint get (id : Z) (tabs : list (Z * TabInfo)) : option TabInfo :=
  match tabs with
  | [] => None
  | (k, v) :: rest => if k =? id then Some v else get id rest
  end.

Fixpoint put (id : Z) (tab : TabInfo) (tabs : list (Z * TabInfo)) : list (Z * TabInfo) :=
  match tabs with
  | [] => [(id, tab)]
  | (k, v) :: rest => if k =? id then (k, tab) :: rest else (k, v) :: put id tab rest
  end.

Definition delete (id : Z) (tabs : list (Z * TabInfo)) : list (Z * TabInfo) :=
  filter (fun kv => negb (fst kv =? id)) tabs.

Definition with_tabs (f : list (Z * TabInfo) -> list (Z * TabInfo)) (st : State) : State :=
  mkState (f (tabActivity st)) (currentActiveTabId st) (eventQueue st) (ticks st).

(** [tabActivity[id].activeSince = since]. *)
Definition set_activeSince (id : Z) (since : option Z) (st : State) : State :=
  match get id (tabActivity st) with
  | Some tab =>
      with_tabs (put id (mkTab (tab_url tab) (tab_host tab) (tab_category tab) since)) st
  | None => st
  end.

Definition set_current (id : option Z) (st : State) : State :=
  mkState (tabActivity st) id (eventQueue st) (ticks st).

(** A tab id that is not [null], [undefined] or 0. *)
Definition truthy (tabId : option Z) : option Z :=
  match tabId with
  | Some 0 => None
  | other => other
  end.

Definition initial : State := mkState [] None [] 0.

(** The events of the browser that the script listens to, each with what
    the browser and the settings answer while it is handled. *)
Inductive BrowserEvent : Type :=
  | TabActivated (tabId : Z)
  | TabUpdated (tabId : Z) (status : option string) (url : option string)
      (excludeHosts : list string) (activeTab : option Z)
  | TabRemoved (tabId : Z)
  | FocusChanged (windowId : Z) (activeTab : option Z)
  | TabCountAlarm (enabled : bool) (tabs : Z).

(** [chrome.windows.WINDOW_ID_NONE]. *)
Definition WINDOW_ID_NONE : Z := -1.

(** What becomes of a request that [fetch] sends. *)
Inductive Network : Type :=
  | Delivered
  | RequestLost
  | ReplyLost.

Section Background.

(** The successive readings of [Date.now()]. *)
Variable clock : nat -> Z.

(** The [URL] class: the host name of a URL and the URL without its query
    and fragment, when the URL parses. *)
Variable hostname : string -> option string.
Variable href_without_query : string -> option string.

(** The number of bytes of [JSON.stringify({ events })]. *)
Variable body_size : list Event -> Z.

Definition now (st : State) : Z * State :=
  (clock (ticks st),
   mkState (tabActivity st) (currentActiveTabId st) (eventQueue st) (S (ticks st))).

Definition stripQuery (u : string) : string :=
  match href_without_query u with Some stripped => stripped | None => u end.

Definition hostOf (u : string) : string :=
  match hostname u with Some h => h | None => "" end.

Definition search_engine (host : string) : bool :=
  search_from google_domain host || test_any ["bing.com"; "duckduckgo.com"] host
  || includes "search.naver.com" host
  || includes "search.daum.net" host.

Definition detectCategory (url : string) : string :=
  let host := hostOf url in
  if search_engine host then "search"
  else if test_any ["instagram.com"; "facebook.com"; "x.com"; "twitter.com";
                    "threads.net"; "linkedin.com"; "pinterest.com"; "tiktok.com"] host
  then "sns"
  else if test_any ["youtube.com"; "netflix.com"; "twitch.tv"; "watcha.com";
                    "wavve.com"; "tving.com"] host
  then "entertainment"
  else if test_any ["news.google.com"; "news.naver.com"; "media.daum.net"; "bbc.com";
                    "nytimes.com"; "cnn.com"] host
  then "news"
  else if test_any [".ac.kr"; ".edu"; "wikipedia.org"; "stackoverflow.com";
                    "github.com"] host
  then "education"
  else "other".

Definition pushEvent (ev : Event) (st : State) : State :=
  mkState (tabActivity st) (currentActiveTabId st) (eventQueue st ++ [ev]) (ticks st).

Definition deactivateTab (tabId : option Z) (st : State) : State :=
  match truthy tabId with
  | None => st
  | Some id =>
      match get id (tabActivity st) with
      | None => st
      | Some tab =>
          match truthy (activeSince tab) with
          | None => st
          | Some since =>
              let '(t, st1) := now st in
              let dwellMs := t - since in
              let st2 :=
                if 1000 <? dwellMs then
                  let '(t', st1') := now st1 in
                  pushEvent
                    (mkEv (Some t') (Some "dwell") (Some (tab_url tab)) (Some (tab_host tab))
                       (Some (tab_category tab)) (Some id) (Some dwellMs) None None)
                    st1'
                else st1 in
              set_activeSince id None st2
          end
      end
  end.

Definition activateTab (tabId : option Z) (st : State) : State :=
  match truthy tabId with
  | None => st
  | Some id =>
      match get id (tabActivity st) with
      | None => st
      | Some _ =>
          let '(t, st1) := now st in
          set_current (Some id) (set_activeSince id (Some t) st1)
      end
  end.

Definition handleUrlChange (tabId : Z) (url : string) (excludeHosts : list string)
    (activeTab : option Z) (st : State) : State :=
  if String.eqb url "" || negb (web_url url) then st
  else
    let st1 := deactivateTab (Some tabId) st in
    let host := hostOf url in
    if existsb (String.eqb host) excludeHosts then st1
    else
      let category := detectCategory url in
      let st2 := with_tabs (put tabId (mkTab (stripQuery url) host category None)) st1 in
      let '(t, st3) := now st2 in
      let st4 :=
        pushEvent
          (mkEv (Some t) (Some "visit") (Some (stripQuery url)) (Some host)
             (Some category) (Some tabId) None None None)
          st3 in
      match activeTab with
      | Some id => if id =? tabId then activateTab (Some tabId) st4 else st4
      | None => st4
      end.

Definition recordTabCount (enabled : bool) (tabs : Z) (st : State) : State :=
  if negb enabled then st
  else
    let '(t, st1) := now st in
    pushEvent (mkEv (Some t) (Some "tab_count") None None None None None None (Some tabs)) st1.

(** The listeners; each one is taken to run to its end before the next one
    starts. *)
Definition handle (ev : BrowserEvent) (st : State) : State :=
  match ev with
  | TabActivated tabId =>
      activateTab (Some tabId) (deactivateTab (currentActiveTabId st) st)
  | TabUpdated tabId status url excludeHosts activeTab =>
      match status, url with
      | Some status, Some url =>
          if String.eqb status "complete" && negb (String.eqb url "")
          then handleUrlChange tabId url excludeHosts activeTab st
          else st
      | _, _ => st
      end
  | TabRemoved tabId =>
      with_tabs (delete tabId) (deactivateTab (Some tabId) st)
  | FocusChanged windowId activeTab =>
      let st1 := deactivateTab (currentActiveTabId st) st in
      if windowId =? WINDOW_ID_NONE then st1
      else
        match activeTab with
        | Some id => activateTab (Some id) st1
        | None => st1
        end
  | TabCountAlarm enabled tabs => recordTabCount enabled tabs st
  end.

Definition run (trace : list BrowserEvent) (st : State) : State :=
  fold_left (fun st ev => handle ev st) trace st.

(** [{ ...e, url: e.url ? stripQuery(e.url) : "" }]. *)
Definition sanitize (e : Event) : Event :=
  mkEv (ev_ts e) (ev_type e)
    (Some match ev_url e with
          | Some u => if String.eqb u "" then "" else stripQuery u
          | None => ""
          end)
    (ev_host e) (ev_category e) (ev_tabId e) (ev_dwell_ms e) (ev_speed_px_per_s e)
    (ev_count e).

Definition clear_queue (st : State) : State :=
  mkState (tabActivity st) (currentActiveTabId st) [] (ticks st).

(** [flushBatch] against the server: the state of the extension and the
    table of the server afterwards.  [server_clock] is the clock of the
    server, [db_fails] says whether its database refuses the transaction. *)
Definition flushBatch (enabled : bool) (network : Network) (server_clock : nat -> Z)
    (db_fails : bool) (st : State) (raw_events : list Server.RawEvent)
    : State * list Server.RawEvent :=
  if negb enabled then (st, raw_events)
  else
    match eventQueue st with
    | [] => (st, raw_events)
    | queue =>
        let sanitized := map sanitize queue in
        let request := mkRequest (body_size sanitized) (Some API_KEY) (Some sanitized) in
        match network with
        | RequestLost => (st, raw_events)
        | ReplyLost =>
            (st, snd (post_events_batch server_clock db_fails request raw_events))
        | Delivered =>
            let '(status, table) :=
              post_events_batch server_clock db_fails request raw_events in
            if ok status then (clear_queue st, table) else (st, table)
        end
    end.

End Background.

(** ** What the queue holds *)

(** An event with a time, one of the three types that the metrics read,
    and a dwell time above a second when there is one. *)
Definition well_formed (e : Event) : Prop :=
  ev_ts e <> None /\
  In (ev_type e) [Some "visit"; Some "dwell"; Some "tab_count"] /\
  (forall d, ev_dwell_ms e = Some d -> 1000 < d).

(** ** Example data *)

(** A stand-in for the [URL] class on URLs of the form [https://host/path]. *)
Fixpoint up_to_slash (s : string) : string :=
  match s with
  | EmptyString => EmptyString
  | String c rest => if Ascii.eqb c "/" then EmptyString else String c (up_to_slash rest)
  end.

Definition simple_hostname (u : string) : option string :=
  match strip_prefix "https://" u with
  | Some rest => Some (up_to_slash rest)
  | None => None
  end.

Definition simple_href (u : string) : option string :=
  match strip_prefix "https://" u with
  | Some _ => Some u
  | None => None
  end.

(** A body of 200 bytes for every event. *)
Definition simple_size (events : list Event) : Z := 200 * Z.of_nat (length events).

(** A clock that gains a minute at every reading. *)
Definition minute_clock (n : nat) : Z := 1000000 + 60000 * Z.of_nat n.

(** A tab that loads a page, stays active, and is closed. *)
Definition one_visit : list BrowserEvent :=
  [ TabUpdated 7 (Some "complete") (Some "https://news.google.com/home") [] (Some 7);
    TabCountAlarm true 3;
    TabRemoved 7 ].

End Extension.

(** * Properties of the aggregator *)

Module ServerSpec.

Import Server.

Example scenarioA_row :
  computeMetrics utc_hour scenarioA 0 86400000 =
  {| total_usage := Fin (48 # 25);
     late_night_ratio := Fin 1;
     sns_ent_ratio := Fin (3 # 23);
     session_length_max := Fin (79 # 50);
     session_length_mean := Fin (16 # 25);
     bounce_ratio := Fin (1 # 3);
     avg_tab_cnt := Fin 0;
     search_freq := 0;
     repeat_site_ratio := Fin 1 |}.
Proof. vm_compute. reflexivity. Qed.

Lemma filter_none {A} (f : A -> bool) (l : list A) :
  (forall x, In x l -> f x = false) -> filter f l = [].
Proof.
  induction l as [|x l IH]; intros H; simpl; [reflexivity|].
  rewrite (H x (or_introl eq_refl)). apply IH.
  intros y Hy. apply H. right. exact Hy.
Qed.


Section NoEvents.

Variable local_hour : Z -> option Z.
Variable evs : list RawEvent.
Variables a b : Z.



End NoEvents.



(** A window whose dwell events all last 0 ms has a total of 0 ms but is
    not a window without dwell events: each of them is a session of at most
    ten seconds. *)
Example zero_length_sessions_bounce :
  let m := computeMetrics utc_hour [dwell_event 1000 "a.example" "news" 0] 0 86400000 in
  total_usage m = Fin 0 /\ bounce_ratio m = Fin 1.
Proof. vm_compute. split; reflexivity. Qed.

(** ** The window of the queries *)

Lemma filter_split {A} (w p q : A -> bool) (l : list A) :
  (forall x, q x = w x && p x) ->
  filter q l = filter p (filter w l).
Proof.
  intros Hq. induction l as [|x l IH]; simpl; [reflexivity|].
  rewrite Hq. destruct (w x); simpl.
  - destruct (p x); rewrite IH; reflexivity.
  - exact IH.
Qed.

(** [computeMetrics] computes the metrics of the events that its queries
    select: those with [a <= ts <= b]. *)
Lemma computeMetrics_window (local_hour : Z -> option Z) (evs : list RawEvent) (a b : Z) :
  computeMetrics local_hour evs a b =
  metrics_of_events local_hour (filter (in_window a b) evs).
Proof.
  unfold computeMetrics, metrics_of_events.
  assert (Hrows : dwell_rows evs a b = dwell_events (filter (in_window a b) evs)).
  { unfold dwell_rows, dwell_events.
    apply filter_split. intros e. apply andb_comm. }
  assert (Hses : sessions evs a b = durations (filter (in_window a b) evs)).
  { unfold sessions, durations. rewrite Hrows. reflexivity. }
  assert (Htot : dwellTotal evs a b = total_dwell_ms (filter (in_window a b) evs)).
  { unfold dwellTotal, total_dwell_ms. rewrite Hrows. reflexivity. }
  assert (Hsub : forall extra,
            filter (fun e => type_is "dwell" e && in_window a b e && extra e) evs =
            filter extra (dwell_events (filter (in_window a b) evs))).
  { intros extra. rewrite <- Hrows. unfold dwell_rows.
    apply filter_split. intros e. reflexivity. }
  f_equal.
  - rewrite Htot. reflexivity.
  - unfold safeRatio, ratio_of_total, late. rewrite Htot, Hsub. reflexivity.
  - unfold safeRatio, ratio_of_total, snsEnt. rewrite Htot, Hsub. reflexivity.
  - unfold sessionMax. rewrite Hses.
    destruct (durations (filter (in_window a b) evs)); reflexivity.
  - unfold sessionMean. rewrite Hses.
    destruct (durations (filter (in_window a b) evs)); reflexivity.
  - unfold bounceRatio, shortCnt. rewrite Hses.
    destruct (durations (filter (in_window a b) evs)); reflexivity.
  - unfold avgTabCnt.
    rewrite (filter_split (in_window a b) (type_is "tab_count") _ evs);
      [reflexivity | intros e; apply andb_comm].
  - unfold searchFreq.
    rewrite (filter_split (in_window a b)
               (fun e => type_is "visit" e && is_search_category e) _ evs);
      [reflexivity|].
    intros e. destruct (type_is "visit" e), (in_window a b e); reflexivity.
  - unfold repeatSiteRatio, ratio_of_total, topMs, topHosts, top5_dwell_ms.
    rewrite Htot, Hrows. reflexivity.
Qed.

Lemma filter_implied {A} (r q : A -> bool) (l : list A) :
  (forall x, q x = true -> r x = true) -> filter q (filter r l) = filter q l.
Proof.
  intros H. induction l as [|x l IH]; simpl; [reflexivity|].
  destruct (r x) eqn:Er; simpl.
  - rewrite IH. reflexivity.
  - destruct (q x) eqn:Eq; [|exact IH].
    rewrite (H x Eq) in Er. discriminate Er.
Qed.

(** The outcome of a call is that of the events that its queries select. *)
Lemma thrown_window (local_hour : Z -> option Z) (max_arguments : nat)
    (evs : list RawEvent) (a b : Z) :
  thrown local_hour max_arguments (filter (in_window a b) evs) a b
  = thrown local_hour max_arguments evs a b.
Proof.
  unfold thrown, sessions, dwell_rows.
  rewrite !(filter_implied (in_window a b)
              (fun e => type_is "dwell" e && in_window a b e));
    [|intros e H; apply andb_true_iff in H; apply H].
  rewrite (filter_implied (in_window a b)
             (fun e => type_is "dwell" e && in_window a b e && is_late_night local_hour e));
    [|intros e H; apply andb_true_iff in H; destruct H as [H _];
      apply andb_true_iff in H; apply H].
  rewrite (filter_implied (in_window a b)
             (fun e => type_is "dwell" e && in_window a b e
                       && category_in ["sns"; "entertainment"] e));
    [|intros e H; apply andb_true_iff in H; destruct H as [H _];
      apply andb_true_iff in H; apply H].
  reflexivity.
Qed.

Lemma in_window_spec (a b : Z) (e : RawEvent) :
  in_window a b e = true <-> a <= ts e <= b.
Proof.
  unfold in_window, between. rewrite andb_true_iff, !Z.leb_le. reflexivity.
Qed.

(** C3, as the code has it.  [computeMetrics] aggregates the events that
    its queries select, which are those with
    [windowStart <= ts <= windowEnd]: the row is the metrics of exactly
    these events, among which is every event with
    [windowStart <= ts < windowEnd], and a call on the whole table returns
    or throws what a call on these events alone does.  So no event before
    [windowStart] or after [windowEnd] is aggregated, and whenever no event
    is recorded exactly at [windowEnd] the row is the metrics of the events
    of the half-open window.  A call with [windowEnd <= windowStart] is no
    error: with [windowEnd < windowStart] it returns the row of zeros, and
    with [windowEnd = windowStart] too when no event is recorded at that
    instant. *)
Theorem C3_window_bounds (local_hour : Z -> option Z) (max_arguments : nat)
    (evs : list RawEvent) (a b : Z) :
  computeMetrics local_hour evs a b
    = metrics_of_events local_hour (filter (in_window a b) evs) /\
  (forall e, In e (filter (in_window a b) evs) <-> In e evs /\ a <= ts e <= b) /\
  (forall e, In e evs -> a <= ts e < b -> In e (filter (in_window a b) evs)) /\
  computeMetrics_call local_hour max_arguments evs a b
    = computeMetrics_call local_hour max_arguments (filter (in_window a b) evs) a b /\
  (b < a -> computeMetrics_call local_hour max_arguments evs a b = Returns zero_row) /\
  ((forall e, In e evs -> ts e <> b) ->
   computeMetrics local_hour evs a b
     = metrics_of_events local_hour (filter (half_open a b) evs) /\
   (b <= a -> computeMetrics_call local_hour max_arguments evs a b = Returns zero_row)).
Proof.
  assert (Hcall : computeMetrics_call local_hour max_arguments evs a b
            = computeMetrics_call local_hour max_arguments
                (filter (in_window a b) evs) a b).
  { unfold computeMetrics_call. rewrite thrown_window.
    rewrite (computeMetrics_window local_hour (filter (in_window a b) evs)).
    rewrite (filter_implied (in_window a b) (in_window a b)) by auto.
    rewrite <- computeMetrics_window. reflexivity. }
  assert (Hempty : filter (in_window a b) evs = [] ->
            computeMetrics_call local_hour max_arguments evs a b = Returns zero_row).
  { intros E. rewrite Hcall, E. reflexivity. }
  split; [apply computeMetrics_window|].
  split; [intros e; rewrite filter_In, in_window_spec; reflexivity|].
  split; [intros e He Hts; apply filter_In; split;
            [exact He | apply in_window_spec; lia]|].
  split; [exact Hcall|].
  split.
  - intros Hab. apply Hempty. apply filter_none. intros e _.
    destruct (in_window a b e) eqn:E; [|reflexivity].
    apply in_window_spec in E. lia.
  - intros Hb.
    assert (Hw : filter (in_window a b) evs = filter (half_open a b) evs).
    { apply filter_ext_in. intros e He. specialize (Hb e He).
      unfold in_window, between, half_open.
      destruct (a <=? ts e); simpl; [|reflexivity].
      destruct (Z.leb_spec (ts e) b), (Z.ltb_spec (ts e) b); try reflexivity; lia. }
    split; [rewrite computeMetrics_window, Hw; reflexivity|].
    intros Hab. apply Hempty. rewrite Hw. apply filter_none. intros e _.
    unfold half_open.
    destruct (Z.leb_spec a (ts e)), (Z.ltb_spec (ts e) b); try reflexivity; lia.
Qed.

(** C3 on a window with an event on each side of its end and, in a second
    table, one exactly at its end: two of three minutes count in the first,
    all three in the second. *)
Lemma C3_window_bounds_witness :
  computeMetrics_call utc_hour small_engine two_days 0 86400000
    = computeMetrics_call utc_hour small_engine
        [minute_at 1000; minute_at 86399999] 0 86400000 /\
  computeMetrics utc_hour two_days 0 86400000 =
    metrics_of_events utc_hour (filter (half_open 0 86400000) two_days) /\
  total_usage (computeMetrics utc_hour two_days 0 86400000) = Fin 2 /\
  computeMetrics utc_hour (minute_at 86400000 :: two_days) 0 86400000
    = metrics_of_events utc_hour
        [minute_at 86400000; minute_at 1000; minute_at 86399999] /\
  computeMetrics_call utc_hour small_engine two_days 86400000 0 = Returns zero_row.
Proof.
  assert (Hb : forall e, In e two_days -> ts e <> 86400000).
  { intros e [<-|[<-|[<-|[]]]]; simpl; lia. }
  destruct (C3_window_bounds utc_hour small_engine two_days 0 86400000)
    as (_ & _ & _ & Hcall & _ & Hhalf).
  destruct (Hhalf Hb) as [Hrow _].
  destruct (C3_window_bounds utc_hour small_engine (minute_at 86400000 :: two_days)
              0 86400000) as (Hall & _).
  destruct (C3_window_bounds utc_hour small_engine two_days 86400000 0)
    as (_ & _ & _ & _ & Hneg & _).
  split; [exact Hcall|]. split; [exact Hrow|]. split; [reflexivity|].
  split; [exact Hall|]. apply Hneg. lia.
Defined.

(** C3, as it is worded, fails on the code: an event recorded exactly at
    [windowEnd] is aggregated, here one minute of dwell time at the end of
    the window [0, 1000); and the call with [windowEnd = windowStart]
    returns a row, in which that event counts as well. *)
Lemma C3_end_of_window_is_included :
  computeMetrics utc_hour [minute_at 1000] 0 1000 <>
    metrics_of_events utc_hour (filter (half_open 0 1000) [minute_at 1000]) /\
  total_usage (computeMetrics utc_hour [minute_at 1000] 0 1000) = Fin 1 /\
  total_usage (metrics_of_events utc_hour (filter (half_open 0 1000) [minute_at 1000])) = Fin 0 /\
  total_usage (computeMetrics utc_hour [minute_at 1000] 1000 1000) = Fin 1.
Proof.
  split; [|repeat split; reflexivity].
  intros H. apply (f_equal total_usage) in H. vm_compute in H. discriminate H.
Qed.

(** One minute of dwell time recorded at the first instant of a day
    belongs to the daily metrics of that day and of the day before. *)
Example midnight_counts_for_two_days :
  exists yesterday today,
    metrics_daily utc_hour small_engine utc_day_start 100000000 [minute_at 172800000]
      (Some 86400000) = Returns yesterday /\
    metrics_daily utc_hour small_engine utc_day_start 100000000 [minute_at 172800000]
      (Some 172800000) = Returns today /\
    total_usage yesterday = Fin 1 /\
    total_usage today = Fin 1.
Proof. do 2 eexists. repeat split; vm_compute; reflexivity. Qed.

(** ** Scenario A *)





End ServerSpec.

(** * Properties of the processor *)

Module MLSpec.

Import ML.

(** ** Columns of a table *)

Lemma lookup_assign_same (c : string) (cells : list value) cols :
  lookup c (assign c cells cols) = Some cells.
Proof.
  induction cols as [|[c' old] rest IH]; simpl.
  - rewrite String.eqb_refl. reflexivity.
  - destruct (String.eqb c c') eqn:E; simpl; rewrite E; [reflexivity | exact IH].
Qed.

Lemma lookup_assign_other (c c' : string) (cells : list value) cols :
  c <> c' -> lookup c (assign c' cells cols) = lookup c cols.
Proof.
  intros Hne. apply String.eqb_neq in Hne.
  induction cols as [|[c2 old] rest IH]; simpl.
  - rewrite Hne. reflexivity.
  - destruct (String.eqb c' c2) eqn:E; simpl.
    + apply String.eqb_eq in E. subst c2. rewrite Hne. reflexivity.
    + destruct (String.eqb c c2); [reflexivity | exact IH].
Qed.

Lemma get_column_set_same (c : string) (cells : list value) (d : DataFrame) :
  get_column c (set_column c cells d) = cells.
Proof. unfold get_column, set_column. simpl. rewrite lookup_assign_same. reflexivity. Qed.

Lemma get_column_set_other (c c' : string) (cells : list value) (d : DataFrame) :
  c <> c' -> get_column c (set_column c' cells d) = get_column c d.
Proof.
  intros H. unfold get_column, set_column. simpl.
  rewrite lookup_assign_other by exact H. reflexivity.
Qed.

Lemma has_column_lookup (c : string) (d : DataFrame) :
  has_column c d = match lookup c (columns d) with Some _ => true | None => false end.
Proof.
  unfold has_column, column_names.
  induction (columns d) as [|[c' cells] rest IH]; simpl; [reflexivity|].
  destruct (String.eqb c c'); [reflexivity | exact IH].
Qed.

Lemma has_column_set (c c' : string) (cells : list value) (d : DataFrame) :
  has_column c (set_column c' cells d) = has_column c d || String.eqb c c'.
Proof.
  rewrite !has_column_lookup. unfold set_column. simpl.
  destruct (String.eqb c c') eqn:E.
  - apply String.eqb_eq in E. subst c'. rewrite lookup_assign_same.
    rewrite orb_true_r. reflexivity.
  - apply String.eqb_neq in E. rewrite lookup_assign_other by exact E.
    rewrite orb_false_r. reflexivity.
Qed.

Lemma has_column_update (f : list value -> list value) (d : DataFrame) (c c' : string) :
  has_column c (update_column f d c') = has_column c d.
Proof.
  unfold update_column. destruct (has_column c' d) eqn:H; [|reflexivity].
  rewrite has_column_set. destruct (String.eqb c c') eqn:E.
  - apply String.eqb_eq in E. subst c'. rewrite H. reflexivity.
  - apply orb_false_r.
Qed.

Lemma index_update (f : list value -> list value) (d : DataFrame) (c : string) :
  index (update_column f d c) = index d.
Proof. unfold update_column. destruct (has_column c d); reflexivity. Qed.

Lemma missing_column_no_cells (c : string) (d : DataFrame) :
  has_column c d = false -> get_column c d = [].
Proof.
  rewrite has_column_lookup. unfold get_column.
  destruct (lookup c (columns d)); [discriminate | reflexivity].
Qed.

(** ** The findings of a validation *)

Lemma record_eq {R} (bad : list R) (describe : R -> FailureRow) (acc : Findings) :
  record bad describe acc = ((fst acc + length bad)%nat, snd acc ++ map describe bad).
Proof.
  destruct bad; [|reflexivity].
  destruct acc as [n rows]. simpl. rewrite Nat.add_0_r, app_nil_r. reflexivity.
Qed.

Lemma rows1_missing (d : DataFrame) (c : string) :
  has_column c d = false -> rows1 d c = [].
Proof.
  intros H. unfold rows1. rewrite (missing_column_no_cells _ _ H).
  destruct (index d); reflexivity.
Qed.

Lemma rows2_missing (d : DataFrame) (c1 c2 : string) :
  has_column c1 d && has_column c2 d = false -> rows2 d c1 c2 = [].
Proof.
  intros H. unfold rows2. apply andb_false_iff in H. destruct H as [H|H];
    rewrite (missing_column_no_cells _ _ H).
  - destruct (index d); reflexivity.
  - destruct (get_column c1 d); destruct (index d); reflexivity.
Qed.

Lemma check_dates_eq (d : DataFrame) (acc : Findings) :
  check_dates d acc =
  ((fst acc + length (date_failures d))%nat, snd acc ++ date_failures d).
Proof.
  unfold check_dates, date_failures.
  destruct (has_column "period_start" d && has_column "period_end" d) eqn:H.
  - rewrite record_eq, length_map. reflexivity.
  - rewrite (rows2_missing _ _ _ H). destruct acc. simpl.
    rewrite Nat.add_0_r, app_nil_r. reflexivity.
Qed.

Lemma check_consistency_eq (d : DataFrame) (acc : Findings) :
  check_consistency d acc =
  ((fst acc + length (consistency_failures d))%nat, snd acc ++ consistency_failures d).
Proof.
  unfold check_consistency, consistency_failures.
  destruct (has_column "session_length_max" d && has_column "session_length_mean" d) eqn:H.
  - rewrite record_eq, length_map. reflexivity.
  - rewrite (rows2_missing _ _ _ H). destruct acc. simpl.
    rewrite Nat.add_0_r, app_nil_r. reflexivity.
Qed.

Lemma check_ratio_eq (d : DataFrame) (acc : Findings) (c : string) :
  check_ratio d acc c =
  ((fst acc + length (ratio_failures d c))%nat, snd acc ++ ratio_failures d c).
Proof.
  unfold check_ratio, ratio_failures. destruct (has_column c d) eqn:H.
  - rewrite record_eq, length_map. reflexivity.
  - rewrite (rows1_missing _ _ H). destruct acc. simpl.
    rewrite Nat.add_0_r, app_nil_r. reflexivity.
Qed.

Lemma check_integer_eq (d : DataFrame) (acc : Findings) (c : string) :
  check_integer d acc c =
  ((fst acc + length (integer_failures d c))%nat, snd acc ++ integer_failures d c).
Proof.
  unfold check_integer, integer_failures. destruct (has_column c d) eqn:H.
  - rewrite record_eq, length_map. reflexivity.
  - rewrite (rows1_missing _ _ H). destruct acc. simpl.
    rewrite Nat.add_0_r, app_nil_r. reflexivity.
Qed.

(** The two counters agree, and no check hides the findings of another:
    the list holds the failures of all four checks. *)
Lemma findings_eq (d : DataFrame) :
  findings d = (length (all_failures d), all_failures d).
Proof.
  unfold findings, all_failures, INTEGER_COLUMNS, RATIO_COLUMNS. simpl fold_left.
  rewrite !check_integer_eq, check_consistency_eq, check_ratio_eq, check_dates_eq.
  simpl fst. simpl snd. rewrite !length_app.
  f_equal; [lia | simpl; rewrite <- !app_assoc; reflexivity].
Qed.

Section Validation.

Variable L : Library.

Lemma validate_missing (d : DataFrame) (w : World) :
  missing_columns d <> [] ->
  _validate_data L d w =
  (Raise (DataProcessingError (MissingColumns (missing_columns d))),
   note_missing (missing_columns d) w).
Proof.
  intros H. unfold _validate_data.
  destruct (missing_columns d) as [|c cs]; [congruence|]. reflexivity.
Qed.

Lemma validate_found (d : DataFrame) (w : World) :
  missing_columns d = [] ->
  all_failures (coerce L d) <> [] ->
  _validate_data L d w =
  (Raise (DataProcessingError (ValidationFailed (length (all_failures (coerce L d))))),
   export (all_failures (coerce L d)) w).
Proof.
  intros Hm Hf. unfold _validate_data. rewrite Hm, findings_eq.
  destruct (all_failures (coerce L d)) as [|r rs]; [congruence|]. reflexivity.
Qed.

Lemma validate_pass (d : DataFrame) (w : World) :
  missing_columns d = [] ->
  all_failures (coerce L d) = [] ->
  _validate_data L d w = (Return (coerce L d), note_pass w).
Proof.
  intros Hm Hf. unfold _validate_data. rewrite Hm, findings_eq, Hf. reflexivity.
Qed.

(** A validation that returns a table has found no missing column and no
    failure. *)
Lemma validate_return_inv (d d' : DataFrame) (w w' : World) :
  _validate_data L d w = (Return d', w') ->
  missing_columns d = [] /\ all_failures (coerce L d) = [] /\ d' = coerce L d.
Proof.
  intros H.
  destruct (missing_columns d) as [|c cs] eqn:Hm.
  - destruct (all_failures (coerce L d)) as [|r rs] eqn:Hf.
    + rewrite (validate_pass d w Hm Hf) in H. inversion H. auto.
    + rewrite validate_found in H by (auto; rewrite Hf; discriminate).
      discriminate H.
  - rewrite validate_missing in H by (rewrite Hm; discriminate). discriminate H.
Qed.

End Validation.

Lemma Qlt_b_false (x y : Q) : Qlt_b x y = false -> (y <= x)%Q.
Proof.
  unfold Qlt_b. rewrite negb_false_iff. apply Qle_bool_iff.
Qed.

Lemma filter_nil_inv {A} (f : A -> bool) (l : list A) (x : A) :
  filter f l = [] -> In x l -> f x = false.
Proof.
  intros Hnil Hin. destruct (f x) eqn:E; [|reflexivity].
  assert (Hx : In x (filter f l)) by (apply filter_In; auto).
  rewrite Hnil in Hx. destruct Hx.
Qed.

Lemma filter_not_nil {A} (f : A -> bool) (l : list A) (x : A) :
  In x l -> f x = true -> filter f l <> [].
Proof.
  intros Hin Hf Hnil. rewrite (filter_nil_inv f l x Hnil Hin) in Hf. discriminate.
Qed.

Lemma missing_columns_names (d1 d2 : DataFrame) :
  column_names d1 = column_names d2 -> missing_columns d1 = missing_columns d2.
Proof. intros H. unfold missing_columns, has_column. rewrite H. reflexivity. Qed.

(** ** What coercion keeps *)

Section Coercion.

Variable L : Library.

Lemma index_coerce (d : DataFrame) : index (coerce L d) = index d.
Proof.
  unfold coerce, NUMERIC_COLUMNS, RATIO_COLUMNS. cbn [fold_left app].
  rewrite !index_update. reflexivity.
Qed.

Lemma length_get_update (f : value -> value) (d : DataFrame) (c c' : string) :
  length (get_column c (update_column (map f) d c')) = length (get_column c d).
Proof.
  unfold update_column. destruct (has_column c' d); [|reflexivity].
  destruct (String.eqb c c') eqn:E.
  - apply String.eqb_eq in E. subst c'. rewrite get_column_set_same. apply length_map.
  - apply String.eqb_neq in E. rewrite get_column_set_other by exact E. reflexivity.
Qed.

Lemma length_get_coerce (d : DataFrame) (c : string) :
  length (get_column c (coerce L d)) = length (get_column c d).
Proof.
  unfold coerce, NUMERIC_COLUMNS, RATIO_COLUMNS. cbn [fold_left app].
  rewrite !length_get_update. reflexivity.
Qed.

End Coercion.

(** ** The order of the failure list *)

Lemma labels_of_selection {A} (f : Z * A -> bool) (labels : list Z) (cells : list A) (i : Z) :
  In i (map fst (filter f (combine labels cells))) -> In i labels.
Proof.
  intros H. apply in_map_iff in H. destruct H as [[j x] [Hj Hin]].
  simpl in Hj. subst j. apply filter_In in Hin. destruct Hin as [Hin _].
  apply (in_combine_l _ _ _ _ Hin).
Qed.

(** The rows that a mask selects keep the order of the table. *)
Lemma selection_in_row_order {A} (f : Z * A -> bool) (labels : list Z) (cells : list A) :
  StronglySorted Z.lt labels ->
  StronglySorted Z.lt (map fst (filter f (combine labels cells))).
Proof.
  intros Hs. revert cells.
  induction Hs as [|a l Hl IH Ha]; intros cells; [constructor|].
  destruct cells as [|x xs]; [constructor|].
  simpl. destruct (f (a, x)); simpl; [|apply IH].
  constructor; [apply IH|].
  apply Forall_forall. intros i Hi.
  apply labels_of_selection in Hi.
  rewrite Forall_forall in Ha. apply Ha. exact Hi.
Qed.

Lemma segment_in_row_order (d : DataFrame) (seg : list FailureRow) :
  StronglySorted Z.lt (index d) ->
  In seg [ date_failures d; ratio_failures d "ad_click_rate"; consistency_failures d;
           integer_failures d "avg_tab_cnt"; integer_failures d "search_freq" ] ->
  StronglySorted Z.lt (map f_index seg).
Proof.
  intros Hs Hin. simpl in Hin.
  destruct Hin as [<-|[<-|[<-|[<-|[<-|[]]]]]];
    unfold date_failures, ratio_failures, consistency_failures, integer_failures;
    rewrite map_map; simpl;
    apply selection_in_row_order; exact Hs.
Qed.

Lemma has_problem_failures (d : DataFrame) :
  has_problem d -> all_failures d <> [].
Proof.
  unfold all_failures.
  intros [[r [Hin Hr]] | [[r [Hin Hr]] | [[r [Hin Hr]] | [c [r [Hc [Hin Hr]]]]]]] Hnil;
    repeat (apply app_eq_nil in Hnil; destruct Hnil as [? Hnil]).
  - apply map_eq_nil in H. exact (filter_not_nil _ _ _ Hin Hr H).
  - apply map_eq_nil in H0. exact (filter_not_nil _ _ _ Hin Hr H0).
  - apply map_eq_nil in H1. exact (filter_not_nil _ _ _ Hin Hr H1).
  - simpl in Hc. destruct Hc as [<-|[<-|[]]].
    + apply map_eq_nil in H2. exact (filter_not_nil _ _ _ Hin Hr H2).
    + apply map_eq_nil in Hnil. exact (filter_not_nil _ _ _ Hin Hr Hnil).
Qed.

Section Claims.

Variable L : Library.

(** C6.  When the table lacks a required column, [_validate_data] raises
    the missing-column error at once: the outcome is fixed by the names of
    the columns alone, whatever the cells hold, the failure export is left
    as it was and the report only gains the list of the missing columns.
    No other check stops the validation: when no column is missing, the
    outcome is decided by the failures of all four checks together. *)
Theorem C6_missing_column_aborts (d : DataFrame) (w : World) :
  missing_columns d <> [] ->
  _validate_data L d w =
    (Raise (DataProcessingError (MissingColumns (missing_columns d))),
     note_missing (missing_columns d) w) /\
  validation_failures_csv (snd (_validate_data L d w)) = validation_failures_csv w /\
  (forall d2, column_names d2 = column_names d ->
     fst (_validate_data L d2 w) = fst (_validate_data L d w)) /\
  (forall d0 w0, missing_columns d0 = [] ->
     _validate_data L d0 w0 =
       match all_failures (coerce L d0) with
       | [] => (Return (coerce L d0), note_pass w0)
       | _ :: _ =>
           (Raise (DataProcessingError
                     (ValidationFailed (length (all_failures (coerce L d0))))),
            export (all_failures (coerce L d0)) w0)
       end).
Proof.
  intros Hm. rewrite (validate_missing L d w Hm). repeat split.
  - intros d2 Hn. pose proof (missing_columns_names _ _ Hn) as E.
    assert (Hm2 : missing_columns d2 <> []) by (rewrite E; exact Hm).
    rewrite (validate_missing L d2 w Hm2), E. reflexivity.
  - intros d0 w0 H0.
    destruct (all_failures (coerce L d0)) eqn:Hf.
    + apply validate_pass; assumption.
    + rewrite <- Hf. apply validate_found; [assumption|]. rewrite Hf. discriminate.
Qed.

(** C7, as the code has it.  When validation finds problems, the failure
    list that is exported is a function of the table: the failures of the
    date check, then of the ratio check, then of the consistency check,
    then of the integer check on [avg_tab_cnt] and on [search_freq], each
    of these in the order of the rows of the table.  When it finds none,
    the table it returns has the rows of the input: the same labels, and
    columns of the same length. *)
Theorem C7_failure_export (d : DataFrame) (w : World) :
  missing_columns d = [] ->
  (all_failures (coerce L d) <> [] ->
     _validate_data L d w =
       (Raise (DataProcessingError (ValidationFailed (length (all_failures (coerce L d))))),
        export (date_failures (coerce L d) ++ ratio_failures (coerce L d) "ad_click_rate"
                ++ consistency_failures (coerce L d)
                ++ integer_failures (coerce L d) "avg_tab_cnt"
                ++ integer_failures (coerce L d) "search_freq") w)) /\
  (StronglySorted Z.lt (index d) ->
   forall seg,
     In seg [ date_failures (coerce L d); ratio_failures (coerce L d) "ad_click_rate";
              consistency_failures (coerce L d);
              integer_failures (coerce L d) "avg_tab_cnt";
              integer_failures (coerce L d) "search_freq" ] ->
     StronglySorted Z.lt (map f_index seg)) /\
  (all_failures (coerce L d) = [] ->
     _validate_data L d w = (Return (coerce L d), note_pass w) /\
     len (coerce L d) = len d /\
     index (coerce L d) = index d /\
     forall c, length (get_column c (coerce L d)) = length (get_column c d)).
Proof.
  intros Hm. split; [|split].
  - intros Hf. apply validate_found; assumption.
  - intros Hs seg Hin. apply (segment_in_row_order (coerce L d)); [|exact Hin].
    rewrite index_coerce. exact Hs.
  - intros Hf. split; [apply validate_pass; assumption|].
    unfold len. rewrite index_coerce. repeat split.
    intros c. apply length_get_coerce.
Qed.

Lemma transform_raises (d : DataFrame) (w w' : World) (sc : StandardScaler) (e : Exn) :
  _scaler (self w) = Some sc ->
  _validate_data L d w = (Raise e, w') ->
  transform L d w = (Raise e, w').
Proof.
  intros Hsc Hv. unfold transform, bind, get_self. rewrite Hsc, Hv. reflexivity.
Qed.

(** C10.  On a fitted processor [transform] validates its input again, and
    when a row of the input fails one of the four checks (end before start,
    ratio out of bounds, maximum below mean, fraction in an integer column)
    the error of the validation is what [transform] raises: no table is
    returned. *)
Theorem C10_transform_revalidates (d : DataFrame) (w : World) (sc : StandardScaler) :
  _scaler (self w) = Some sc ->
  has_problem (coerce L d) ->
  exists msg w',
    _validate_data L d w = (Raise (DataProcessingError msg), w') /\
    transform L d w = (Raise (DataProcessingError msg), w') /\
    (msg = MissingColumns (missing_columns d) \/
     msg = ValidationFailed (length (all_failures (coerce L d)))).
Proof.
  intros Hsc Hp. apply has_problem_failures in Hp.
  destruct (missing_columns d) as [|c cs] eqn:Hm.
  - exists (ValidationFailed (length (all_failures (coerce L d)))),
      (export (all_failures (coerce L d)) w).
    pose proof (validate_found L d w Hm Hp) as Hv.
    split; [exact Hv|]. split; [|right; reflexivity].
    apply (transform_raises d w _ sc _ Hsc Hv).
  - assert (Hne : missing_columns d <> []) by (rewrite Hm; discriminate).
    pose proof (validate_missing L d w Hne) as Hv. rewrite Hm in Hv.
    exists (MissingColumns (c :: cs)), (note_missing (c :: cs) w).
    split; [exact Hv|]. split; [|left; reflexivity].
    apply (transform_raises d w _ sc _ Hsc Hv).
Qed.

(** C2, as the code has it.  When validation of the table of the processor
    finds problems, [fit_transform] neither preprocesses nor scales and
    leaves the processor as it was (its scaler and its report included), but
    it raises nothing: it catches the error, prints it, and returns an
    empty table with the report; the failure export has been written. *)
Theorem C2_fit_reports_failure (w : World) :
  missing_columns (df (self w)) = [] ->
  all_failures (coerce L (df (self w))) <> [] ->
  fit_transform L w =
    (Return (empty_frame, mkMeta (_report (self w)) None None),
     mkWorld (self w)
       (Some (all_failures (coerce L (df (self w)))))
       (stdout w ++ [DataProcessingError
                       (ValidationFailed (length (all_failures (coerce L (df (self w))))))])).
Proof.
  intros Hm Hf. unfold fit_transform, try_except, bind, get_self.
  rewrite (validate_found L _ w Hm Hf). reflexivity.
Qed.

(** C4, as the code has it.  In a table that [_validate_data] accepts no
    number of a ratio column is negative: each lies between 0 and 1.  The
    sign of the other numeric columns is not checked. *)
Theorem C4_accepted_ratios_not_negative (d d' : DataFrame) (w w' : World) :
  _validate_data L d w = (Return d', w') ->
  forall c i q, In c RATIO_COLUMNS -> In (i, VNum q) (rows1 d' c) -> (0 <= q <= 1)%Q.
Proof.
  intros Hv c i q Hc Hin.
  apply validate_return_inv in Hv. destruct Hv as (_ & Hf & ->).
  simpl in Hc. destruct Hc as [<-|[]].
  unfold all_failures in Hf.
  apply app_eq_nil in Hf. destruct Hf as [_ Hf].
  apply app_eq_nil in Hf. destruct Hf as [Hf _].
  apply map_eq_nil in Hf.
  pose proof (filter_nil_inv _ _ _ Hf Hin) as Hr.
  simpl in Hr. apply orb_false_iff in Hr. destruct Hr as [H0 H1].
  split; apply Qlt_b_false; assumption.
Qed.

End Claims.

(** ** The same on tables *)

Lemma C6_missing_column_aborts_witness :
  _validate_data simple_library no_rate (fresh no_rate) =
    (Raise (DataProcessingError (MissingColumns ["ad_click_rate"])),
     note_missing ["ad_click_rate"] (fresh no_rate)) /\
  validation_failures_csv (snd (_validate_data simple_library no_rate (fresh no_rate))) = None.
Proof.
  assert (Hm : missing_columns no_rate <> []) by (vm_compute; discriminate).
  destruct (C6_missing_column_aborts simple_library no_rate (fresh no_rate) Hm)
    as (H1 & H2 & _).
  split; [exact H1 | exact H2].
Defined.

(** C7 on two rows with one failure each. *)
Lemma C7_failure_export_witness :
  _validate_data simple_library late_and_fractional (fresh late_and_fractional) =
    (Raise (DataProcessingError (ValidationFailed 2)),
     export
       [ mkFailure 1 "period_start/period_end" "end_before_start" (FDates (VTime 30) (VTime 20));
         mkFailure 0 "search_freq" "non_integer_value" (FCell (VNum (7 # 2))) ]
       (fresh late_and_fractional)).
Proof.
  assert (Hm : missing_columns late_and_fractional = []) by reflexivity.
  destruct (C7_failure_export simple_library late_and_fractional
              (fresh late_and_fractional) Hm) as (H1 & _ & _).
  apply H1. vm_compute. discriminate.
Defined.

(** C7, as it is worded, fails on the code: the failure of row 1 found by
    the date check is exported before the failure of row 0 found by the
    integer check, so the list is not sorted by row index. *)
Lemma C7_export_not_sorted_by_row :
  exists rows,
    validation_failures_csv
      (snd (_validate_data simple_library late_and_fractional (fresh late_and_fractional)))
    = Some rows /\
    map f_index rows = [1; 0] /\
    ~ Sorted Z.le (map f_index rows).
Proof.
  eexists. split; [vm_compute; reflexivity|]. split; [reflexivity|].
  simpl. intros H. apply Sorted_inv in H. destruct H as [_ H].
  apply HdRel_inv in H. lia.
Qed.

(** C10 on Scenario B, for the processor fitted on the five clean rows. *)
Lemma C10_transform_revalidates_witness :
  exists msg w',
    _validate_data simple_library overrated fitted_world
      = (Raise (DataProcessingError msg), w') /\
    transform simple_library overrated fitted_world
      = (Raise (DataProcessingError msg), w') /\
    (msg = MissingColumns (missing_columns overrated) \/
     msg = ValidationFailed (length (all_failures (coerce simple_library overrated)))).
Proof.
  eapply (C10_transform_revalidates simple_library overrated fitted_world).
  - vm_compute. reflexivity.
  - right. left. exists (0, VNum (3 # 2)). split; [left|]; reflexivity.
Defined.

Example transform_overrated :
  fst (transform simple_library overrated fitted_world)
  = Raise (DataProcessingError (ValidationFailed 1)).
Proof. vm_compute. reflexivity. Qed.

(** C2 on Scenario B. *)
Lemma C2_fit_reports_failure_witness :
  fit_transform simple_library (fresh overrated) =
    (Return (empty_frame, mkMeta (mkReport no_info []) None None),
     mkWorld (init overrated)
       (Some [mkFailure 0 "ad_click_rate" "ratio_out_of_bounds" (FCell (VNum (3 # 2)))])
       [DataProcessingError (ValidationFailed 1)]).
Proof.
  apply (C2_fit_reports_failure simple_library (fresh overrated)).
  - reflexivity.
  - vm_compute. discriminate.
Defined.

(** C2, as it is worded, fails on the code: on Scenario B validation finds
    one problem, and [fit_transform] returns (an empty table and the
    report) instead of raising. *)
Lemma C2_fit_swallows_the_error :
  fst (findings (coerce simple_library overrated)) = 1%nat /\
  fst (fit_transform simple_library (fresh overrated))
    = Return (empty_frame, mkMeta (mkReport no_info []) None None) /\
  forall e, fst (fit_transform simple_library (fresh overrated)) <> Raise e.
Proof.
  split; [reflexivity|]. split; [reflexivity|].
  intros e H. vm_compute in H. discriminate H.
Qed.

(** C4 on the last of the five clean rows. *)
Lemma C4_accepted_ratios_not_negative_witness :
  _validate_data simple_library five_rows (fresh five_rows)
    = (Return (coerce simple_library five_rows), note_pass (fresh five_rows)) /\
  In (4, VNum (3 # 5)) (rows1 (coerce simple_library five_rows) "ad_click_rate") /\
  (0 <= 3 # 5 <= 1)%Q.
Proof.
  assert (Hv : _validate_data simple_library five_rows (fresh five_rows)
               = (Return (coerce simple_library five_rows), note_pass (fresh five_rows)))
    by reflexivity.
  assert (Hin : In (4, VNum (3 # 5))
                  (rows1 (coerce simple_library five_rows) "ad_click_rate"))
    by (vm_compute; tauto).
  split; [exact Hv|]. split; [exact Hin|].
  exact (C4_accepted_ratios_not_negative simple_library five_rows _ (fresh five_rows) _
           Hv "ad_click_rate" 4 (3 # 5) (or_introl eq_refl) Hin).
Defined.

(** C4, as it is worded, fails on the code: a row whose session lengths
    and tab count are negative numbers is accepted as it is. *)
Lemma C4_negative_numbers_accepted :
  exists d' w',
    _validate_data simple_library negative_sessions (fresh negative_sessions)
      = (Return d', w') /\
    In "session_length_mean" NUMERIC_COLUMNS /\
    In (0, VNum (-2)) (rows1 d' "session_length_mean") /\
    In "avg_tab_cnt" NUMERIC_COLUMNS /\
    In (0, VNum (-3)) (rows1 d' "avg_tab_cnt") /\
    (-2 < 0)%Q /\ (-3 < 0)%Q.
Proof.
  do 2 eexists. split; [vm_compute; reflexivity|].
  repeat split; simpl; auto; reflexivity.
Qed.

(** ** Preprocessing *)

Lemma return_eq {A} (a b : A) (w w' : World) :
  (Return a, w) = (Return b, w') -> a = b /\ w = w'.
Proof. intros H. inversion H. split; reflexivity. Qed.

Lemma bind_return_inv {A B} (m : M A) (k : A -> M B) (w w' : World) (b : B) :
  bind m k w = (Return b, w') ->
  exists a w1, m w = (Return a, w1) /\ k a w1 = (Return b, w').
Proof.
  unfold bind. destruct (m w) as [[a|e] w1]; intros H; [eauto | discriminate H].
Qed.

Lemma get_update_same (g : list value -> list value) (d : DataFrame) (c : string) :
  get_column c (update_column g d c) = if has_column c d then g (get_column c d) else [].
Proof.
  unfold update_column. destruct (has_column c d) eqn:H.
  - apply get_column_set_same.
  - apply missing_column_no_cells. exact H.
Qed.

Lemma get_update_other (g : list value -> list value) (d : DataFrame) (c c' : string) :
  c <> c' -> get_column c (update_column g d c') = get_column c d.
Proof.
  intros H. unfold update_column.
  destruct (has_column c' d); [apply get_column_set_other; exact H | reflexivity].
Qed.

Ltac other_columns := repeat (rewrite get_update_other by discriminate).

Lemma impute_numeric_eq (c : string) (d : DataFrame) (w : World) :
  exists w', impute_numeric c d w = (Return (update_column (fill_numeric c) d c), w').
Proof.
  unfold impute_numeric, update_column, fill_numeric.
  destruct (has_column c d); [|eexists; reflexivity].
  destruct (is_integer_column c); eexists; reflexivity.
Qed.

Lemma impute_ratio_eq (c : string) (d : DataFrame) (w : World) :
  exists w', impute_ratio c d w = (Return (update_column fill_ratio d c), w').
Proof.
  unfold impute_ratio, update_column, fill_ratio.
  destruct (has_column c d); eexists; reflexivity.
Qed.

Lemma for_each_impute_numeric (cols : list string) (d : DataFrame) (w : World) :
  exists w',
    for_each cols impute_numeric d w =
    (Return (fold_left (fun d' c => update_column (fill_numeric c) d' c) cols d), w').
Proof.
  revert d w. induction cols as [|c cols IH]; intros d w; simpl.
  - eexists. reflexivity.
  - destruct (impute_numeric_eq c d w) as [w1 H1]. unfold bind. rewrite H1. apply IH.
Qed.

Lemma for_each_impute_ratio (cols : list string) (d : DataFrame) (w : World) :
  exists w',
    for_each cols impute_ratio d w =
    (Return (fold_left (update_column fill_ratio) cols d), w').
Proof.
  revert d w. induction cols as [|c cols IH]; intros d w; simpl.
  - eexists. reflexivity.
  - destruct (impute_ratio_eq c d w) as [w1 H1]. unfold bind. rewrite H1. apply IH.
Qed.

Lemma loc_assign_keeps (P : value -> Prop) (mask : list bool) (x : value)
    (cells : list value) :
  Forall P cells -> P x -> Forall P (loc_assign mask x cells).
Proof.
  unfold loc_assign. revert cells.
  induction mask as [|m mask IH]; intros cells Hc Hx; [constructor|].
  destruct cells as [|v cells]; [constructor|].
  simpl. inversion Hc; subst. constructor.
  - destruct m; simpl; assumption.
  - apply IH; assumption.
Qed.

Lemma loc_set_inv (c : string) (mask : list bool) (x : Q) (d d' : DataFrame) (w w' : World) :
  loc_set c mask x d w = (Return d', w') ->
  d' = set_column c (loc_assign mask (VNum x) (get_column c d)) d /\
  (is_integer_column c = true -> is_int_value (VNum x) = true).
Proof.
  unfold loc_set, is_int_value.
  destruct (is_integer_column c), (has_fraction (VNum x));
    simpl; intros H; inversion H; split; auto; intros; congruence.
Qed.

(** Capping leaves the other columns alone and either leaves the table as
    it is or writes the two bounds into the column. *)
Lemma cap_outliers_inv (c : string) (d d' : DataFrame) (w w' : World) :
  cap_outliers c d w = (Return d', w') ->
  d' = d \/
  exists m1 x1 m2 x2,
    get_column c d' =
      loc_assign m2 (VNum x2) (loc_assign m1 (VNum x1) (get_column c d)) /\
    (forall c', c' <> c -> get_column c' d' = get_column c' d) /\
    (is_integer_column c = true -> is_int_value (VNum x1) = true) /\
    (is_integer_column c = true -> is_int_value (VNum x2) = true).
Proof.
  intros H. unfold cap_outliers in H.
  destruct (has_column c d); [|inversion H; auto].
  destruct (8 <=? length (numbers (get_column c d)))%nat; [|inversion H; auto].
  cbv zeta in H.
  match type of H with
  | (if ?b then _ else _) _ = _ => destruct b; [|inversion H; auto]
  end.
  match type of H with
  | (if ?b then _ else _) _ = _ => destruct b; [|inversion H; auto]
  end.
  apply bind_return_inv in H. destruct H as (d1 & w1 & H1 & H).
  apply bind_return_inv in H. destruct H as (d2 & w2 & H2 & H).
  apply return_eq in H. destruct H as [<- _].
  apply loc_set_inv in H1. destruct H1 as [E1 I1].
  apply loc_set_inv in H2. destruct H2 as [E2 I2].
  right. do 4 eexists. split; [|split; [|split; [exact I1 | exact I2]]].
  - rewrite E2, get_column_set_same, E1, get_column_set_same. reflexivity.
  - intros c' Hc'. rewrite E2, get_column_set_other, E1, get_column_set_other by exact Hc'.
    reflexivity.
Qed.








Section Cleaning.

Variable L : Library.

Lemma to_numeric_cell (v : value) : is_numeric_cell (to_numeric L v) = true.
Proof.
  destruct v as [q|s| |]; simpl; try reflexivity.
  destruct (parse_number L s); reflexivity.
Qed.

(** After coercion the numeric and the ratio columns hold numbers and
    missing values only. *)
Lemma coerce_numeric (d : DataFrame) (c : string) :
  In c (NUMERIC_COLUMNS ++ RATIO_COLUMNS) ->
  Forall (fun v => is_numeric_cell v = true) (get_column c (coerce L d)).
Proof.
  intros Hc. unfold coerce, NUMERIC_COLUMNS, RATIO_COLUMNS in *. simpl in Hc |- *.
  destruct Hc as [<-|[<-|[<-|[<-|[<-|[]]]]]];
    other_columns; rewrite get_update_same;
    (match goal with |- Forall _ (if ?b then _ else _) => destruct b end;
     [|constructor]);
    apply Forall_map; apply Forall_forall; intros v _; apply to_numeric_cell.
Qed.




(** Preprocessing imputes, then caps. *)
Lemma preprocess_steps (d dp : DataFrame) (w1 w2 : World) :
  _preprocess_data d w1 = (Return dp, w2) ->
  exists wb, for_each NUMERIC_COLUMNS cap_outliers (imputed d) wb = (Return dp, w2).
Proof.
  intros Hp. unfold _preprocess_data in Hp.
  apply bind_return_inv in Hp. destruct Hp as (d4 & wa & Ha & Hp).
  apply bind_return_inv in Hp. destruct Hp as (d5 & wb & Hb & Hc).
  destruct (for_each_impute_numeric NUMERIC_COLUMNS d w1) as [wa' Ea].
  rewrite Ea in Ha. apply return_eq in Ha. destruct Ha as [<- <-].
  match type of Hb with
  | for_each _ _ ?d0 ?w0 = _ =>
      destruct (for_each_impute_ratio RATIO_COLUMNS d0 w0) as [wb' Eb]
  end.
  rewrite Eb in Hb. apply return_eq in Hb. destruct Hb as [<- <-].
  eexists. exact Hc.
Qed.


Lemma ratio_or_numeric (c : string) :
  In c RATIO_COLUMNS \/ In c INTEGER_COLUMNS -> In c (NUMERIC_COLUMNS ++ RATIO_COLUMNS).
Proof.
  unfold RATIO_COLUMNS, INTEGER_COLUMNS, NUMERIC_COLUMNS.
  intros [[<-|[]]|[<-|[<-|[]]]]; cbn [app In]; auto 8.
Qed.

End Cleaning.


(** ** Inference *)

Section Inference.

Variable L : Library.
Variable validator : Validator.

Lemma risk_flag_one (thr p : Q) : risk_flag_of thr p = 1%Q <-> (thr <= p)%Q.
Proof.
  unfold risk_flag_of. rewrite <- Qle_bool_iff. unfold Qle_b.
  destruct (Qle_bool thr p); split; intros H; try reflexivity; discriminate H.
Qed.

Lemma risk_flag_zero (thr p : Q) : risk_flag_of thr p = 0%Q <-> ~ (thr <= p)%Q.
Proof.
  unfold risk_flag_of. rewrite <- Qle_bool_iff. unfold Qle_b.
  destruct (Qle_bool thr p); split; intros H; try reflexivity;
    try discriminate H; congruence.
Qed.

Lemma predict_empty (dz : DataFrame) (art : Artifacts) (do_validate : bool)
    (config : option ValidationConfig) (w : World) :
  len dz = 0%nat ->
  predict_dataframe L validator (Some dz) art do_validate config w
  = (Raise (ValueError EmptyInput), w).
Proof.
  intros H. unfold predict_dataframe, empty. rewrite H. reflexivity.
Qed.

(** A call of [transform] that raises makes [predict_dataframe] raise the
    same exception. *)
Lemma predict_steps (d : DataFrame) (art : Artifacts) (w0 : World) :
  (X0 <- call_on (processor_pkl art) (transform L d) ;;
   out0 <- add_column "risk_proba" (proba_of L (model_pkl art) X0) d ;;
   add_column "risk_flag"
     (map (risk_flag_of (load_threshold art (1 # 2)))
        (proba_of L (model_pkl art) X0)) out0)%monad w0
  = match call_on (processor_pkl art) (transform L d) w0 with
    | (Return X0, w0') =>
        (out0 <- add_column "risk_proba" (proba_of L (model_pkl art) X0) d ;;
         add_column "risk_flag"
           (map (risk_flag_of (load_threshold art (1 # 2)))
              (proba_of L (model_pkl art) X0)) out0)%monad w0'
    | (Raise e, w0') => (Raise e, w0')
    end.
Proof. reflexivity. Qed.

(** After step 0 has given the table [d], [predict_dataframe] is the rest
    of its steps on [d]. *)
Lemma predict_after_validation (d0 d : DataFrame) (art : Artifacts)
    (do_validate : bool) (config : option ValidationConfig) (w : World) :
  empty d0 = false ->
  validation_gives validator d0 do_validate config d ->
  predict_dataframe L validator (Some d0) art do_validate config w
  = (X0 <- call_on (processor_pkl art) (transform L d) ;;
     out0 <- add_column "risk_proba" (proba_of L (model_pkl art) X0) d ;;
     add_column "risk_flag"
       (map (risk_flag_of (load_threshold art (1 # 2)))
          (proba_of L (model_pkl art) X0)) out0)%monad w.
Proof.
  intros Hne Hval. unfold predict_dataframe. rewrite Hne.
  destruct Hval as [cfg | cfg df_valid Hv].
  - unfold bind at 1. unfold ret at 1. reflexivity.
  - unfold bind at 1. rewrite Hv. cbn [negb orb Nat.ltb Nat.leb]. unfold ret at 1.
    reflexivity.
Qed.

(** C9, as the code has it.  On a table that is not empty: when the
    optional validation passes, the [transform] of the processor succeeds
    and the classifier gives one probability per row, [predict_dataframe]
    returns the table with the column [risk_proba] of these probabilities
    and the column [risk_flag], which is 1 exactly where the probability is
    at least the threshold and 0 elsewhere; the threshold is the one of the
    artifacts, 0.5 when they hold none.  When [transform] raises, so does
    [predict_dataframe], with the same exception; when validation is asked
    for without a configuration it raises [ValueError], and when the
    validator does not pass the table it raises [FeatureValidationError]:
    in these cases no table is returned and so no column is added.  On a
    table with no row it raises the empty-input [ValueError] and changes
    nothing. *)
Theorem C9_predict (d0 : DataFrame) (art : Artifacts) (do_validate : bool)
    (config : option ValidationConfig) (w : World) :
  empty d0 = false ->
  let thr := load_threshold art (1 # 2) in
  (forall d X w1,
     validation_gives validator d0 do_validate config d ->
     call_on (processor_pkl art) (transform L d) w = (Return X, w1) ->
     length (proba_of L (model_pkl art) X) = len d ->
     let proba := proba_of L (model_pkl art) X in
     let out := set_column "risk_flag" (map VNum (map (risk_flag_of thr) proba))
                  (set_column "risk_proba" (map VNum proba) d) in
     predict_dataframe L validator (Some d0) art do_validate config w = (Return out, w1) /\
     get_column "risk_proba" out = map VNum proba /\
     get_column "risk_flag" out = map VNum (map (risk_flag_of thr) proba)) /\
  (forall p, risk_flag_of thr p = 1%Q <-> (thr <= p)%Q) /\
  (forall p, risk_flag_of thr p = 0%Q <-> ~ (thr <= p)%Q) /\
  (threshold_json art = None -> thr = (1 # 2)%Q) /\
  (forall d e w1,
     validation_gives validator d0 do_validate config d ->
     call_on (processor_pkl art) (transform L d) w = (Raise e, w1) ->
     predict_dataframe L validator (Some d0) art do_validate config w = (Raise e, w1)) /\
  (do_validate = true -> config = None ->
   predict_dataframe L validator (Some d0) art do_validate config w
   = (Raise (ValueError ValidationConfigRequired), w)) /\
  (forall cfg problems df_valid passed,
     do_validate = true -> config = Some cfg ->
     validator d0 cfg = (problems, df_valid, passed) ->
     passed = false \/ (0 < problems)%nat ->
     predict_dataframe L validator (Some d0) art do_validate config w
     = (Raise FeatureValidationError, w)) /\
  (forall dz, len dz = 0%nat ->
     predict_dataframe L validator (Some dz) art do_validate config w
     = (Raise (ValueError EmptyInput), w)).
Proof.
  intros Hne. cbv zeta.
  split; [|split; [|split; [|split; [|split; [|split; [|split]]]]]].
  - intros d X w1 Hval Hcall Hlen.
    split; [|split].
    + rewrite (predict_after_validation d0 d art do_validate config w Hne Hval).
      rewrite predict_steps, Hcall.
      unfold bind, add_column. rewrite Hlen, Nat.eqb_refl. unfold ret.
      change (len (set_column "risk_proba" (map VNum (proba_of L (model_pkl art) X)) d))
        with (len d).
      rewrite length_map, Hlen, Nat.eqb_refl. reflexivity.
    + rewrite get_column_set_other by discriminate.
      apply get_column_set_same.
    + apply get_column_set_same.
  - intros p. apply risk_flag_one.
  - intros p. apply risk_flag_zero.
  - intros Hnone. unfold load_threshold. rewrite Hnone. reflexivity.
  - intros d e w1 Hval Hcall.
    rewrite (predict_after_validation d0 d art do_validate config w Hne Hval).
    rewrite predict_steps, Hcall. reflexivity.
  - intros -> ->. unfold predict_dataframe. rewrite Hne. reflexivity.
  - intros cfg problems df_valid passed -> -> Hv Hbad.
    unfold predict_dataframe. rewrite Hne. unfold bind at 1. rewrite Hv.
    assert (Hc : negb passed || (0 <? problems)%nat = true).
    { destruct Hbad as [-> | Hp]; [reflexivity|].
      apply Nat.ltb_lt in Hp. rewrite Hp. apply orb_true_r. }
    rewrite Hc. reflexivity.
  - intros dz Hz. apply predict_empty. exact Hz.
Qed.

End Inference.

(** C9 on the five clean rows, with no threshold file: every probability is
    3/4, every flag is 1; and on the one row of Scenario B, where the error
    of [transform] comes out of [predict_dataframe]. *)
Lemma C9_predict_witness :
  fst (predict_dataframe simple_library accept_all (Some five_rows) sample_artifacts
         false None caller)
  = Return
      (set_column "risk_flag" (map VNum [1; 1; 1; 1; 1]%Q)
         (set_column "risk_proba" (map VNum [3 # 4; 3 # 4; 3 # 4; 3 # 4; 3 # 4]%Q)
            five_rows)) /\
  fst (predict_dataframe simple_library accept_all (Some overrated) sample_artifacts
         false None caller)
  = Raise (DataProcessingError (ValidationFailed 1)).
Proof.
  split.
  - assert (Hcall : exists X w1,
              call_on (processor_pkl sample_artifacts) (transform simple_library five_rows)
                caller = (Return X, w1)).
    { do 2 eexists. vm_compute. reflexivity. }
    destruct Hcall as (X & w1 & Hcall).
    assert (Hidx : index X = index five_rows).
    { apply (f_equal fst) in Hcall. vm_compute in Hcall. injection Hcall as <-.
      reflexivity. }
    assert (Hlen : length (proba_of simple_library (model_pkl sample_artifacts) X)
                   = len five_rows).
    { change (proba_of simple_library (model_pkl sample_artifacts) X)
        with (map snd (map (fun _ : Z => (1 # 4, 3 # 4)%Q) (index X))).
      rewrite !length_map, Hidx. reflexivity. }
    destruct (C9_predict simple_library accept_all five_rows sample_artifacts
                false None caller eq_refl) as (Hok & _).
    destruct (Hok five_rows X w1 (NotValidated _ _ _) Hcall Hlen) as (Hout & _).
    rewrite Hout.
    change (proba_of simple_library (model_pkl sample_artifacts) X)
      with (map snd (map (fun _ : Z => (1 # 4, 3 # 4)%Q) (index X))).
    rewrite Hidx. reflexivity.
  - assert (Hcall : exists w1,
              call_on (processor_pkl sample_artifacts) (transform simple_library overrated)
                caller = (Raise (DataProcessingError (ValidationFailed 1)), w1)).
    { eexists. vm_compute. reflexivity. }
    destruct Hcall as (w1 & Hcall).
    destruct (C9_predict simple_library accept_all overrated sample_artifacts
                false None caller eq_refl) as (_ & _ & _ & _ & Herr & _).
    rewrite (Herr overrated _ w1 (NotValidated _ _ _) Hcall). reflexivity.
Defined.

(** C9, as it is worded, fails on the code: on the one row of Scenario B,
    a table that is not empty, the [transform] of the fitted processor
    raises, and so does [predict_dataframe]: no column is added. *)
Lemma C9_predict_raises_on_invalid_rows :
  empty overrated = false /\
  len overrated = 1%nat /\
  fst (predict_dataframe simple_library accept_all (Some overrated) sample_artifacts
         false None caller)
  = Raise (DataProcessingError (ValidationFailed 1)).
Proof. repeat split; vm_compute; reflexivity. Qed.

End MLSpec.

(** * Further properties of the processor *)

Module MLExtra.

Import ML MLAux MLSpec.

(** ** Validation *)

Lemma raise_eq {A} (e e' : Exn) (w w' : World) :
  (@Raise A e, w) = (Raise e', w') -> e = e' /\ w = w'.
Proof. intros H. inversion H. split; reflexivity. Qed.

Lemma filter_some {A} (f : A -> bool) (l : list A) :
  filter f l <> [] -> exists x, In x l /\ f x = true.
Proof.
  induction l as [|x l IH]; simpl; [congruence|].
  destruct (f x) eqn:E; intros H.
  - exists x. auto.
  - destruct (IH H) as [y [Hy Hf]]. exists y. auto.
Qed.

Lemma map_filter_some {A B} (g : A -> B) (f : A -> bool) (l : list A) :
  map g (filter f l) <> [] -> exists x, In x l /\ f x = true.
Proof.
  intros H. apply filter_some. intros E. rewrite E in H. apply H. reflexivity.
Qed.

Lemma failures_have_problem (d : DataFrame) :
  all_failures d <> [] -> has_problem d.
Proof.
  unfold all_failures, has_problem, date_failures, ratio_failures,
    consistency_failures, integer_failures.
  intros H.
  destruct (filter end_before_start (rows2 d "period_start" "period_end")) eqn:E1.
  2: { left. apply (filter_some end_before_start). rewrite E1. discriminate. }
  destruct (filter ratio_out_of_bounds (rows1 d "ad_click_rate")) eqn:E2.
  2: { right. left. apply (filter_some ratio_out_of_bounds). rewrite E2. discriminate. }
  destruct (filter max_less_than_mean
              (rows2 d "session_length_max" "session_length_mean")) eqn:E3.
  2: { right. right. left. apply (filter_some max_less_than_mean).
       rewrite E3. discriminate. }
  destruct (filter non_integer_value (rows1 d "avg_tab_cnt")) eqn:E4.
  2: { right. right. right. exists "avg_tab_cnt".
       destruct (filter_some non_integer_value (rows1 d "avg_tab_cnt")) as [r Hr];
         [rewrite E4; discriminate|].
       exists r. split; [left; reflexivity | exact Hr]. }
  destruct (filter non_integer_value (rows1 d "search_freq")) eqn:E5.
  - exfalso. apply H. reflexivity.
  - right. right. right. exists "search_freq".
    destruct (filter_some non_integer_value (rows1 d "search_freq")) as [r Hr];
      [rewrite E5; discriminate|].
    exists r. split; [right; left; reflexivity | exact Hr].
Qed.

Section Validation.

Variable L : Library.

(** X1.  [transform] on a processor that was never fitted raises the
    not-fitted error for every table, before it validates anything: the world
    is left as it was. *)
Theorem transform_before_fit (d : DataFrame) (w : World) :
  _scaler (self w) = None ->
  transform L d w = (Raise (DataProcessingError NotFitted), w).
Proof.
  intros H. unfold transform, bind, get_self. rewrite H. reflexivity.
Qed.

(** X2.  When [_validate_data] raises the validation error, the number of
    problems in the error is positive and is the number of rows of the failure
    export, which has been written. *)
Theorem validation_error_counts_export (d : DataFrame) (w w' : World) (n : nat) :
  _validate_data L d w = (Raise (DataProcessingError (ValidationFailed n)), w') ->
  (0 < n)%nat /\
  exists rows, validation_failures_csv w' = Some rows /\ length rows = n.
Proof.
  intros H.
  destruct (missing_columns d) as [|c cs] eqn:Hm.
  - destruct (all_failures (coerce L d)) as [|r rs] eqn:Hf.
    + rewrite (validate_pass L d w Hm Hf) in H. discriminate H.
    + rewrite validate_found in H by (auto; rewrite Hf; discriminate).
      rewrite Hf in H. apply raise_eq in H. destruct H as [Hn Hw].
      assert (En : n = length (r :: rs)) by congruence.
      subst w'. rewrite En.
      split; [simpl; lia|]. exists (r :: rs). split; reflexivity.
  - rewrite validate_missing in H by (rewrite Hm; discriminate). discriminate H.
Qed.

(** X3.  [_validate_data] returns a table exactly when no required column is
    missing and no row of the coerced table fails one of the four checks. *)
Theorem accepted_iff (d : DataFrame) (w : World) :
  (exists d' w', _validate_data L d w = (Return d', w')) <->
  missing_columns d = [] /\ ~ has_problem (coerce L d).
Proof.
  split.
  - intros (d' & w' & H). apply validate_return_inv in H.
    destruct H as (Hm & Hf & _). split; [exact Hm|].
    intros Hp. apply has_problem_failures in Hp. contradiction.
  - intros [Hm Hp].
    destruct (all_failures (coerce L d)) as [|r rs] eqn:Hf.
    + do 2 eexists. apply validate_pass; assumption.
    + exfalso. apply Hp. apply failures_have_problem. rewrite Hf. discriminate.
Qed.

(** X4.  In a table that [_validate_data] accepts, no row ends before it
    starts, no row has a maximum session length below the mean, and every
    number of an integer column is whole. *)
Theorem accepted_rows_are_consistent (d d' : DataFrame) (w w' : World) :
  _validate_data L d w = (Return d', w') ->
  (forall i s e, In (i, (VTime s, VTime e)) (rows2 d' "period_start" "period_end") ->
     s <= e) /\
  (forall i mx mn,
     In (i, (VNum mx, VNum mn)) (rows2 d' "session_length_max" "session_length_mean") ->
     (mn <= mx)%Q) /\
  (forall c i q, In c INTEGER_COLUMNS -> In (i, VNum q) (rows1 d' c) ->
     (Qint (Qfloor q) == q)%Q).
Proof.
  intros Hv. apply validate_return_inv in Hv. destruct Hv as (_ & Hf & ->).
  unfold all_failures in Hf.
  apply app_eq_nil in Hf. destruct Hf as [Hd Hf].
  apply app_eq_nil in Hf. destruct Hf as [_ Hf].
  apply app_eq_nil in Hf. destruct Hf as [Hc Hf].
  apply app_eq_nil in Hf. destruct Hf as [Ha Hs].
  apply map_eq_nil in Hd, Hc, Ha, Hs.
  split; [|split].
  - intros i s e Hin. pose proof (filter_nil_inv _ _ _ Hd Hin) as Hr.
    simpl in Hr. apply Z.ltb_ge in Hr. exact Hr.
  - intros i mx mn Hin. pose proof (filter_nil_inv _ _ _ Hc Hin) as Hr.
    simpl in Hr. apply Qlt_b_false in Hr. exact Hr.
  - intros c i q Hc' Hin. simpl in Hc'.
    assert (Hr : non_integer_value (i, VNum q) = false).
    { destruct Hc' as [<-|[<-|[]]];
        [exact (filter_nil_inv _ _ _ Ha Hin) | exact (filter_nil_inv _ _ _ Hs Hin)]. }
    simpl in Hr. apply negb_false_iff in Hr. apply Qeq_bool_iff. exact Hr.
Qed.

End Validation.

Lemma transform_before_fit_witness :
  transform simple_library five_rows (fresh five_rows)
  = (Raise (DataProcessingError NotFitted), fresh five_rows).
Proof. apply transform_before_fit. reflexivity. Defined.

Lemma validation_error_counts_export_witness :
  (0 < 2)%nat /\
  exists rows,
    validation_failures_csv
      (export (all_failures (coerce simple_library late_and_fractional))
         (fresh late_and_fractional)) = Some rows /\
    length rows = 2%nat.
Proof.
  apply (validation_error_counts_export simple_library late_and_fractional
           (fresh late_and_fractional)).
  apply validate_found; [reflexivity | vm_compute; discriminate].
Defined.

Lemma accepted_rows_are_consistent_witness :
  (forall i s e,
     In (i, (VTime s, VTime e))
        (rows2 (coerce simple_library five_rows) "period_start" "period_end") ->
     s <= e) /\
  (forall i mx mn,
     In (i, (VNum mx, VNum mn))
        (rows2 (coerce simple_library five_rows) "session_length_max"
           "session_length_mean") ->
     (mn <= mx)%Q) /\
  (forall c i q, In c INTEGER_COLUMNS ->
     In (i, VNum q) (rows1 (coerce simple_library five_rows) c) ->
     (Qint (Qfloor q) == q)%Q).
Proof.
  apply (accepted_rows_are_consistent simple_library five_rows _
           (fresh five_rows) (note_pass (fresh five_rows))).
  apply validate_pass; reflexivity.
Defined.

(** ** Validating twice *)

Lemma frame_eta (d : DataFrame) : mkFrame (index d) (columns d) = d.
Proof. destruct d. reflexivity. Qed.

Lemma update_first_absent (c : string) (g : list value -> list value) cols :
  lookup c cols = None -> update_first c g cols = cols.
Proof.
  induction cols as [|[c' cells] rest IH]; simpl; [reflexivity|].
  destruct (String.eqb c c'); [discriminate|].
  intros H. rewrite (IH H). reflexivity.
Qed.

Lemma assign_first (c : string) (g : list value -> list value) cols cells :
  lookup c cols = Some cells -> assign c (g cells) cols = update_first c g cols.
Proof.
  induction cols as [|[c' old] rest IH]; simpl; [discriminate|].
  destruct (String.eqb c c').
  - intros H. injection H as ->. reflexivity.
  - intros H. rewrite (IH H). reflexivity.
Qed.

Lemma update_column_first (g : list value -> list value) (d : DataFrame) (c : string) :
  update_column g d c = mkFrame (index d) (update_first c g (columns d)).
Proof.
  unfold update_column, set_column, get_column. rewrite has_column_lookup.
  destruct (lookup c (columns d)) as [cells|] eqn:E.
  - rewrite (assign_first c g _ _ E). reflexivity.
  - rewrite (update_first_absent c g _ E). symmetry. apply frame_eta.
Qed.

Lemma update_first_comm (c1 c2 : string) (g1 g2 : list value -> list value) cols :
  c1 <> c2 ->
  update_first c1 g1 (update_first c2 g2 cols) =
  update_first c2 g2 (update_first c1 g1 cols).
Proof.
  intros Hne. induction cols as [|[c' cells] rest IH]; simpl; [reflexivity|].
  destruct (String.eqb_spec c2 c') as [E2|N2], (String.eqb_spec c1 c') as [E1|N1];
    simpl.
  - congruence.
  - apply String.eqb_neq in N1. rewrite N1.
    apply String.eqb_eq in E2. rewrite E2. reflexivity.
  - apply String.eqb_eq in E1. rewrite E1.
    apply String.eqb_neq in N2. rewrite N2. reflexivity.
  - apply String.eqb_neq in N1. apply String.eqb_neq in N2.
    rewrite N1, N2, IH. reflexivity.
Qed.

Lemma update_first_idem (c : string) (g : list value -> list value) cols :
  (forall x, g (g x) = g x) ->
  update_first c g (update_first c g cols) = update_first c g cols.
Proof.
  intros Hg. induction cols as [|[c' cells] rest IH]; simpl; [reflexivity|].
  destruct (String.eqb c c') eqn:E; simpl; rewrite E.
  - rewrite Hg. reflexivity.
  - rewrite IH. reflexivity.
Qed.

Lemma apply_all_comm (c : string) (g : list value -> list value) us cols :
  ~ In c (map fst us) ->
  update_first c g (apply_all us cols) = apply_all us (update_first c g cols).
Proof.
  revert cols. induction us as [|u us IH]; intros cols Hn; [reflexivity|].
  unfold apply_all in *. cbn [fold_left].
  rewrite IH by (intros H; apply Hn; right; exact H).
  rewrite update_first_comm; [reflexivity|].
  intros E. apply Hn. left. symmetry. exact E.
Qed.

Lemma apply_all_idem us cols :
  NoDup (map fst us) ->
  (forall u, In u us -> forall x, snd u (snd u x) = snd u x) ->
  apply_all us (apply_all us cols) = apply_all us cols.
Proof.
  revert cols. induction us as [|u us IH]; intros cols Hnd Hg; [reflexivity|].
  cbn [map] in Hnd. inversion Hnd as [|c0 l0 Hnotin Hnd']. subst.
  change (apply_all (u :: us) cols)
    with (apply_all us (update_first (fst u) (snd u) cols)).
  change (apply_all (u :: us)
            (apply_all us (update_first (fst u) (snd u) cols)))
    with (apply_all us
            (update_first (fst u) (snd u)
               (apply_all us (update_first (fst u) (snd u) cols)))).
  rewrite (apply_all_comm (fst u) (snd u) us _ Hnotin).
  rewrite update_first_idem by (apply Hg; left; reflexivity).
  apply IH; [exact Hnd'|].
  intros u' Hu'. apply Hg. right. exact Hu'.
Qed.

Section Twice.

Variable L : Library.

Lemma to_numeric_idem (v : value) : to_numeric L (to_numeric L v) = to_numeric L v.
Proof.
  destruct v as [q|s0|t|]; simpl; try reflexivity.
  destruct (parse_number L s0); reflexivity.
Qed.

Lemma to_datetime_idem (v : value) : to_datetime L (to_datetime L v) = to_datetime L v.
Proof.
  destruct v as [q|s0|t|]; simpl; try reflexivity.
  destruct (parse_datetime L s0); reflexivity.
Qed.

Lemma map_idem {A} (f : A -> A) (l : list A) :
  (forall x, f (f x) = f x) -> map f (map f l) = map f l.
Proof. intros H. rewrite map_map. apply map_ext. exact H. Qed.

Lemma coerce_apply_all (d : DataFrame) :
  coerce L d = mkFrame (index d) (apply_all (coercions L) (columns d)).
Proof.
  unfold coerce, NUMERIC_COLUMNS, RATIO_COLUMNS, coercions, apply_all.
  cbn [fold_left app fst snd].
  rewrite !update_column_first. reflexivity.
Qed.

Lemma coerce_idem (d : DataFrame) : coerce L (coerce L d) = coerce L d.
Proof.
  rewrite !coerce_apply_all. cbn [index columns].
  f_equal. apply apply_all_idem.
  - unfold coercions. cbn [map fst].
    repeat (constructor; [cbn [In]; intuition discriminate|]). constructor.
  - intros u Hu x. unfold coercions in Hu. cbn [In] in Hu.
    destruct Hu as [<-|[<-|[<-|[<-|[<-|[<-|[<-|[]]]]]]]]; cbn [snd];
      apply map_idem; first [apply to_numeric_idem | apply to_datetime_idem].
Qed.

Lemma missing_columns_coerce (d : DataFrame) :
  missing_columns (coerce L d) = missing_columns d.
Proof.
  unfold missing_columns. apply filter_ext. intros c. f_equal.
  unfold coerce, NUMERIC_COLUMNS, RATIO_COLUMNS. cbn [fold_left app].
  rewrite !has_column_update. reflexivity.
Qed.

(** X5.  Validating a table again. A table that [_validate_data] returned is
    accepted again by [_validate_data], in any world, and comes back
    unchanged. *)
Theorem validation_is_idempotent (d d' : DataFrame) (w w' w2 : World) :
  _validate_data L d w = (Return d', w') ->
  _validate_data L d' w2 = (Return d', note_pass w2).
Proof.
  intros Hv. apply validate_return_inv in Hv. destruct Hv as (Hm & Hf & ->).
  rewrite <- (coerce_idem d) at 2.
  apply validate_pass.
  - rewrite missing_columns_coerce. exact Hm.
  - rewrite coerce_idem. exact Hf.
Qed.

End Twice.

Lemma validation_is_idempotent_witness :
  _validate_data simple_library (coerce simple_library five_rows) fitted_world
  = (Return (coerce simple_library five_rows), note_pass fitted_world).
Proof.
  apply (validation_is_idempotent simple_library five_rows _ (fresh five_rows)
           (note_pass (fresh five_rows))).
  apply validate_pass; reflexivity.
Defined.

(** ** Outcomes that do not depend on the world *)

Lemma stateless_ret {A} (a : A) : Stateless (ret a).
Proof. intros w w'. reflexivity. Qed.

Lemma stateless_raise {A} (e : Exn) : Stateless (@raise A e).
Proof. intros w w'. reflexivity. Qed.

Lemma stateless_log (entry : LogEntry) : Stateless (log entry).
Proof. intros w w'. reflexivity. Qed.

Lemma stateless_bind {A B} (m : M A) (k : A -> M B) :
  Stateless m -> (forall a, Stateless (k a)) -> Stateless (bind m k).
Proof.
  intros Hm Hk w w'. unfold bind. specialize (Hm w w').
  destruct (m w) as [[a|e] w1], (m w') as [[a'|e'] w1']; simpl in Hm;
    try discriminate Hm.
  - injection Hm as ->. apply Hk.
  - injection Hm as ->. reflexivity.
Qed.

Lemma stateless_for_each {A S} (body : A -> S -> M S) (xs : list A) :
  (forall x s, Stateless (body x s)) -> forall s, Stateless (for_each xs body s).
Proof.
  intros Hb. induction xs as [|x xs IH]; intros s; simpl.
  - apply stateless_ret.
  - apply stateless_bind; [apply Hb | exact IH].
Qed.

Lemma stateless_impute_numeric (c : string) (d : DataFrame) :
  Stateless (impute_numeric c d).
Proof.
  intros w w'.
  destruct (impute_numeric_eq c d w) as [w1 ->].
  destruct (impute_numeric_eq c d w') as [w1' ->]. reflexivity.
Qed.

Lemma stateless_impute_ratio (c : string) (d : DataFrame) :
  Stateless (impute_ratio c d).
Proof.
  intros w w'.
  destruct (impute_ratio_eq c d w) as [w1 ->].
  destruct (impute_ratio_eq c d w') as [w1' ->]. reflexivity.
Qed.

Lemma stateless_loc_set (c : string) (mask : list bool) (x : Q) (d : DataFrame) :
  Stateless (loc_set c mask x d).
Proof.
  unfold loc_set.
  destruct (is_integer_column c && has_fraction (VNum x));
    [apply stateless_raise | apply stateless_ret].
Qed.

Lemma stateless_cap_outliers (c : string) (d : DataFrame) :
  Stateless (cap_outliers c d).
Proof.
  unfold cap_outliers. cbv zeta.
  repeat match goal with
         | |- Stateless (if ?b then _ else _) => destruct b
         end; try apply stateless_ret.
  apply stateless_bind; [apply stateless_loc_set|]. intros d1.
  apply stateless_bind; [apply stateless_loc_set|]. intros d2.
  apply stateless_bind; [apply stateless_log|]. intros _.
  apply stateless_ret.
Qed.

Lemma stateless_preprocess (d : DataFrame) : Stateless (_preprocess_data d).
Proof.
  unfold _preprocess_data.
  apply stateless_bind;
    [apply stateless_for_each; intros; apply stateless_impute_numeric|].
  intros d1. apply stateless_bind;
    [apply stateless_for_each; intros; apply stateless_impute_ratio|].
  intros d2. apply stateless_for_each. intros. apply stateless_cap_outliers.
Qed.

Lemma stateless_scaler_transform (sc : StandardScaler) (d : DataFrame) (cols : list string) :
  Stateless (scaler_transform sc d cols).
Proof.
  unfold scaler_transform.
  destruct (fitted sc); [|apply stateless_raise].
  destruct (len d =? 0)%nat; [apply stateless_raise | apply stateless_ret].
Qed.


(** ** What preprocessing keeps *)

Lemma names_update_first (c : string) (g : list value -> list value) cols :
  map fst (update_first c g cols) = map fst cols.
Proof.
  induction cols as [|[c' cells] rest IH]; simpl; [reflexivity|].
  destruct (String.eqb c c'); simpl; [reflexivity | rewrite IH; reflexivity].
Qed.

Lemma names_update (g : list value -> list value) (d : DataFrame) (c : string) :
  column_names (update_column g d c) = column_names d.
Proof.
  rewrite update_column_first. unfold column_names. simpl.
  apply names_update_first.
Qed.

Lemma length_update (g : list value -> list value) (d : DataFrame) (c c' : string) :
  (forall x, length (g x) = length x) ->
  length (get_column c' (update_column g d c)) = length (get_column c' d).
Proof.
  intros Hg. destruct (String.eqb_spec c' c) as [->|Hne].
  - rewrite get_update_same. destruct (has_column c d) eqn:E; [apply Hg|].
    rewrite (missing_column_no_cells _ _ E). reflexivity.
  - rewrite get_update_other by exact Hne. reflexivity.
Qed.

(** Writing a column that is there is rewriting it. *)
Lemma set_column_update (c : string) (cells : list value) (d : DataFrame) :
  has_column c d = true ->
  set_column c cells d = update_column (fun _ => cells) d c.
Proof. intros H. unfold update_column. rewrite H. reflexivity. Qed.

Lemma length_loc_assign (f : value -> bool) (x : value) (cells cells' : list value) :
  length cells' = length cells ->
  length (loc_assign (map f cells) x cells') = length cells.
Proof.
  intros H. unfold loc_assign.
  rewrite length_map, length_combine, length_map, H. apply Nat.min_id.
Qed.

(** The shape of a table: its labels, the names of its columns in order
    and the length of every column. *)
Lemma cap_outliers_shape (c : string) (d d' : DataFrame) (w w' : World) :
  cap_outliers c d w = (Return d', w') ->
  index d' = index d /\ column_names d' = column_names d /\
  forall c', length (get_column c' d') = length (get_column c' d).
Proof.
  intros H. unfold cap_outliers in H.
  destruct (has_column c d) eqn:Hc;
    [|apply return_eq in H; destruct H as [<- _]; auto].
  destruct (8 <=? length (numbers (get_column c d)))%nat;
    [|apply return_eq in H; destruct H as [<- _]; auto].
  cbv zeta in H.
  match type of H with
  | (if ?b then _ else _) _ = _ =>
      destruct b; [|apply return_eq in H; destruct H as [<- _]; auto]
  end.
  match type of H with
  | (if ?b then _ else _) _ = _ =>
      destruct b; [|apply return_eq in H; destruct H as [<- _]; auto]
  end.
  apply bind_return_inv in H. destruct H as (d1 & w1 & H1 & H).
  apply bind_return_inv in H. destruct H as (d2 & w2 & H2 & H).
  apply return_eq in H. destruct H as [<- _].
  apply loc_set_inv in H1. destruct H1 as [E1 _].
  apply loc_set_inv in H2. destruct H2 as [E2 _].
  assert (Hc1 : has_column c d1 = true).
  { rewrite E1, has_column_set, Hc. reflexivity. }
  assert (Hlen1 : length (get_column c d1) = length (get_column c d)).
  { rewrite E1, get_column_set_same. apply length_loc_assign. reflexivity. }
  rewrite (set_column_update _ _ _ Hc1) in E2.
  rewrite (set_column_update _ _ _ Hc) in E1.
  split; [|split].
  - rewrite E2, index_update, E1, index_update. reflexivity.
  - rewrite E2, names_update, E1, names_update. reflexivity.
  - intros c'. destruct (String.eqb_spec c' c) as [->|Hne].
    + rewrite E2, get_update_same, Hc1.
      rewrite length_loc_assign by exact Hlen1. reflexivity.
    + rewrite E2, get_update_other by exact Hne.
      rewrite E1, get_update_other by exact Hne. reflexivity.
Qed.

Lemma for_each_cap_shape (cols : list string) :
  forall (d d' : DataFrame) (w w' : World),
    for_each cols cap_outliers d w = (Return d', w') ->
    index d' = index d /\ column_names d' = column_names d /\
    forall c', length (get_column c' d') = length (get_column c' d).
Proof.
  induction cols as [|c cols IH]; intros d d' w w' H; simpl in H.
  - apply return_eq in H. destruct H as [<- _]. auto.
  - apply bind_return_inv in H. destruct H as (d1 & w1 & H1 & H).
    destruct (cap_outliers_shape _ _ _ _ _ H1) as (I1 & N1 & L1).
    destruct (IH _ _ _ _ H) as (I2 & N2 & L2).
    split; [congruence|]. split; [congruence|].
    intros c'. rewrite L2, L1. reflexivity.
Qed.

Lemma length_fill_numeric (c : string) (cells : list value) :
  length (fill_numeric c cells) = length cells.
Proof. unfold fill_numeric. destruct (is_integer_column c); apply length_map. Qed.

Lemma imputed_shape (d : DataFrame) :
  index (imputed d) = index d /\ column_names (imputed d) = column_names d /\
  forall c', length (get_column c' (imputed d)) = length (get_column c' d).
Proof.
  unfold imputed, RATIO_COLUMNS, NUMERIC_COLUMNS. cbn [fold_left].
  split; [|split].
  - rewrite !index_update. reflexivity.
  - rewrite !names_update. reflexivity.
  - intros c'.
    rewrite length_update by (intros; apply length_map).
    rewrite !length_update by (intros; apply length_fill_numeric).
    reflexivity.
Qed.

(** X9.  [_preprocess_data] keeps the shape of the table: it returns the same
    row labels, the same columns in the same order and as many cells in every
    column; no row is dropped and no column is added. *)
Theorem preprocess_keeps_shape (d dp : DataFrame) (w w' : World) :
  _preprocess_data d w = (Return dp, w') ->
  index dp = index d /\ column_names dp = column_names d /\
  forall c, length (get_column c dp) = length (get_column c d).
Proof.
  intros H. destruct (preprocess_steps _ _ _ _ H) as [wb Hc].
  destruct (for_each_cap_shape _ _ _ _ _ Hc) as (I1 & N1 & L1).
  destruct (imputed_shape d) as (I2 & N2 & L2).
  split; [congruence|]. split; [congruence|].
  intros c. rewrite L1, L2. reflexivity.
Qed.

Lemma preprocess_keeps_shape_witness :
  exists dp,
    fst (_preprocess_data (coerce simple_library gappy_rows) (fresh gappy_rows))
      = Return dp /\
    index dp = index (coerce simple_library gappy_rows) /\
    column_names dp = column_names (coerce simple_library gappy_rows) /\
    forall c, length (get_column c dp)
              = length (get_column c (coerce simple_library gappy_rows)).
Proof.
  assert (H : exists dp w',
            _preprocess_data (coerce simple_library gappy_rows) (fresh gappy_rows)
              = (Return dp, w')).
  { do 2 eexists. vm_compute. reflexivity. }
  destruct H as (dp & w' & H). exists dp. split; [rewrite H; reflexivity|].
  exact (preprocess_keeps_shape _ _ _ _ H).
Defined.

Section FitAndTransform.

Variable L : Library.

Lemma stateless_validate (d : DataFrame) : Stateless (_validate_data L d).
Proof.
  intros w w'.
  destruct (missing_columns d) as [|c cs] eqn:Hm.
  - destruct (all_failures (coerce L d)) as [|r rs] eqn:Hf.
    + rewrite !validate_pass by assumption. reflexivity.
    + rewrite !validate_found by (auto; rewrite Hf; discriminate). reflexivity.
  - rewrite !validate_missing by (rewrite Hm; discriminate). reflexivity.
Qed.








(** The body of [fit_transform] after preprocessing: the scaler refuses a
    table without rows, and fits and scales any other. *)
Lemma fit_tail (dp : DataFrame) (w2 : World) :
  (cols_to_scale dp <> [] /\ len dp = 0%nat /\
   (let cols := cols_to_scale dp in
    scaler <- match cols with
              | [] => ret (mkScaler None)
              | _ => scaler_fit L dp cols
              end ;;
    df_scaled <- match cols with
                 | [] => ret dp
                 | _ => scaler_transform scaler dp cols
                 end ;;
    set_scaler scaler ;;;
    log (LogScaled cols) ;;;
    me' <- get_self ;;
    ret (df_scaled, mkMeta (_report me') (Some cols) (Some scaler)))%monad w2
   = (Raise (ValueError NoSamples), w2)) \/
  ((cols_to_scale dp = [] \/ len dp <> 0%nat) /\
   exists meta w',
     (let cols := cols_to_scale dp in
      scaler <- match cols with
                | [] => ret (mkScaler None)
                | _ => scaler_fit L dp cols
                end ;;
      df_scaled <- match cols with
                   | [] => ret dp
                   | _ => scaler_transform scaler dp cols
                   end ;;
      set_scaler scaler ;;;
      log (LogScaled cols) ;;;
      me' <- get_self ;;
      ret (df_scaled, mkMeta (_report me') (Some cols) (Some scaler)))%monad w2
     = (Return (standardized L dp, meta), w') /\
     m_scaled_columns meta = Some (cols_to_scale dp) /\
     m_scaler meta = Some (scaler_of L dp) /\
     _scaler (self w') = m_scaler meta).
Proof.
  unfold standardized, scaler_of. cbv zeta.
  destruct (cols_to_scale dp) as [|c cols].
  - right. split; [left; reflexivity|]. do 2 eexists.
    split; [reflexivity|]. split; [reflexivity|]. split; reflexivity.
  - destruct (len dp =? 0)%nat eqn:E.
    + left. split; [discriminate|]. split; [apply Nat.eqb_eq; exact E|].
      unfold bind, scaler_fit. rewrite E. reflexivity.
    + right. split; [right; apply Nat.eqb_neq; exact E|]. do 2 eexists.
      split; [unfold bind, scaler_fit, scaler_transform; rewrite E; reflexivity|].
      split; [reflexivity|]. split; reflexivity.
Qed.


(** A successful [fit_transform], read backwards. *)
Lemma fit_success_inv (w w' : World) (out : DataFrame) (meta : Meta) :
  fit_transform L w = (Return (out, meta), w') ->
  m_scaler meta <> None ->
  exists dv w1 dp w2,
    _validate_data L (df (self w)) w = (Return dv, w1) /\
    _preprocess_data dv w1 = (Return dp, w2) /\
    out = standardized L dp /\
    _scaler (self w') = m_scaler meta /\
    m_scaler meta = Some (scaler_of L dp) /\
    (cols_to_scale dp = [] \/ len dp <> 0%nat).
Proof.
  unfold fit_transform, try_except.
  match goal with
  | |- match ?b with _ => _ end = _ -> _ => destruct b as [[r|e0] wb] eqn:Hb
  end.
  - intros H Hs. apply return_eq in H. destruct H as [-> ->].
    apply bind_return_inv in Hb. destruct Hb as (me & w0 & Hg & Hb).
    apply return_eq in Hg. destruct Hg as [<- <-].
    apply bind_return_inv in Hb. destruct Hb as (dv & w1 & Hv & Hb).
    apply bind_return_inv in Hb. destruct Hb as (dp & w2 & Hp & Hb).
    destruct (fit_tail dp w2) as [(_ & _ & E)|(Hrows & meta' & w'' & E & _ & Hm & Hsc)];
      cbv zeta in E; rewrite E in Hb; [discriminate Hb|].
    apply return_eq in Hb. destruct Hb as [Hb <-].
    assert (Hout : standardized L dp = out) by exact (f_equal fst Hb).
    assert (Hmeta : meta' = meta) by exact (f_equal snd Hb).
    subst meta'. exists dv, w1, dp, w2. auto 7.
  - destruct e0 as [msg| | | |]; intros H Hs; try discriminate H.
    apply return_eq in H. destruct H as [H _].
    apply (f_equal snd) in H. simpl in H. subst meta. exfalso. apply Hs. reflexivity.
Qed.

(** The outcome of [transform] on a fitted processor. *)
Lemma transform_fitted (d : DataFrame) (w : World) (sc : StandardScaler) :
  _scaler (self w) = Some sc ->
  fst (transform L d w) =
  fst ((df_new_validated <- _validate_data L d ;;
        df_new_processed <- _preprocess_data df_new_validated ;;
        match cols_to_scale df_new_processed with
        | [] => ret df_new_processed
        | c :: cols => scaler_transform sc df_new_processed (c :: cols)
        end)%monad w).
Proof.
  intros H. unfold transform. unfold bind at 1. unfold get_self. rewrite H.
  reflexivity.
Qed.

Lemma stateless_transform_body (d : DataFrame) (sc : StandardScaler) :
  Stateless (df_new_validated <- _validate_data L d ;;
             df_new_processed <- _preprocess_data df_new_validated ;;
             match cols_to_scale df_new_processed with
             | [] => ret df_new_processed
             | c :: cols => scaler_transform sc df_new_processed (c :: cols)
             end)%monad.
Proof.
  apply stateless_bind; [apply stateless_validate|]. intros dv.
  apply stateless_bind; [apply stateless_preprocess|]. intros dp.
  destruct (cols_to_scale dp); [apply stateless_ret | apply stateless_scaler_transform].
Qed.

(** X7.  What [transform] returns or raises depends on the processor through
    its scaler only: neither the table the processor was built on nor its
    report nor the failure export matters. *)
Theorem transform_depends_on_scaler_only (d : DataFrame) (w1 w2 : World) :
  _scaler (self w1) = _scaler (self w2) ->
  fst (transform L d w1) = fst (transform L d w2).
Proof.
  intros H. destruct (_scaler (self w2)) as [sc|] eqn:E.
  - rewrite (transform_fitted d w1 sc H), (transform_fitted d w2 sc E).
    apply stateless_transform_body.
  - rewrite (transform_before_fit L d w1 H), (transform_before_fit L d w2 E).
    reflexivity.
Qed.

(** X8.  After a successful [fit_transform], [transform] of the table the
    processor was fitted on returns the table that [fit_transform] returned. *)
Theorem fit_then_transform (w w' : World) (out : DataFrame) (meta : Meta) :
  fit_transform L w = (Return (out, meta), w') ->
  m_scaler meta <> None ->
  fst (transform L (df (self w)) w') = Return out.
Proof.
  intros Hfit Hs.
  destruct (fit_success_inv _ _ _ _ Hfit Hs)
    as (dv & w1 & dp & w2 & Hv & Hp & -> & Hsc & Hm & Hrows).
  rewrite Hm in Hsc.
  rewrite (transform_fitted _ _ _ Hsc).
  rewrite (stateless_transform_body (df (self w)) _ w' w).
  unfold bind. rewrite Hv, Hp. unfold standardized, scaler_of.
  destruct (cols_to_scale dp) as [|c cols]; [reflexivity|].
  destruct Hrows as [Hrows|Hrows]; [discriminate Hrows|].
  apply Nat.eqb_neq in Hrows.
  unfold scaler_transform. cbn [fitted]. rewrite Hrows. reflexivity.
Qed.

End FitAndTransform.


Lemma transform_depends_on_scaler_only_witness :
  fst (transform simple_library five_rows fitted_world)
  = fst (transform simple_library five_rows bare_fitted_world).
Proof.
  apply transform_depends_on_scaler_only. reflexivity.
Defined.

Lemma fit_then_transform_witness :
  exists out meta,
    fit_transform simple_library (fresh five_rows) = (Return (out, meta), fitted_world) /\
    fst (transform simple_library five_rows fitted_world) = Return out.
Proof.
  assert (H : exists out meta,
            fit_transform simple_library (fresh five_rows)
              = (Return (out, meta), fitted_world) /\ m_scaler meta <> None).
  { do 2 eexists. split; [vm_compute; reflexivity | discriminate]. }
  destruct H as (out & meta & Hfit & Hs).
  exists out, meta. split; [exact Hfit|].
  exact (fit_then_transform simple_library (fresh five_rows) fitted_world out meta Hfit Hs).
Defined.

(** ** What preprocessing fills *)

Lemma length_insert_sorted (x : Q) (l : list Q) :
  length (insert_sorted x l) = S (length l).
Proof.
  induction l as [|y l IH]; simpl; [reflexivity|].
  destruct (Qle_b x y); simpl; [reflexivity | rewrite IH; reflexivity].
Qed.

Lemma length_sort_values (l : list Q) : length (sort_values l) = length l.
Proof.
  induction l as [|x l IH]; simpl; [reflexivity|].
  rewrite length_insert_sorted, IH. reflexivity.
Qed.

(** The median of a column that holds a number is not missing. *)
Lemma median_some (cells : list value) :
  numbers cells <> [] -> exists m, median cells = Some m.
Proof.
  intros H. unfold median. rewrite length_sort_values.
  destruct (numbers cells) as [|x xs] eqn:E; [congruence|].
  cbn [length Nat.eqb]. destruct (Nat.even (S (length xs))); eexists; reflexivity.
Qed.

Lemma fill_numeric_numbers (c : string) (cells : list value) :
  numbers cells <> [] ->
  Forall (fun v => is_numeric_cell v = true) cells ->
  Forall is_number (fill_numeric c cells).
Proof.
  intros Hne Hnum. destruct (median_some cells Hne) as [m Hm].
  unfold fill_numeric. rewrite Hm.
  destruct (is_integer_column c); apply Forall_map;
    (eapply Forall_impl; [|exact Hnum]);
    intros v Hv; destruct v as [q| | |]; try discriminate Hv;
    cbn [fillna to_Int64]; eexists; reflexivity.
Qed.

Lemma cap_outliers_keeps (P : value -> Prop) (c c' : string) (d d' : DataFrame)
    (w w' : World) :
  (forall x, P (VNum x)) ->
  cap_outliers c d w = (Return d', w') ->
  Forall P (get_column c' d) -> Forall P (get_column c' d').
Proof.
  intros HP H Hcells. apply cap_outliers_inv in H.
  destruct H as [->|(m1 & x1 & m2 & x2 & E & Ho & _)]; [exact Hcells|].
  destruct (String.eqb_spec c' c) as [->|Hne].
  - rewrite E. apply loc_assign_keeps; [|apply HP].
    apply loc_assign_keeps; [exact Hcells | apply HP].
  - rewrite (Ho c' Hne). exact Hcells.
Qed.

Lemma for_each_cap_keeps (P : value -> Prop) (cols : list string) (c' : string) :
  (forall x, P (VNum x)) ->
  forall (d d' : DataFrame) (w w' : World),
    for_each cols cap_outliers d w = (Return d', w') ->
    Forall P (get_column c' d) -> Forall P (get_column c' d').
Proof.
  intros HP. induction cols as [|c cols IH]; intros d d' w w' H Hcells; simpl in H.
  - apply return_eq in H. destruct H as [<- _]. exact Hcells.
  - apply bind_return_inv in H. destruct H as (d1 & w1 & H1 & H).
    apply (IH _ _ _ _ H). apply (cap_outliers_keeps P _ _ _ _ _ _ HP H1 Hcells).
Qed.

Lemma imputed_numeric_column (d : DataFrame) (c : string) :
  In c NUMERIC_COLUMNS ->
  get_column c (imputed d) =
  if has_column c d then fill_numeric c (get_column c d) else [].
Proof.
  unfold imputed, RATIO_COLUMNS, NUMERIC_COLUMNS. cbn [fold_left In].
  intros [<-|[<-|[<-|[<-|[]]]]]; other_columns; rewrite get_update_same;
    rewrite ?has_column_update; other_columns; reflexivity.
Qed.

Section Filling.

Variable L : Library.

(** X10.  After preprocessing, a numeric column of the validated table that
    held at least one number holds numbers only: every gap has been filled. *)
Theorem imputation_leaves_no_gap (w w1 w2 : World) (d dv dp : DataFrame) (c : string) :
  _validate_data L d w = (Return dv, w1) ->
  _preprocess_data dv w1 = (Return dp, w2) ->
  In c NUMERIC_COLUMNS ->
  numbers (get_column c dv) <> [] ->
  Forall is_number (get_column c dp).
Proof.
  intros Hv Hp Hc Hne.
  apply validate_return_inv in Hv. destruct Hv as (_ & _ & Edv).
  destruct (preprocess_steps _ _ _ _ Hp) as [wb Hcap].
  apply (for_each_cap_keeps is_number _ c (fun x => ex_intro _ x eq_refl)
           _ _ _ _ Hcap).
  rewrite (imputed_numeric_column dv c Hc).
  destruct (has_column c dv); [|constructor].
  apply fill_numeric_numbers; [exact Hne|].
  rewrite Edv. apply coerce_numeric. apply in_or_app. left. exact Hc.
Qed.

End Filling.

Lemma imputation_leaves_no_gap_witness :
  exists dp,
    fst (_preprocess_data (coerce simple_library gappy_rows)
           (note_pass (fresh gappy_rows))) = Return dp /\
    Forall is_number (get_column "search_freq" dp).
Proof.
  assert (H : exists dp w',
            _preprocess_data (coerce simple_library gappy_rows)
              (note_pass (fresh gappy_rows)) = (Return dp, w')).
  { do 2 eexists. vm_compute. reflexivity. }
  destruct H as (dp & w' & H). exists dp. split; [rewrite H; reflexivity|].
  apply (imputation_leaves_no_gap simple_library (fresh gappy_rows) _ w' gappy_rows
           _ dp "search_freq"
           (validate_pass simple_library gappy_rows (fresh gappy_rows) eq_refl eq_refl)
           H).
  - simpl. auto.
  - vm_compute. discriminate.
Defined.

(** ** Inference *)

Lemma add_column_inv (c : string) (values : list Q) (d out : DataFrame) (w w' : World) :
  add_column c values d w = (Return out, w') ->
  out = set_column c (map VNum values) d /\ length values = len d /\ w' = w.
Proof.
  unfold add_column. destruct (length values =? len d)%nat eqn:E; intros H.
  - apply return_eq in H. destruct H as [<- <-].
    apply Nat.eqb_eq in E. auto.
  - discriminate H.
Qed.

Section Predicting.

Variable L : Library.
Variable validator : Validator.

(** X12.  When [predict_dataframe] is asked to validate, it stops before it
    loads or runs anything: without a configuration it raises the
    configuration [ValueError], and when the validator reports a problem or a
    failure it raises [FeatureValidationError]; in both cases the world is
    left as it was. *)
Theorem predict_validation_gate (d0 : DataFrame) (art : Artifacts) (w : World) :
  empty d0 = false ->
  predict_dataframe L validator (Some d0) art true None w
    = (Raise (ValueError ValidationConfigRequired), w) /\
  (forall config, let '(problems, _, passed) := validator d0 config in
     passed = false \/ (0 < problems)%nat ->
     predict_dataframe L validator (Some d0) art true (Some config) w
       = (Raise FeatureValidationError, w)).
Proof.
  intros Hne. split.
  - unfold predict_dataframe. rewrite Hne. reflexivity.
  - intros config. destruct (validator d0 config) as [[problems dfv] passed] eqn:Hv.
    intros Hbad. unfold predict_dataframe. rewrite Hne. unfold bind at 1. rewrite Hv.
    assert (Hc : negb passed || (0 <? problems)%nat = true).
    { destruct Hbad as [-> | Hp]; [reflexivity|].
      apply Nat.ltb_lt in Hp. rewrite Hp. apply orb_true_r. }
    rewrite Hc. reflexivity.
Qed.

(** X13.  A table that [predict_dataframe] returns is the table of step 0 with
    two columns set: the labels of the rows and every other column are those
    of that table, [risk_proba] has one cell per row and every cell of
    [risk_flag] is 0 or 1. *)
Theorem predict_result_shape (d0 out : DataFrame) (art : Artifacts) (do_validate : bool)
    (config : option ValidationConfig) (w w' : World) :
  predict_dataframe L validator (Some d0) art do_validate config w = (Return out, w') ->
  exists d,
    validation_gives validator d0 do_validate config d /\
    index out = index d /\
    (forall c, c <> "risk_proba" -> c <> "risk_flag" ->
       get_column c out = get_column c d) /\
    length (get_column "risk_proba" out) = len d /\
    Forall is_number (get_column "risk_proba" out) /\
    Forall (fun v => v = VNum 0 \/ v = VNum 1) (get_column "risk_flag" out).
Proof.
  unfold predict_dataframe. destruct (empty d0); [intros H; discriminate H|].
  intros H. apply bind_return_inv in H. destruct H as (d & w1 & Hval & H).
  exists d. split.
  - destruct do_validate.
    + destruct config as [cfg|]; [|discriminate Hval].
      destruct (validator d0 cfg) as [[problems dfv] passed] eqn:Hv.
      destruct (negb passed || (0 <? problems)%nat) eqn:Hc; [discriminate Hval|].
      apply return_eq in Hval. destruct Hval as [<- _].
      apply orb_false_iff in Hc. destruct Hc as [Hp Hn].
      apply negb_false_iff in Hp. subst passed.
      apply Nat.ltb_ge in Hn. assert (problems = 0%nat) by lia. subst problems.
      apply Validated. exact Hv.
    + apply return_eq in Hval. destruct Hval as [<- _]. apply NotValidated.
  - unfold load_model_processor in H.
    apply bind_return_inv in H. destruct H as (X & w2 & _ & H).
    apply bind_return_inv in H. destruct H as (out1 & w3 & H1 & H2).
    apply add_column_inv in H1. destruct H1 as (E1 & Hlen & _).
    apply add_column_inv in H2. destruct H2 as (E2 & _ & _).
    subst out out1.
    split; [reflexivity|]. split; [|split; [|split]].
    + intros c Hp Hf. rewrite !get_column_set_other by assumption. reflexivity.
    + rewrite get_column_set_other by discriminate.
      rewrite get_column_set_same, length_map. exact Hlen.
    + rewrite get_column_set_other by discriminate.
      rewrite get_column_set_same. apply Forall_map, Forall_forall.
      intros q _. exists q. reflexivity.
    + rewrite get_column_set_same, map_map. apply Forall_map, Forall_forall.
      intros q _. unfold risk_flag_of.
      destruct (Qle_b (load_threshold art (1 # 2)) q); auto.
Qed.

(** X14.  With a classifier that only predicts labels 0 and 1 and a threshold
    above 0 and at most 1, the probability of a row is its label and so is its
    flag. *)
Theorem hard_labels_are_the_flags (model : Classifier) (X : DataFrame) (thr : Q) :
  predict_proba model = None ->
  decision_function model = None ->
  Forall (fun l => l = 0 \/ l = 1) (predict model X) ->
  (0 < thr <= 1)%Q ->
  proba_of L model X = map Qint (predict model X) /\
  map (risk_flag_of thr) (proba_of L model X) = proba_of L model X.
Proof.
  intros Hp Hd Hl [Hlo Hhi]. unfold proba_of. rewrite Hp, Hd. split; [reflexivity|].
  rewrite map_map. apply map_ext_in. intros l Hin.
  rewrite Forall_forall in Hl. unfold risk_flag_of, Qle_b.
  destruct (Hl l Hin) as [-> | ->].
  - destruct (Qle_bool thr (Qint 0)) eqn:E; [|reflexivity].
    apply Qle_bool_iff in E. exfalso. apply (Qlt_not_le _ _ Hlo). exact E.
  - destruct (Qle_bool thr (Qint 1)) eqn:E; [reflexivity|].
    apply Qle_bool_iff in Hhi. change (Qint 1) with 1%Q in E. congruence.
Qed.

(** X15.  When the exponential is not negative at [- score], the probability
    that the sigmoid gives to a decision score lies between 0 and 1, the two
    ends included (floating-point numbers reach them: a score of 37 already
    gives exactly 1). *)
Theorem sigmoid_is_a_probability (score : Q) :
  (0 <= np_exp L (- score))%Q ->
  (0 <= sigmoid L score <= 1)%Q.
Proof.
  intros He. unfold sigmoid. rewrite Qred_correct.
  set (e := np_exp L (- score)) in *.
  assert (Hpos : (0 < 1 + e)%Q).
  { apply Qlt_le_trans with (y := 1%Q); [reflexivity|].
    rewrite <- (Qplus_0_r 1) at 1. apply Qplus_le_r. exact He. }
  split.
  - apply Qle_shift_div_l; [exact Hpos|]. rewrite Qmult_0_l. discriminate.
  - apply Qle_shift_div_r; [exact Hpos|]. rewrite Qmult_1_l.
    rewrite <- (Qplus_0_r 1) at 1. apply Qplus_le_r. exact He.
Qed.

End Predicting.

Lemma predict_validation_gate_witness :
  predict_dataframe simple_library reject_all (Some five_rows) sample_artifacts
    true None caller = (Raise (ValueError ValidationConfigRequired), caller) /\
  predict_dataframe simple_library reject_all (Some five_rows) sample_artifacts
    true (Some sample_config) caller = (Raise FeatureValidationError, caller).
Proof.
  destruct (predict_validation_gate simple_library reject_all five_rows
              sample_artifacts caller eq_refl) as [H1 H2].
  split; [exact H1|].
  apply (H2 sample_config). left. reflexivity.
Defined.

Lemma predict_result_shape_witness :
  exists out d,
    fst (predict_dataframe simple_library accept_all (Some five_rows) sample_artifacts
           false None caller) = Return out /\
    validation_gives accept_all five_rows false None d /\
    index out = index d /\
    (forall c, c <> "risk_proba" -> c <> "risk_flag" ->
       get_column c out = get_column c d) /\
    length (get_column "risk_proba" out) = len d /\
    Forall is_number (get_column "risk_proba" out) /\
    Forall (fun v => v = VNum 0 \/ v = VNum 1) (get_column "risk_flag" out).
Proof.
  assert (H : exists out w',
            predict_dataframe simple_library accept_all (Some five_rows)
              sample_artifacts false None caller = (Return out, w')).
  { do 2 eexists. vm_compute. reflexivity. }
  destruct H as (out & w' & H).
  destruct (predict_result_shape simple_library accept_all _ _ _ _ _ _ _ H)
    as (d & Hd).
  exists out, d. split; [rewrite H; reflexivity | exact Hd].
Defined.

Lemma hard_labels_are_the_flags_witness :
  proba_of simple_library label_model five_rows = [1; 0; 1; 0; 1]%Q /\
  map (risk_flag_of (1 # 2)) (proba_of simple_library label_model five_rows)
  = proba_of simple_library label_model five_rows.
Proof.
  destruct (hard_labels_are_the_flags simple_library label_model five_rows (1 # 2)
              eq_refl eq_refl) as [H1 H2].
  - cbv [predict label_model five_rows feature_table index map length seq].
    repeat (constructor; [(left; reflexivity) || (right; reflexivity)|]).
    constructor.
  - split; [reflexivity | unfold Qle; simpl; lia].
  - split; [rewrite H1; reflexivity | exact H2].
Defined.

Lemma sigmoid_is_a_probability_witness : (0 <= sigmoid simple_library 0 <= 1)%Q.
Proof. apply sigmoid_is_a_probability. discriminate. Defined.

End MLExtra.

(** * The cleaned table of a fit *)

Module CleanedTable.

Import ML MLAux MLSpec MLExtra.








Section Cleaned.

Variable L : Library.



End Cleaned.


End CleanedTable.

(** * Further properties of the aggregator *)

Module ServerExtra.

Import Server ServerAux ServerSpec.

(** ** Sums *)

Lemma fold_add_acc (l : list Z) (acc : Z) :
  fold_left Z.add l acc = acc + fold_left Z.add l 0.
Proof.
  revert acc. induction l as [|x l IH]; intros acc; simpl; [lia|].
  rewrite (IH (acc + x)), (IH x). lia.
Qed.

Lemma Zsum_cons (x : Z) (l : list Z) : Zsum (x :: l) = x + Zsum l.
Proof. unfold Zsum. simpl. rewrite fold_add_acc. reflexivity. Qed.


Lemma coalesce_sum (l : list (option Z)) : coalesce0 (sql_sum l) = Zsum (non_null l).
Proof. unfold sql_sum. destruct (non_null l); reflexivity. Qed.

Lemma dwell_sum_cons (e : RawEvent) (rows : list RawEvent) :
  dwell_sum (e :: rows) = coalesce0 (dwell_ms e) + dwell_sum rows.
Proof.
  unfold dwell_sum, non_null. cbn [map flat_map].
  destruct (dwell_ms e); cbn [app coalesce0]; [apply Zsum_cons | reflexivity].
Qed.

(** A part of the rows weighs at most what all rows weigh. *)
Lemma dwell_sum_filter (p : RawEvent -> bool) (rows : list RawEvent) :
  dwell_not_negative rows ->
  0 <= dwell_sum (filter p rows) <= dwell_sum rows.
Proof.
  induction rows as [|e rows IH]; intros Hnn.
  - cbv. split; discriminate.
  - assert (Hrest : dwell_not_negative rows).
    { intros e' ms Hin. apply Hnn. right. exact Hin. }
    assert (He : 0 <= coalesce0 (dwell_ms e)).
    { destruct (dwell_ms e) as [ms|] eqn:E; [|simpl; lia].
      apply (Hnn e ms); [left; reflexivity | exact E]. }
    specialize (IH Hrest). cbn [filter].
    destruct (p e); rewrite ?dwell_sum_cons; lia.
Qed.

Lemma not_negative_filter (p : RawEvent -> bool) (evs : list RawEvent) :
  dwell_not_negative evs -> dwell_not_negative (filter p evs).
Proof.
  intros H e ms Hin. apply filter_In in Hin. apply H. apply Hin.
Qed.

(** ** Ratios *)

Lemma js_div_ints (n d : Z) :
  0 < d -> js_div (of_int n) (of_int d) = Fin (Qred (Qint n / Qint d)).
Proof.
  intros Hd. unfold js_div, of_int, fin.
  destruct (Qeq_bool (Qint d) 0) eqn:E; [|reflexivity].
  apply Qeq_bool_iff in E. unfold Qeq, Qint in E. simpl in E. lia.
Qed.

Lemma ratio_in_unit (n d : Z) :
  0 <= n <= d -> 0 < d -> (0 <= Qred (Qint n / Qint d) <= 1)%Q.
Proof.
  intros [Hn Hd] Hpos. rewrite Qred_correct.
  assert (HdQ : (0 < Qint d)%Q).
  { unfold Qint, Qlt. simpl. lia. }
  split.
  - apply Qle_shift_div_l; [exact HdQ|]. rewrite Qmult_0_l.
    unfold Qint, Qle. simpl. lia.
  - apply Qle_shift_div_r; [exact HdQ|]. rewrite Qmult_1_l.
    unfold Qint, Qle. simpl. lia.
Qed.

Lemma in_unit_zero : in_unit (of_int 0).
Proof. exists 0%Q. split; [reflexivity|]. split; discriminate. Qed.

Lemma safeRatio_in_unit (num den : Z) :
  0 <= num <= den -> in_unit (safeRatio num den).
Proof.
  intros H. unfold safeRatio. destruct (Z.ltb_spec 0 den) as [Hd|Hd].
  - rewrite js_div_ints by exact Hd. eexists. split; [reflexivity|].
    apply ratio_in_unit; assumption.
  - apply in_unit_zero.
Qed.

(** A call that returns returns the row of [computeMetrics]. *)
Lemma call_returns (local_hour : Z -> option Z) (max_arguments : nat)
    (evs : list RawEvent) (a b : Z) (r : FeatureRow) :
  computeMetrics_call local_hour max_arguments evs a b = Returns r ->
  r = computeMetrics local_hour evs a b.
Proof.
  unfold computeMetrics_call.
  destruct (thrown local_hour max_arguments evs a b); intros H; [discriminate H|].
  injection H as <-. reflexivity.
Qed.

Section Ratios.

Variable local_hour : Z -> option Z.
Variable max_arguments : nat.
Variable evs : list RawEvent.
Variables a b : Z.

Lemma dwellTotal_sum : dwellTotal evs a b = dwell_sum (dwell_rows evs a b).
Proof. unfold dwellTotal, dwell_sum. apply coalesce_sum. Qed.

Lemma part_of_dwell (extra : RawEvent -> bool) :
  coalesce0 (sql_sum (map dwell_ms
    (filter (fun e => type_is "dwell" e && in_window a b e && extra e) evs)))
  = dwell_sum (filter extra (dwell_rows evs a b)).
Proof.
  rewrite coalesce_sum. unfold dwell_sum, dwell_rows.
  rewrite (filter_split (fun e => type_is "dwell" e && in_window a b e) extra
             (fun e => type_is "dwell" e && in_window a b e && extra e) evs);
    [reflexivity|].
  intros e. reflexivity.
Qed.

(** X16.  In every row that a call of [computeMetrics] returns, when no
    recorded dwell time is negative, the share of late-night dwell time and
    the share of dwell time on social and entertainment sites are finite
    numbers between 0 and 1.  (A call whose sums overflow or whose sessions
    are too many for [Math.max] throws and returns no row.) *)
Theorem dwell_shares_in_unit (r : FeatureRow) :
  computeMetrics_call local_hour max_arguments evs a b = Returns r ->
  dwell_not_negative evs ->
  in_unit (late_night_ratio r) /\ in_unit (sns_ent_ratio r).
Proof.
  intros Hcall Hnn. apply call_returns in Hcall. subst r.
  assert (Hrows : dwell_not_negative (dwell_rows evs a b))
    by (apply not_negative_filter; exact Hnn).
  unfold computeMetrics, late, snsEnt. cbn [late_night_ratio sns_ent_ratio].
  rewrite !part_of_dwell, dwellTotal_sum.
  split; apply safeRatio_in_unit; apply dwell_sum_filter; exact Hrows.
Qed.


End Ratios.

Lemma busy_day_not_negative : dwell_not_negative busy_day.
Proof. intros e ms [<-|[<-|[<-|[]]]] H; injection H as <-; lia. Qed.

Lemma dwell_shares_in_unit_witness :
  exists r,
    computeMetrics_call utc_hour small_engine busy_day 0 86400000 = Returns r /\
    in_unit (late_night_ratio r) /\ in_unit (sns_ent_ratio r).
Proof.
  eexists. split; [vm_compute; reflexivity|].
  apply (dwell_shares_in_unit utc_hour small_engine busy_day 0 86400000);
    [vm_compute; reflexivity | exact busy_day_not_negative].
Defined.


(** ** Minutes *)





(** ** Sessions *)







(** ** Windows *)




(** ** Events that do not count *)

Ltac implied_by_relevant :=
  let e := fresh "e" in
  let H := fresh "H" in
  intros e H; unfold relevant;
  repeat match type of H with
         | _ && _ = true => apply andb_true_iff in H; destruct H as [H ?]
         end;
  repeat match goal with
         | E : _ = true |- _ => rewrite E
         end;
  rewrite ?orb_true_r; reflexivity.

(** X21.  Events outside the window, and events of another type than dwell,
    tab_count and visit (a scroll, a batch report), never change the row:
    [computeMetrics] returns the same row with and without them. *)
Theorem other_events_do_not_count (local_hour : Z -> option Z) (evs : list RawEvent)
    (a b : Z) :
  computeMetrics local_hour (filter (relevant a b) evs) a b
  = computeMetrics local_hour evs a b.
Proof.
  unfold computeMetrics, late, snsEnt, sessionMax, sessionMean, bounceRatio, shortCnt,
    sessions, avgTabCnt, searchFreq, repeatSiteRatio, topMs, topHosts, dwellTotal,
    dwell_rows.
  rewrite !(filter_implied (relevant a b)
              (fun e => type_is "dwell" e && in_window a b e))
    by implied_by_relevant.
  rewrite (filter_implied (relevant a b)
             (fun e => type_is "dwell" e && in_window a b e
                       && is_late_night local_hour e))
    by implied_by_relevant.
  rewrite (filter_implied (relevant a b)
             (fun e => type_is "dwell" e && in_window a b e
                       && category_in ["sns"; "entertainment"] e))
    by implied_by_relevant.
  rewrite (filter_implied (relevant a b)
             (fun e => type_is "tab_count" e && in_window a b e))
    by implied_by_relevant.
  rewrite (filter_implied (relevant a b)
             (fun e => type_is "visit" e && in_window a b e && is_search_category e))
    by implied_by_relevant.
  reflexivity.
Qed.

(** ** Hosts *)





















Section TopHosts.

Variable local_hour : Z -> option Z.
Variable max_arguments : nat.
Variable evs : list RawEvent.
Variables a b : Z.




End TopHosts.



End ServerExtra.

(** * More on the extension and the HTTP handlers *)

Module ExtensionExtra.

Import Server ServerAux Api Extension.

(** ** Categories *)

Lemma search_from_tail (m : string -> bool) (c : ascii) (s : string) :
  search_from m s = true -> search_from m (String c s) = true.
Proof. intros H. cbn [search_from]. rewrite H. apply orb_true_r. Qed.

Lemma search_from_found (m m' : string -> bool) (s : string) :
  (forall t, m t = true -> search_from m' t = true) ->
  search_from m s = true -> search_from m' s = true.
Proof.
  intros Hm. induction s as [|c s IH]; intros H; cbn [search_from] in H.
  - rewrite orb_false_r in H. apply Hm. exact H.
  - apply orb_true_iff in H. destruct H as [H|H].
    + apply Hm. exact H.
    + apply search_from_tail. apply IH. exact H.
Qed.

Lemma strip_prefix_app (p s r : string) :
  strip_prefix p s = Some r -> s = (p ++ r)%string.
Proof.
  revert s. induction p as [|a p IH]; intros s H.
  - cbn in H. injection H as ->. reflexivity.
  - destruct s as [|b s]; cbn [strip_prefix] in H; [discriminate|].
    destruct (Ascii.eqb a b) eqn:E; [|discriminate].
    apply Ascii.eqb_eq in E. subst b. cbn [String.append]. f_equal. apply IH. exact H.
Qed.

Lemma startsWith_app (p s : string) :
  startsWith p s = true -> exists r, s = (p ++ r)%string.
Proof.
  unfold startsWith. destruct (strip_prefix p s) as [r|] eqn:E; [|discriminate].
  intros _. exists r. apply strip_prefix_app. exact E.
Qed.

Lemma test_any_in (alt : string) (alternatives : list string) (s : string) :
  In alt alternatives -> includes alt s = true -> test_any alternatives s = true.
Proof.
  intros Hin H. unfold test_any. apply existsb_exists. exists alt. split; assumption.
Qed.

Lemma google_news_is_a_google_domain (host : string) :
  includes "news.google.com" host = true -> search_from google_domain host = true.
Proof.
  apply search_from_found. intros t H.
  apply startsWith_app in H. destruct H as [r ->]. vm_compute. reflexivity.
Qed.

Lemma netflix_holds_x_com (host : string) :
  includes "netflix.com" host = true -> includes "x.com" host = true.
Proof.
  apply search_from_found. intros t H.
  apply startsWith_app in H. destruct H as [r ->]. vm_compute. reflexivity.
Qed.

Section Categories.

Variable hostname : string -> option string.


(** X25.  Two alternatives of [detectCategory] can never be chosen: a host
    that holds [news.google.com] is a search engine, not news, and a host that
    holds [netflix.com] holds [x.com] and is never entertainment. *)
Theorem shadowed_hosts (url : string) :
  (includes "news.google.com" (hostOf hostname url) = true ->
   detectCategory hostname url = "search") /\
  (includes "netflix.com" (hostOf hostname url) = true ->
   detectCategory hostname url = "search" \/ detectCategory hostname url = "sns").
Proof.
  split; intros H; unfold detectCategory.
  - unfold search_engine. rewrite (google_news_is_a_google_domain _ H). reflexivity.
  - destruct (search_engine (hostOf hostname url)); [left; reflexivity|].
    right. rewrite (test_any_in "x.com"); [reflexivity | cbn; auto |].
    apply netflix_holds_x_com. exact H.
Qed.

End Categories.


Lemma shadowed_hosts_witness :
  detectCategory simple_hostname "https://news.google.com/home" = "search" /\
  (detectCategory simple_hostname "https://www.netflix.com/browse" = "search" \/
   detectCategory simple_hostname "https://www.netflix.com/browse" = "sns").
Proof.
  split.
  - apply (shadowed_hosts simple_hostname "https://news.google.com/home").
    vm_compute. reflexivity.
  - apply (shadowed_hosts simple_hostname "https://www.netflix.com/browse").
    vm_compute. reflexivity.
Defined.

(** ** The queue *)

Section Queue.

Variable clock : nat -> Z.
Variable hostname : string -> option string.
Variable href_without_query : string -> option string.
Variable body_size : list Event -> Z.

Lemma queue_set_activeSince (id : Z) (since : option Z) (st : State) :
  eventQueue (set_activeSince id since st) = eventQueue st.
Proof. unfold set_activeSince. destruct (get id (tabActivity st)); reflexivity. Qed.

Lemma tabs_set_activeSince (id : Z) (since : option Z) (st : State) (tab : TabInfo) :
  get id (tabActivity st) = Some tab ->
  tabActivity (set_activeSince id since st)
  = put id (mkTab (tab_url tab) (tab_host tab) (tab_category tab) since) (tabActivity st).
Proof. intros G. unfold set_activeSince. rewrite G. reflexivity. Qed.

Lemma get_put (id : Z) (tab : TabInfo) (tabs : list (Z * TabInfo)) :
  get id (put id tab tabs) = Some tab.
Proof.
  induction tabs as [|[k v] tabs IH]; cbn [put get].
  - rewrite Z.eqb_refl. reflexivity.
  - destruct (k =? id) eqn:E; cbn [get]; rewrite E; [reflexivity | exact IH].
Qed.

(** [deactivateTab] leaves the queue as it is or adds one dwell event of
    more than a second. *)
Lemma deactivateTab_queue (tabId : option Z) (st : State) :
  eventQueue (deactivateTab clock tabId st) = eventQueue st \/
  exists e, well_formed e /\
            eventQueue (deactivateTab clock tabId st) = eventQueue st ++ [e].
Proof.
  unfold deactivateTab.
  destruct (truthy tabId) as [id|]; [|left; reflexivity].
  destruct (get id (tabActivity st)) as [tab|] eqn:G; [|left; reflexivity].
  destruct (truthy (activeSince tab)) as [since|]; [|left; reflexivity].
  unfold now. cbv beta iota zeta.
  destruct (Z.ltb_spec 1000 (clock (ticks st) - since)) as [Hlong|Hshort].
  - right. eexists. split; [|rewrite queue_set_activeSince; reflexivity].
    split; [discriminate|]. split; [right; left; reflexivity|].
    intros d H. injection H as <-. exact Hlong.
  - left. rewrite queue_set_activeSince. reflexivity.
Qed.

Lemma deactivateTab_keeps (tabId : option Z) (st : State) :
  Forall well_formed (eventQueue st) ->
  Forall well_formed (eventQueue (deactivateTab clock tabId st)).
Proof.
  intros H. destruct (deactivateTab_queue tabId st) as [E|[e [He E]]]; rewrite E.
  - exact H.
  - apply Forall_app. split; [exact H|]. constructor; [exact He | constructor].
Qed.

Lemma activateTab_queue (tabId : option Z) (st : State) :
  eventQueue (activateTab clock tabId st) = eventQueue st.
Proof.
  unfold activateTab.
  destruct (truthy tabId) as [id|]; [|reflexivity].
  destruct (get id (tabActivity st)); [|reflexivity].
  unfold now, set_current. cbv beta iota zeta. cbn [eventQueue].
  rewrite queue_set_activeSince. reflexivity.
Qed.

Lemma handleUrlChange_keeps (tabId : Z) (url : string) (excludeHosts : list string)
    (activeTab : option Z) (st : State) :
  Forall well_formed (eventQueue st) ->
  Forall well_formed
    (eventQueue (handleUrlChange clock hostname href_without_query tabId url excludeHosts
                   activeTab st)).
Proof.
  intros H. unfold handleUrlChange.
  destruct (String.eqb url "" || negb (web_url url)); [exact H|].
  pose proof (deactivateTab_keeps (Some tabId) st H) as H1.
  destruct (existsb (String.eqb (hostOf hostname url)) excludeHosts); [exact H1|].
  unfold now. cbv beta iota zeta.
  assert (H4 : Forall well_formed
            (eventQueue (deactivateTab clock (Some tabId) st) ++
             [mkEv (Some (clock (ticks (deactivateTab clock (Some tabId) st))))
                (Some "visit") (Some (stripQuery href_without_query url))
                (Some (hostOf hostname url)) (Some (detectCategory hostname url))
                (Some tabId) None None None])).
  { apply Forall_app. split; [exact H1|]. constructor; [|constructor].
    split; [discriminate|]. split; [left; reflexivity|]. intros d Hd. discriminate Hd. }
  destruct activeTab as [id|]; [|exact H4].
  destruct (id =? tabId); [|exact H4].
  rewrite activateTab_queue. exact H4.
Qed.

Lemma recordTabCount_keeps (enabled : bool) (tabs : Z) (st : State) :
  Forall well_formed (eventQueue st) ->
  Forall well_formed (eventQueue (recordTabCount clock enabled tabs st)).
Proof.
  intros H. unfold recordTabCount. destruct enabled; [|exact H].
  cbn [negb]. unfold now. cbv beta iota zeta. cbn [pushEvent eventQueue].
  apply Forall_app. split; [exact H|]. constructor; [|constructor].
  split; [discriminate|]. split; [right; right; left; reflexivity|].
  intros d Hd. discriminate Hd.
Qed.

Lemma handle_keeps (ev : BrowserEvent) (st : State) :
  Forall well_formed (eventQueue st) ->
  Forall well_formed (eventQueue (handle clock hostname href_without_query ev st)).
Proof.
  intros H. destruct ev as [tabId | tabId status url excludeHosts activeTab | tabId
                           | windowId activeTab | enabled tabs]; cbn [handle].
  - rewrite activateTab_queue. apply deactivateTab_keeps. exact H.
  - destruct status as [status|]; [|exact H]. destruct url as [url|]; [|exact H].
    destruct (String.eqb status "complete" && negb (String.eqb url "")); [|exact H].
    apply handleUrlChange_keeps. exact H.
  - apply (deactivateTab_keeps (Some tabId)) in H. exact H.
  - apply (deactivateTab_keeps (currentActiveTabId st)) in H.
    destruct (windowId =? WINDOW_ID_NONE); [exact H|].
    destruct activeTab as [id|]; [|exact H].
    rewrite activateTab_queue. exact H.
  - apply recordTabCount_keeps. exact H.
Qed.

Lemma run_keeps (trace : list BrowserEvent) (st : State) :
  Forall well_formed (eventQueue st) ->
  Forall well_formed (eventQueue (run clock hostname href_without_query trace st)).
Proof.
  revert st. induction trace as [|ev trace IH]; intros st H; [exact H|].
  cbn [run fold_left]. apply IH. apply handle_keeps. exact H.
Qed.

(** X26.  Whatever the browser does and whatever the clock reads, every event
    that the listeners queue has a time, has one of the types visit, dwell and
    tab_count, and has a dwell time above 1000 ms when it has one. *)
Theorem queued_events_are_well_formed (trace : list BrowserEvent) :
  Forall well_formed
    (eventQueue (run clock hostname href_without_query trace initial)).
Proof. apply run_keeps. constructor. Qed.

(** X27.  A period of activity is recorded once: deactivating a tab a second
    time changes nothing, and reads no clock. *)
Theorem deactivating_twice (tabId : option Z) (st : State) :
  deactivateTab clock tabId (deactivateTab clock tabId st) = deactivateTab clock tabId st.
Proof.
  unfold deactivateTab at 2 3.
  destruct (truthy tabId) as [id|] eqn:T;
    [|unfold deactivateTab; rewrite T; reflexivity].
  destruct (get id (tabActivity st)) as [tab|] eqn:G;
    [|unfold deactivateTab; rewrite T, G; reflexivity].
  destruct (truthy (activeSince tab)) as [since|] eqn:A;
    [|unfold deactivateTab; rewrite T, G, A; reflexivity].
  unfold now. cbv beta iota zeta.
  match goal with
  | |- deactivateTab clock tabId (set_activeSince id None ?st2) = _ =>
      assert (G2 : get id (tabActivity st2) = Some tab)
        by (destruct (1000 <? clock (ticks st) - since); exact G);
      generalize dependent st2
  end.
  intros st2 G2. unfold deactivateTab. rewrite T.
  rewrite (tabs_set_activeSince id None st2 tab G2), get_put. reflexivity.
Qed.

(** ** Sending the queue *)

Lemma rows_of_in (server_clock : nat -> Z) (evs : list Event) (i : nat) (r : RawEvent) :
  In r (rows_of server_clock i evs) ->
  exists e j, In e evs /\ r = row_of (server_clock j) e.
Proof.
  revert i. induction evs as [|e evs IH]; intros i H; [destruct H|].
  cbn [rows_of] in H. destruct H as [<-|H].
  - exists e, i. split; [left; reflexivity | reflexivity].
  - destruct (IH (S i) H) as [e' [j [Hin E]]]. exists e', j.
    split; [right; exact Hin | exact E].
Qed.

Lemma rows_of_has (server_clock : nat -> Z) (evs : list Event) (i : nat) (e : Event) :
  In e evs -> exists j, In (row_of (server_clock j) e) (rows_of server_clock i evs).
Proof.
  revert i. induction evs as [|e' evs IH]; intros i H; [destruct H|].
  destruct H as [->|H].
  - exists i. left. reflexivity.
  - destruct (IH (S i) H) as [j Hj]. exists j. right. exact Hj.
Qed.

(** What the server answers to a batch of the extension that is not empty:
    413 to a body above the limit, 500 when the database fails, and 201
    with the rows stored otherwise; never 401 nor 400. *)
Lemma post_of_the_extension (server_clock : nat -> Z) (db_fails : bool) (size : Z)
    (batch : list Event) (raw_events : list RawEvent) :
  batch <> [] ->
  post_events_batch server_clock db_fails
    (mkRequest size (Some Extension.API_KEY) (Some batch)) raw_events
  = if limit <? size then (413, raw_events)
    else if db_fails then (500, raw_events)
    else (201, raw_events ++ rows_of server_clock 0 batch).
Proof.
  intros H. unfold post_events_batch. cbn [content_length x_api_key events].
  destruct (limit <? size); [reflexivity|].
  change (key_accepted "POST" (Some Extension.API_KEY)) with true. cbn [negb].
  destruct batch; [contradiction H; reflexivity | reflexivity].
Qed.

(** X28.  The server never answers 401 or 400 to a batch of the extension:
    the keys of the two files agree and a batch that is sent is not empty,
    so the answer is 413, 500 or 201.  When the request and its answer get
    through, the body is within the limit of the parser and the database
    accepts the transaction, the rows of all queued events are stored after
    the rows of the table, in order, and the queue is emptied; when the
    body is above the limit or the database fails, the table and the queue
    stay as they were. *)
Theorem flush_is_accepted (server_clock : nat -> Z) (db_fails : bool) (st : State)
    (raw_events : list RawEvent) :
  (eventQueue st <> [] ->
   let status :=
     fst (post_events_batch server_clock db_fails
            (mkRequest (body_size (map (sanitize href_without_query) (eventQueue st)))
               (Some Extension.API_KEY)
               (Some (map (sanitize href_without_query) (eventQueue st))))
            raw_events) in
   status = 413 \/ status = 500 \/ status = 201) /\
  flushBatch href_without_query body_size true Delivered server_clock db_fails st raw_events
  = if (limit <? body_size (map (sanitize href_without_query) (eventQueue st)))
       || db_fails
    then (st, raw_events)
    else (clear_queue st,
          raw_events
          ++ rows_of server_clock 0 (map (sanitize href_without_query) (eventQueue st))).
Proof.
  split.
  - intros Hq. cbv zeta. rewrite post_of_the_extension
      by (destruct (eventQueue st); [contradiction Hq; reflexivity | discriminate]).
    destruct (limit <? _); [left; reflexivity|].
    destruct db_fails; [right; left | right; right]; reflexivity.
  - unfold flushBatch. cbn [negb].
    destruct st as [tabs current queue n]. cbn [eventQueue].
    destruct queue as [|e queue].
    + cbn [map rows_of]. rewrite app_nil_r.
      destruct (_ || _); reflexivity.
    + rewrite post_of_the_extension by discriminate.
      destruct (limit <? _); [reflexivity|].
      destruct db_fails; reflexivity.
Qed.

(** X29.  [flushBatch] drops no event of the queue it reads: whether sending
    is enabled or not, whatever becomes of the request and whatever the
    server answers, an event of that queue is in the queue afterwards or its
    row is in the table. *)
Theorem flush_keeps_every_event (enabled : bool) (network : Network)
    (server_clock : nat -> Z) (db_fails : bool) (st : State)
    (raw_events : list RawEvent) (e : Event) :
  In e (eventQueue st) ->
  In e (eventQueue
          (fst (flushBatch href_without_query body_size enabled network server_clock
                  db_fails st raw_events)))
  \/ exists j,
       In (row_of (server_clock j) (sanitize href_without_query e))
          (snd (flushBatch href_without_query body_size enabled network server_clock
                  db_fails st raw_events)).
Proof.
  intros Hin. unfold flushBatch.
  destruct enabled; cbn [negb]; [|left; exact Hin].
  destruct (eventQueue st) as [|e0 queue] eqn:Q; [destruct Hin|].
  destruct network.
  - rewrite post_of_the_extension by discriminate.
    destruct (limit <? _); [left; cbn; rewrite Q; exact Hin|].
    destruct db_fails; [left; cbn; rewrite Q; exact Hin|].
    right. change (ok 201) with true. cbv iota. cbn [snd].
    destruct (rows_of_has server_clock (map (sanitize href_without_query) (e0 :: queue)) 0
                (sanitize href_without_query e)) as [j Hj].
    { apply in_map. exact Hin. }
    exists j. apply in_or_app. right. exact Hj.
  - left. cbn [fst]. rewrite Q. exact Hin.
  - left. cbn [fst]. rewrite Q. exact Hin.
Qed.

(** X30.  The rows that the server stores for the events of the extension
    never hold a negative dwell time, whatever the browser did, whatever the
    clocks read, whatever became of the request and whatever the server
    answered: the table keeps the property under which the ratios of
    [computeMetrics] lie between 0 and 1. *)
Theorem collected_dwell_is_not_negative (trace : list BrowserEvent) (enabled : bool)
    (network : Network) (server_clock : nat -> Z) (db_fails : bool)
    (raw_events : list RawEvent) :
  dwell_not_negative raw_events ->
  dwell_not_negative
    (snd (flushBatch href_without_query body_size enabled network server_clock db_fails
            (run clock hostname href_without_query trace initial) raw_events)).
Proof.
  intros Hnn.
  assert (Hq : Forall well_formed
            (eventQueue (run clock hostname href_without_query trace initial)))
    by (apply run_keeps; constructor).
  set (st := run clock hostname href_without_query trace initial) in *.
  assert (Hrows : dwell_not_negative
            (raw_events
             ++ rows_of server_clock 0 (map (sanitize href_without_query) (eventQueue st)))).
  { intros r ms Hin Hms. apply in_app_or in Hin. destruct Hin as [Hin|Hin].
    - exact (Hnn r ms Hin Hms).
    - apply rows_of_in in Hin. destruct Hin as [e [j [Hin ->]]].
      apply in_map_iff in Hin. destruct Hin as [e0 [<- Hin0]].
      rewrite Forall_forall in Hq. destruct (Hq e0 Hin0) as [_ [_ Hlong]].
      specialize (Hlong ms Hms). lia. }
  unfold flushBatch. destruct enabled; cbn [negb]; [|exact Hnn].
  destruct (eventQueue st) as [|e0 queue] eqn:Q; [exact Hnn|].
  destruct network.
  - rewrite post_of_the_extension by discriminate.
    destruct (limit <? _); [exact Hnn|].
    destruct db_fails; [exact Hnn|].
    change (ok 201) with true. cbv iota. cbn [snd]. exact Hrows.
  - exact Hnn.
  - rewrite post_of_the_extension by discriminate.
    destruct (limit <? _); [exact Hnn|].
    destruct db_fails; [exact Hnn | exact Hrows].
Qed.

End Queue.

Lemma flush_is_accepted_witness :
  fst (post_events_batch minute_clock false
         (mkRequest 600 (Some Extension.API_KEY)
            (Some (map (sanitize simple_href)
                     (eventQueue
                        (run minute_clock simple_hostname simple_href one_visit initial)))))
         busy_day) = 201.
Proof.
  destruct (flush_is_accepted simple_href simple_size minute_clock false
              (run minute_clock simple_hostname simple_href one_visit initial) busy_day)
    as [H _].
  destruct H as [H|[H|H]];
    [vm_compute; discriminate | vm_compute in H; discriminate H
    | vm_compute in H; discriminate H | exact H].
Defined.

Lemma flush_keeps_every_event_witness :
  In (mkEv (Some 1120000) (Some "tab_count") None None None None None None (Some 3))
     (eventQueue
        (fst (flushBatch simple_href simple_size true ReplyLost minute_clock false
                (run minute_clock simple_hostname simple_href one_visit initial) busy_day)))
  \/ exists j,
       In (row_of (minute_clock j)
             (sanitize simple_href
                (mkEv (Some 1120000) (Some "tab_count") None None None None None None
                   (Some 3))))
          (snd (flushBatch simple_href simple_size true ReplyLost minute_clock false
                  (run minute_clock simple_hostname simple_href one_visit initial)
                  busy_day)).
Proof.
  apply flush_keeps_every_event. vm_compute. right. left. reflexivity.
Defined.

Lemma collected_dwell_is_not_negative_witness :
  dwell_not_negative
    (snd (flushBatch simple_href simple_size true Delivered minute_clock false
            (run minute_clock simple_hostname simple_href one_visit initial) busy_day)).
Proof.
  apply collected_dwell_is_not_negative.
  intros e ms [<-|[<-|[<-|[]]]] H; injection H as <-; lia.
Defined.

End ExtensionExtra.
